(** * PayPal fee handler: the fee reconciliation engine

    A shallow embedding of [assets/paypal-fee-handler.js] and the
    properties of its fee calculator, reconciler, trigger scheduler and
    removal-confirmation flow.

    - JavaScript numbers are IEEE 754 binary64 values; they are modelled
      with the executable specification [SpecFloat] of the Standard
      Library.  Amounts read from the cart document (quantities, line
      prices in cents) are integers and are kept in [Z]; the sums the
      script takes of them are given both in [Z] and as sums of
      numbers, which hold the same integers below 2^53.
    - Handlers are [async] functions; each one is modelled as a
      computation in a state-and-exception monad over a [World] (remote
      cart, [sessionStorage], the relevant part of the document, the log
      of requests and what the network is going to do with the next
      requests), and is run to completion: a call that the script does
      not await is run where it is made, and the interleaving of
      handlers that are pending at the same time is not modelled, but
      for two passes of CartAPI.updateFee ([updateFee_overlapping]).
    - The cart store and the timers of the window are outside the
      script; they are modelled from the requests and calls the script
      makes. *)

From Stdlib Require Import ZArith Lia List Bool SpecFloat.
From stdpp Require Import gmap strings.

(** ** JavaScript numbers *)

Module Num.
Local Open Scope Z_scope.

Definition prec : Z := 53.
Definition emax : Z := 1024.

(** The number a decimal integer literal or an integer field of a JSON
    document denotes. *)
Definition number_of_Z (z : Z) : spec_float := binary_normalize prec emax z 0 false.

(** [a * b] on numbers. *)
Definition mul (a b : spec_float) : spec_float := SFmul prec emax a b.

(** [a + b] on numbers. *)
Definition add (a b : spec_float) : spec_float := SFadd prec emax a b.

(** [Math.ceil(x)].  The ceiling of a finite double is an integer that is
    again a double, so the result is given as that integer; the ceiling
    of a number that is not finite is not an integer and is mapped to 0
    here (no cart amount reaches it). *)
Definition Math_ceil (x : spec_float) : Z :=
  match x with
  | S754_finite s m e =>
      let n := if s then Z.neg m else Z.pos m in
      if 0 <=? e then n * 2 ^ e else - ((- n) / 2 ^ (- e))
  | _ => 0
  end.

(** [Math.round(n)] at a number holding the integer [n]: the nearest
    integer of an integer is itself. *)
Definition Math_round (n : Z) : Z := n.

(** The literal [0.035]: the double nearest to 35/1000, which is
    0x1.1eb851eb851ecp-5. *)
Definition lit_0_035 : spec_float := S754_finite false 5044031582654956 (-57).

(** The magnitude of the number with mantissa [m] and exponent [e]. *)
Definition mag (m : positive) (e : Z) : Z := Z.pos (digits2_pos m) + e.

End Num.

(** ** Configuration (CONFIG) *)

Definition PAYPAL_FEE_SKU : string := "PAYPAL-FEE-3-5".
Definition FEE_PERCENTAGE : spec_float := Num.lit_0_035.
Definition PAYPAL_FEE_VARIANT_ID : Z := 52038356861271.
Definition SESSION_KEY_ADDED : string := "paypal_fee_selected".
Definition SESSION_KEY_DECLINED : string := "paypal_fee_declined".

(** ** Utils.calculateFee *)

Definition calculateFee (subtotalCents : Z) : Z :=
  Num.Math_ceil (Num.mul (Num.number_of_Z subtotalCents) FEE_PERCENTAGE).

(** The fee as the documentation of the program states it: 3.5% of the
    subtotal, rounded up to a whole cent. *)
Definition exact_fee (subtotalCents : Z) : Z := (- ((- (subtotalCents * 35)) / 1000))%Z.


(** ** The cart document

    [/cart.js] answers with a document whose [items] are the lines of the
    cart.  The program reads [key], [sku], [quantity] and
    [final_line_price] of a line; [price] (the unit price) is what the
    store uses to recompute the line price when a quantity changes. *)

Record Item := {
  key : string;
  sku : string;
  quantity : Z;
  price : Z;
  final_line_price : Z
}.

Record Cart := { items : list Item }.

Definition item_eqb (a b : Item) : bool :=
  String.eqb (key a) (key b) && String.eqb (sku a) (sku b)
  && Z.eqb (quantity a) (quantity b) && Z.eqb (price a) (price b)
  && Z.eqb (final_line_price a) (final_line_price b).

(** [item.sku === CONFIG.PAYPAL_FEE_SKU] *)
Definition is_fee (item : Item) : bool := String.eqb (sku item) PAYPAL_FEE_SKU.

(** Utils.getSubtotalWithoutFee, with the sum taken in the integers.
    The script adds numbers ([getSubtotalWithoutFee_binary64] below);
    the two agree while no amount is negative and the sum is below
    2^53, which is shown in the section on the subtotal and the item
    count. *)
Definition getSubtotalWithoutFee (cart : Cart) : Z :=
  fold_left (fun subtotal item =>
               if negb (is_fee item) then (subtotal + final_line_price item)%Z else subtotal)
            (items cart) 0%Z.

(** Utils.getAdjustedItemCount, with the sum taken in the integers. *)
Definition getAdjustedItemCount (cart : Cart) : Z :=
  fold_left (fun count item =>
               if negb (is_fee item) then (count + quantity item)%Z else count)
            (items cart) 0%Z.

(** Utils.getSubtotalWithoutFee as the script computes it: [subtotal]
    starts as the number 0, and [forEach] adds to it, as numbers, the
    line prices of the lines that are not fee lines. *)
Definition getSubtotalWithoutFee_binary64 (cart : Cart) : spec_float :=
  fold_left (fun subtotal item =>
               if negb (is_fee item)
               then Num.add subtotal (Num.number_of_Z (final_line_price item))
               else subtotal)
            (items cart) (Num.number_of_Z 0).

(** Utils.getAdjustedItemCount as the script computes it. *)
Definition getAdjustedItemCount_binary64 (cart : Cart) : spec_float :=
  fold_left (fun count item =>
               if negb (is_fee item)
               then Num.add count (Num.number_of_Z (quantity item))
               else count)
            (items cart) (Num.number_of_Z 0).

(** Utils.findFeeLineItem: [Array.prototype.find], [None] for [undefined]. *)
Definition findFeeLineItem (cart : Cart) : option Item := find is_fee (items cart).

(** [Array.prototype.indexOf]: the position of the first element equal to
    [x], or -1.  The script looks up the element that [find] has returned;
    no line before it is a fee line, so that the first line equal to it is
    that very element. *)
Fixpoint indexOf (l : list Item) (x : Item) : Z :=
  match l with
  | [] => (-1)%Z
  | y :: l' => if item_eqb y x then 0%Z
               else let i := indexOf l' x in if (i <? 0)%Z then (-1)%Z else (i + 1)%Z
  end.

(** [haystack.includes(needle)] on strings. *)
Fixpoint includes (needle haystack : string) : bool :=
  String.prefix needle haystack
  || match haystack with
     | EmptyString => false
     | String _ rest => includes needle rest
     end.

(** ** The world the script runs in *)

(** The requests the script sends. *)
Inductive Request :=
| GET_cart                                   (* GET /cart.js *)
| POST_add (id : Z) (qty : Z)                (* POST /cart/add.js, one item with [_paypal_fee] *)
| POST_add_form (item : Item)                (* POST /cart/add.js with a product form *)
| POST_change_line (line : Z) (qty : Z)      (* POST /cart/change.js {line, quantity} *)
| POST_change_id (id : string) (qty : Z)     (* POST /cart/change.js {id, quantity} *)
| GET_section.                               (* GET /cart?section_id=... *)

(** What the network does with the next request: it is served (with or
    without the section in the markup, for a section request), answered
    with an error status and an error document, or the request fails
    (the [fetch] promise rejects). *)
Inductive Outcome :=
| Served
| ServedWithoutSection
| Refused (description : string)
| Failed.

Inductive Body :=
| CartDoc (cart : Cart)
| ErrorDoc (description : string)
| Markup (hasSection : bool).

Record Response := { ok : bool; body : Body }.

(** A checkbox of the document: its [checked] and [disabled] properties. *)
Record Checkbox := { checked : bool; disabled : bool }.

Record World := {
  store : list Item;                     (* the remote cart *)
  sessionStorage : gmap string string;
  checkboxes : gmap string Checkbox;     (* the checkboxes present, by element id *)
  cartSection : bool;                    (* section[data-section-type="cart"] is present *)
  loader : bool;                         (* #paypal-fee-loader is shown *)
  modalElement : bool;                   (* RemoveFeeHandler.modalElement is set *)
  modalActive : bool;                    (* the modal has class 'active' *)
  overflowHidden : bool;                 (* document.body.style.overflow = 'hidden' *)
  recalcListeners : nat;                 (* quantity listeners registered on the document *)
  cartUpdatedListeners : nat;            (* 'cart:updated' listeners registered *)
  alerts : list string;
  dispatched : list string;              (* events dispatched on the document *)
  reloads : nat;                         (* calls of window.location.reload() *)
  requests : list Request;               (* the requests sent, oldest first *)
  network : list Outcome                 (* what the network does next; [] = all served *)
}.

Definition set_store (v : list Item) (w : World) : World :=
  {| store := v; sessionStorage := sessionStorage w; checkboxes := checkboxes w;
     cartSection := cartSection w; loader := loader w; modalElement := modalElement w;
     modalActive := modalActive w; overflowHidden := overflowHidden w;
     recalcListeners := recalcListeners w; cartUpdatedListeners := cartUpdatedListeners w;
     alerts := alerts w; dispatched := dispatched w; reloads := reloads w;
     requests := requests w; network := network w |}.
Definition set_sessionStorage (v : gmap string string) (w : World) : World :=
  {| store := store w; sessionStorage := v; checkboxes := checkboxes w;
     cartSection := cartSection w; loader := loader w; modalElement := modalElement w;
     modalActive := modalActive w; overflowHidden := overflowHidden w;
     recalcListeners := recalcListeners w; cartUpdatedListeners := cartUpdatedListeners w;
     alerts := alerts w; dispatched := dispatched w; reloads := reloads w;
     requests := requests w; network := network w |}.
Definition set_checkboxes (v : gmap string Checkbox) (w : World) : World :=
  {| store := store w; sessionStorage := sessionStorage w; checkboxes := v;
     cartSection := cartSection w; loader := loader w; modalElement := modalElement w;
     modalActive := modalActive w; overflowHidden := overflowHidden w;
     recalcListeners := recalcListeners w; cartUpdatedListeners := cartUpdatedListeners w;
     alerts := alerts w; dispatched := dispatched w; reloads := reloads w;
     requests := requests w; network := network w |}.
Definition set_loader (v : bool) (w : World) : World :=
  {| store := store w; sessionStorage := sessionStorage w; checkboxes := checkboxes w;
     cartSection := cartSection w; loader := v; modalElement := modalElement w;
     modalActive := modalActive w; overflowHidden := overflowHidden w;
     recalcListeners := recalcListeners w; cartUpdatedListeners := cartUpdatedListeners w;
     alerts := alerts w; dispatched := dispatched w; reloads := reloads w;
     requests := requests w; network := network w |}.
Definition set_modal (created active hidden : bool) (w : World) : World :=
  {| store := store w; sessionStorage := sessionStorage w; checkboxes := checkboxes w;
     cartSection := cartSection w; loader := loader w; modalElement := created;
     modalActive := active; overflowHidden := hidden;
     recalcListeners := recalcListeners w; cartUpdatedListeners := cartUpdatedListeners w;
     alerts := alerts w; dispatched := dispatched w; reloads := reloads w;
     requests := requests w; network := network w |}.
Definition set_listeners (recalc updated : nat) (w : World) : World :=
  {| store := store w; sessionStorage := sessionStorage w; checkboxes := checkboxes w;
     cartSection := cartSection w; loader := loader w; modalElement := modalElement w;
     modalActive := modalActive w; overflowHidden := overflowHidden w;
     recalcListeners := recalc; cartUpdatedListeners := updated;
     alerts := alerts w; dispatched := dispatched w; reloads := reloads w;
     requests := requests w; network := network w |}.
Definition set_alerts (v : list string) (w : World) : World :=
  {| store := store w; sessionStorage := sessionStorage w; checkboxes := checkboxes w;
     cartSection := cartSection w; loader := loader w; modalElement := modalElement w;
     modalActive := modalActive w; overflowHidden := overflowHidden w;
     recalcListeners := recalcListeners w; cartUpdatedListeners := cartUpdatedListeners w;
     alerts := v; dispatched := dispatched w; reloads := reloads w;
     requests := requests w; network := network w |}.
Definition set_dispatched (v : list string) (w : World) : World :=
  {| store := store w; sessionStorage := sessionStorage w; checkboxes := checkboxes w;
     cartSection := cartSection w; loader := loader w; modalElement := modalElement w;
     modalActive := modalActive w; overflowHidden := overflowHidden w;
     recalcListeners := recalcListeners w; cartUpdatedListeners := cartUpdatedListeners w;
     alerts := alerts w; dispatched := v; reloads := reloads w;
     requests := requests w; network := network w |}.
Definition set_reloads (v : nat) (w : World) : World :=
  {| store := store w; sessionStorage := sessionStorage w; checkboxes := checkboxes w;
     cartSection := cartSection w; loader := loader w; modalElement := modalElement w;
     modalActive := modalActive w; overflowHidden := overflowHidden w;
     recalcListeners := recalcListeners w; cartUpdatedListeners := cartUpdatedListeners w;
     alerts := alerts w; dispatched := dispatched w; reloads := v;
     requests := requests w; network := network w |}.
Definition set_traffic (s : list Item) (r : list Request) (n : list Outcome) (w : World) : World :=
  {| store := s; sessionStorage := sessionStorage w; checkboxes := checkboxes w;
     cartSection := cartSection w; loader := loader w; modalElement := modalElement w;
     modalActive := modalActive w; overflowHidden := overflowHidden w;
     recalcListeners := recalcListeners w; cartUpdatedListeners := cartUpdatedListeners w;
     alerts := alerts w; dispatched := dispatched w; reloads := reloads w;
     requests := r; network := n |}.

(** ** Computations: state and exceptions

    [None] as result stands for a thrown exception (a rejected promise
    under [await]); the payload of the exception is never inspected by
    the script, it is only logged. *)

Definition M (A : Type) : Type := World -> option A * World.

Definition ret {A} (a : A) : M A := fun w => (Some a, w).
Definition bind {A B} (m : M A) (k : A -> M B) : M B :=
  fun w => match m w with
           | (Some a, w') => k a w'
           | (None, w') => (None, w')
           end.
Definition throw {A} : M A := fun w => (None, w).
(** [try { m } catch (error) { handler }] *)
Definition try_catch {A} (m : M A) (handler : M A) : M A :=
  fun w => match m w with
           | (Some a, w') => (Some a, w')
           | (None, w') => handler w'
           end.
Definition get : M World := fun w => (Some w, w).
Definition modify (f : World -> World) : M unit := fun w => (Some tt, f w).
(** The world a computation leaves behind. *)
Definition exec {A} (m : M A) (w : World) : World := snd (m w).
Definition result {A} (m : M A) (w : World) : option A := fst (m w).

Declare Scope js_scope.
Delimit Scope js_scope with js.
Notation "x <- m ;; k" := (bind m (fun x => k))
  (at level 100, m at next level, right associativity) : js_scope.
Notation "m ;; k" := (bind m (fun _ => k))
  (at level 100, right associativity) : js_scope.
Local Open Scope js_scope.

(** [when c m]: [if (c) { m }]. *)
Definition when (c : bool) (m : M unit) : M unit := if c then m else ret tt.

(** Reading a property of [null] throws a TypeError. *)
Definition deref {A} (o : option A) : M A :=
  match o with Some a => ret a | None => throw end.

(** *** sessionStorage *)

Definition getItem (k : string) : M (option string) :=
  w <- get ;; ret (sessionStorage w !! k).
Definition setItem (k v : string) : M unit :=
  modify (fun w => set_sessionStorage (<[k := v]> (sessionStorage w)) w).
Definition removeItem (k : string) : M unit :=
  modify (fun w => set_sessionStorage (delete k (sessionStorage w)) w).

(** [sessionStorage.getItem(CONFIG.SESSION_KEY_ADDED) === 'true'] *)
Definition is_true (v : option string) : bool :=
  match v with Some s => String.eqb s "true" | None => false end.
Definition userWantsFee : M bool :=
  v <- getItem SESSION_KEY_ADDED ;; ret (is_true v).

(** *** The document *)

Definition ID_MAIN : string := "paypal-fee-checkbox-main".
Definition ID_DRAWER : string := "paypal-fee-checkbox-drawer".
Definition ID_PRODUCT : string := "paypal-fee-checkbox-product".

(** [document.getElementById(id).checked]; [false] if there is no such
    element. *)
Definition getChecked (id : string) : M bool :=
  w <- get ;; ret (match checkboxes w !! id with Some c => checked c | None => false end).
(** [if (el) el.checked = v] *)
Definition setChecked (id : string) (v : bool) : M unit :=
  modify (fun w => set_checkboxes
    (alter (fun c => {| checked := v; disabled := disabled c |}) id (checkboxes w)) w).
Definition setDisabled (id : string) (v : bool) : M unit :=
  modify (fun w => set_checkboxes
    (alter (fun c => {| checked := checked c; disabled := v |}) id (checkboxes w)) w).

Definition showLoader : M unit := modify (set_loader true).
Definition hideLoader : M unit := modify (set_loader false).
Definition alert (msg : string) : M unit := modify (fun w => set_alerts (alerts w ++ [msg]) w).
Definition dispatchEvent (name : string) : M unit :=
  modify (fun w => set_dispatched (dispatched w ++ [name]) w).
(** [window.location.reload()]; the call is recorded, the script goes on
    until the page is left. *)
Definition reload : M unit := modify (fun w => set_reloads (S (reloads w)) w).

(** *** The remote cart store

    The store is outside the program.  It is modelled from the requests
    the program sends: a fee product added to the cart becomes a new line
    of 1 cent units (lines are not merged, so that a second add would
    show as a second line); a quantity change addresses a line by its
    1-based position or by its key, and quantity 0 removes the line.  A
    request the store cannot serve is answered with an error status. *)

Definition FEE_LINE_KEY : string := "52038356861271:paypal-fee".

Definition fee_line (qty : Z) : Item :=
  {| key := FEE_LINE_KEY; sku := PAYPAL_FEE_SKU; quantity := qty; price := 1;
     final_line_price := qty |}.

Definition with_quantity (qty : Z) (item : Item) : Item :=
  {| key := key item; sku := sku item; quantity := qty; price := price item;
     final_line_price := (price item * qty)%Z |}.

Fixpoint change_at (n : nat) (qty : Z) (l : list Item) : option (list Item) :=
  match l, n with
  | [], _ => None
  | x :: l', O => Some (if (qty =? 0)%Z then l' else with_quantity qty x :: l')
  | x :: l', S n' => option_map (cons x) (change_at n' qty l')
  end.

Fixpoint change_key (id : string) (qty : Z) (l : list Item) : option (list Item) :=
  match l with
  | [] => None
  | x :: l' => if String.eqb (key x) id
               then Some (if (qty =? 0)%Z then l' else with_quantity qty x :: l')
               else option_map (cons x) (change_key id qty l')
  end.

Definition serve (r : Request) (s : list Item) : option (list Item) :=
  match r with
  | GET_cart | GET_section => Some s
  | POST_add id qty =>
      if ((id =? PAYPAL_FEE_VARIANT_ID) && (0 <? qty))%Z then Some (s ++ [fee_line qty]) else None
  | POST_add_form item => Some (s ++ [item])
  | POST_change_line line qty =>
      if ((1 <=? line) && (0 <=? qty))%Z then change_at (Z.to_nat (line - 1)) qty s else None
  | POST_change_id id qty =>
      if (0 <=? qty)%Z then change_key id qty s else None
  end.

(** [await fetch(...)]: the request is recorded and the next outcome of
    the network applies. *)
Definition fetch (r : Request) : M Response :=
  fun w =>
    let sent := requests w ++ [r] in
    let rest := tl (network w) in
    match hd Served (network w) with
    | Failed => (None, set_traffic (store w) sent rest w)
    | Refused d => (Some {| ok := false; body := ErrorDoc d |}, set_traffic (store w) sent rest w)
    | (Served | ServedWithoutSection) as o =>
        match serve r (store w) with
        | None => (Some {| ok := false; body := ErrorDoc "" |}, set_traffic (store w) sent rest w)
        | Some s' =>
            let b := match r with
                     | GET_section => Markup (match o with Served => true | _ => false end)
                     | _ => CartDoc {| items := s' |}
                     end in
            (Some {| ok := true; body := b |}, set_traffic s' sent rest w)
        end
    end.

(** [await response.json()] where a cart document is expected. *)
Definition json_cart (response : Response) : M Cart :=
  match body response with CartDoc c => ret c | _ => throw end.

(** ** Utils.getCart

    A request that fails ends in the [catch] and gives [null].  The
    function does not look at the status of the answer, it parses the
    body.  An answer to [/cart.js] with an error status is assumed here
    to carry no JSON document, so that [response.json()] fails on it
    and the result is [null] as well.  Where the answer does carry a
    JSON document, [getCart] hands that document to its caller, which
    then fails at [cart.items]; this case is outside the model, and the
    statements on what a caller of [getCart] returns exclude an error
    status on the read ([not_refused]). *)
Definition getCart : M (option Cart) :=
  try_catch
    (response <- fetch GET_cart ;;
     cart <- json_cart response ;;
     ret (Some cart))
    (ret None).

(** ** CartAPI and CheckboxHandler *)

(** CartAPI.removeFee *)
Definition removeFee : M bool :=
  cart <- getCart ;;
  match cart with
  | None => ret false
  | Some cart =>
      match findFeeLineItem cart with
      | None => ret true
      | Some feeLineItem =>
          let lineIndex := (indexOf (items cart) feeLineItem + 1)%Z in
          try_catch
            (response <- fetch (POST_change_line lineIndex 0) ;;
             if negb (ok response) then throw else ret true)
            (ret false)
      end
  end.

(** CheckboxHandler.checkEmptyCart *)
Definition checkEmptyCart : M unit :=
  cart <- getCart ;;
  match cart with
  | None => ret tt
  | Some cart =>
      let subtotal := getSubtotalWithoutFee cart in
      when (subtotal =? 0)%Z
        (removeFee ;;
         setChecked ID_MAIN false ;;
         setChecked ID_DRAWER false ;;
         removeItem SESSION_KEY_ADDED)
  end.

(** One of the three blocks of CheckboxHandler.init that synchronise a
    checkbox with the stored preference and re-attach its listener. *)
Definition syncCheckbox (id : string) : M unit :=
  shouldBeChecked <- userWantsFee ;;
  setChecked id shouldBeChecked.

(** CheckboxHandler.init.  Every call registers one more set of quantity
    listeners on the document; the call of [checkEmptyCart] is not
    awaited and is run here. *)
Definition CheckboxHandler_init : M unit :=
  syncCheckbox ID_MAIN ;;
  syncCheckbox ID_DRAWER ;;
  syncCheckbox ID_PRODUCT ;;
  modify (fun w => set_listeners (S (recalcListeners w)) (cartUpdatedListeners w) w) ;;
  checkEmptyCart.

(** CartAPI.refreshCartUI *)
Definition refreshCartUI : M unit :=
  try_catch
    (w <- get ;;
     if negb (cartSection w) then reload
     else
       response <- fetch GET_section ;;
       if negb (ok response) then reload
       else
         match body response with
         | Markup true => CheckboxHandler_init
         | _ => reload
         end)
    reload.

Definition MSG_NO_VARIANT : string :=
  "ERRORE: Variant ID commissione PayPal non configurato. Contatta l'assistenza.".
Definition MSG_OUT_OF_STOCK : string :=
  "Il prodotto commissione PayPal non è disponibile. Contatta l'assistenza.".
Definition MSG_CHECKBOX_ERROR : string :=
  "Errore durante l'aggiornamento. Ricarica la pagina.".

(** The [if (!response.ok)] block of CartAPI.addFee. *)
Definition addFee_not_ok (response : Response) : M unit :=
  match body response with
  | ErrorDoc d => when (includes "out of stock" d) (alert MSG_OUT_OF_STOCK)
  | _ => ret tt
  end ;;
  throw.

(** CartAPI.addFee; the result is the truthiness of what the function
    returns ([updated] or [false]). *)
Definition addFee (feeAmount : Z) : M bool :=
  if (PAYPAL_FEE_VARIANT_ID =? 0)%Z then
    alert MSG_NO_VARIANT ;; ret false
  else
    try_catch
      (let quantityInCents := Num.Math_round feeAmount in
       response <- fetch (POST_add PAYPAL_FEE_VARIANT_ID quantityInCents) ;;
       (if negb (ok response) then addFee_not_ok response else ret tt) ;;
       updated <- json_cart response ;;
       refreshCartUI ;;
       ret true)
      (ret false).

(** CartAPI.setFeeQuantity *)
Definition setFeeQuantity (lineItemKey : string) (quantityInCents : Z) : M bool :=
  try_catch
    (response <- fetch (POST_change_id lineItemKey quantityInCents) ;;
     (if negb (ok response) then throw else ret tt) ;;
     updatedCart <- json_cart response ;;
     refreshCartUI ;;
     ret true)
    (ret false).

(** CartAPI.updateFee *)
Definition updateFee : M bool :=
  cart <- getCart ;;
  match cart with
  | None => ret false
  | Some cart =>
      let subtotal := getSubtotalWithoutFee cart in
      if (subtotal =? 0)%Z then
        removeFee ;; ret false
      else
        let feeAmount := calculateFee subtotal in
        let desiredQuantity := Num.Math_round feeAmount in
        let existingFee := findFeeLineItem cart in
        match existingFee with
        | Some fee =>
            if (quantity fee =? desiredQuantity)%Z then ret true
            else setFeeQuantity (key fee) desiredQuantity ;; ret true
        | None => addFee feeAmount ;; ret true
        end
  end.

(** CartAPI.updateFee from the cart document it has read. *)
Definition updateFee_from (cart : option Cart) : M bool :=
  match cart with
  | None => ret false
  | Some cart =>
      let subtotal := getSubtotalWithoutFee cart in
      if (subtotal =? 0)%Z then
        removeFee ;; ret false
      else
        let feeAmount := calculateFee subtotal in
        let desiredQuantity := Num.Math_round feeAmount in
        let existingFee := findFeeLineItem cart in
        match existingFee with
        | Some fee =>
            if (quantity fee =? desiredQuantity)%Z then ret true
            else setFeeQuantity (key fee) desiredQuantity ;; ret true
        | None => addFee feeAmount ;; ret true
        end
  end.

(** Two passes of CartAPI.updateFee in flight together.  Nothing in the
    script makes a pass wait for another one: the task at the end of
    [init] is not awaited, and [init] runs twice when the page loads.
    Here the reads of both passes are answered before either of them
    changes the cart. *)
Definition updateFee_overlapping : M unit :=
  cart1 <- getCart ;;
  cart2 <- getCart ;;
  updateFee_from cart1 ;;
  updateFee_from cart2 ;;
  ret tt.

(** syncCheckboxFromStorage *)
Definition syncCheckboxFromStorage : M unit :=
  shouldBeChecked <- userWantsFee ;;
  when shouldBeChecked (setChecked ID_MAIN true ;; setChecked ID_DRAWER true).

(** The task that [scheduleRecalc] hands to [window.setTimeout]. *)
Definition recalcTask : M unit :=
  cart <- getCart ;;
  match cart with
  | None => ret tt
  | Some cart =>
      let hasFee := findFeeLineItem cart in
      userWantsFee <- userWantsFee ;;
      when (bool_decide (is_Some hasFee) || userWantsFee)
        (updateFee ;; refreshCartUI)
  end.

(** CheckboxHandler.handleCheckboxChange, for a change event whose target
    is the checkbox [target]. *)
Definition handleCheckboxChange (target : string) : M unit :=
  isChecked <- getChecked target ;;
  setDisabled target true ;;
  showLoader ;;
  (if isChecked then
     setItem SESSION_KEY_ADDED "true" ;;
     removeItem SESSION_KEY_DECLINED
   else
     removeItem SESSION_KEY_ADDED) ;;
  dispatchEvent "paypal-fee-changed" ;;
  try_catch
    ((if isChecked then
        cart <- getCart ;;
        cart <- deref cart ;;
        let subtotal := getSubtotalWithoutFee cart in
        let feeAmount := calculateFee subtotal in
        addFee feeAmount ;; ret tt
      else
        removeFee ;; ret tt) ;;
     reload)
    (hideLoader ;;
     alert MSG_CHECKBOX_ERROR ;;
     setChecked target (negb isChecked) ;;
     setDisabled target false ;;
     if isChecked then removeItem SESSION_KEY_ADDED
     else setItem SESSION_KEY_ADDED "true").

(** CheckboxHandler.handleProductCheckboxChange *)
Definition handleProductCheckboxChange : M unit :=
  isChecked <- getChecked ID_PRODUCT ;;
  (if isChecked then
     setItem SESSION_KEY_ADDED "true" ;;
     removeItem SESSION_KEY_DECLINED
   else
     removeItem SESSION_KEY_ADDED) ;;
  setChecked ID_MAIN isChecked ;;
  setChecked ID_DRAWER isChecked.

(** CheckboxHandler.syncCheckboxState *)
Definition syncCheckboxState (checkbox : string) : M unit :=
  cart <- getCart ;;
  match cart with
  | None => ret tt
  | Some cart =>
      let hasFee := bool_decide (is_Some (findFeeLineItem cart)) in
      setChecked checkbox hasFee ;;
      when hasFee (setItem SESSION_KEY_ADDED "true")
  end.

(** The listener of 'cart:updated' registered by [init]. *)
Definition onCartUpdated : M unit :=
  checkEmptyCart ;;
  cart <- getCart ;;
  match cart with
  | None => ret tt
  | Some cart =>
      let hasFee := findFeeLineItem cart in
      userWantsFee <- userWantsFee ;;
      when (bool_decide (is_Some hasFee) || userWantsFee)
        (updateFee ;; refreshCartUI)
  end.

(** The immediately invoked task at the end of [init]. *)
Definition alignFee : M unit :=
  cart <- getCart ;;
  match cart with
  | None => ret tt
  | Some cart =>
      let hasFee := bool_decide (is_Some (findFeeLineItem cart)) in
      userSelected <- userWantsFee ;;
      when (hasFee || userSelected) (updateFee ;; ret tt)
  end.

(** init, once the document is ready. *)
Definition init : M unit :=
  CheckboxHandler_init ;;
  modify (fun w => set_listeners (recalcListeners w) (S (cartUpdatedListeners w)) w) ;;
  alignFee.

(** AddToCartNoRedirect.ajaxAdd for a product form that adds [item]. *)
Definition ajaxAdd (item : Item) : M unit :=
  try_catch
    (response <- fetch (POST_add_form item) ;;
     userWantsFee <- userWantsFee ;;
     when userWantsFee
       (try_catch
          (cart <- getCart ;;
           cart <- deref cart ;;
           let subtotal := getSubtotalWithoutFee cart in
           let feeAmount := calculateFee subtotal in
           addFee feeAmount ;; ret tt)
          (ret tt)) ;;
     dispatchEvent "cart:updated")
    (ret tt).

(** ** RemoveFeeHandler *)

Definition createModal : M unit :=
  modify (fun w => set_modal true (modalActive w) (overflowHidden w) w).

Definition showConfirmModal : M unit :=
  w <- get ;;
  when (modalElement w) (modify (set_modal true true true)).

Definition closeConfirmModal : M unit :=
  w <- get ;;
  when (modalElement w) (modify (set_modal true false false)).

(** The keydown listener of the document, for the Escape key. *)
Definition onEscape : M unit :=
  w <- get ;;
  when (modalActive w) closeConfirmModal.

(** RemoveFeeHandler.handleRemoveClick on a [data-paypal-fee-remove]
    control. *)
Definition handleRemoveClick : M unit := showConfirmModal.

(** RemoveFeeHandler.confirmRemoval *)
Definition confirmRemoval : M bool :=
  closeConfirmModal ;;
  removeFee ;;
  setChecked "paypal-fee-checkbox" false ;;
  setChecked ID_DRAWER false ;;
  removeItem SESSION_KEY_ADDED ;;
  refreshCartUI ;;
  ret false.

(** The script from top to bottom on a loaded page: the early
    synchronisation, the auto-init, and [initializeAll].  Each call of
    [init] is run to its end here, the second after the first.  On the
    page neither the call of [checkEmptyCart] nor the task at the end of
    [init] is awaited, so that the requests of the two calls are in
    flight together; [pageScript] is the schedule in which they do not
    meet.  What is stated of it is kept by every step of every handler
    and so does not depend on the schedule: which listeners are
    registered, which keys of the storage are written, which alerts are
    shown, what happens to the modal. *)
Definition pageScript : M unit :=
  syncCheckboxFromStorage ;;
  init ;;
  createModal ;;
  init.

(** ** Events the page reacts to *)

Inductive Event :=
| PageLoaded
| CheckboxToggled (target : string)     (* the user toggles the main or drawer checkbox *)
| ProductCheckboxToggled
| CartUpdated                           (* 'cart:updated' reaches a listener *)
| RecalcTimerFired                      (* the debounced task runs *)
| AddToCartSubmitted (item : Item)
| RemoveClicked
| ModalCancelClicked
| ModalOverlayClicked
| EscapePressed
| ModalConfirmClicked.

(** The browser flips the box before it fires the change event. *)
Definition toggle (id : string) : M unit :=
  c <- getChecked id ;; setChecked id (negb c).

Definition react (e : Event) : M unit :=
  match e with
  | PageLoaded => pageScript
  | CheckboxToggled target => toggle target ;; handleCheckboxChange target
  | ProductCheckboxToggled => toggle ID_PRODUCT ;; handleProductCheckboxChange
  | CartUpdated => onCartUpdated
  | RecalcTimerFired => recalcTask
  | AddToCartSubmitted item => ajaxAdd item
  | RemoveClicked => handleRemoveClick
  | ModalCancelClicked => closeConfirmModal
  | ModalOverlayClicked => closeConfirmModal
  | EscapePressed => onEscape
  | ModalConfirmClicked => confirmRemoval ;; ret tt
  end.

Definition run (es : list Event) (w : World) : World :=
  fold_left (fun w e => exec (react e) w) es w.

(** ** The debounced quantity triggers

    [scheduleRecalc] and the timers of the window, with the time in
    milliseconds.  A timeout runs when its delay has elapsed; pending
    timeouts are kept in the order in which they were set, which, the
    delay being constant, is the order in which they are due. *)

Module Debounce.

Record Sched := {
  world : World;
  now : nat;
  _recalcTimer : option nat;        (* CheckboxHandler._recalcTimer *)
  timers : list (nat * nat);        (* pending timeouts: identifier, due time *)
  nextTimer : nat;                  (* the identifier the next timeout gets *)
  fired : list nat                  (* the times at which the delayed task ran *)
}.

Definition QUIESCENCE : nat := 600.

(** [window.clearTimeout(id)]; unknown and undefined identifiers are
    ignored. *)
Definition clearTimeout (id : option nat) (s : Sched) : Sched :=
  match id with
  | None => s
  | Some i =>
      {| world := world s; now := now s; _recalcTimer := _recalcTimer s;
         timers := List.filter (fun t => negb (fst t =? i)%nat) (timers s);
         nextTimer := nextTimer s; fired := fired s |}
  end.

(** [window.setTimeout(task, delay)] for the recalculation task. *)
Definition setTimeout (delay : nat) (s : Sched) : nat * Sched :=
  (nextTimer s,
   {| world := world s; now := now s; _recalcTimer := _recalcTimer s;
      timers := timers s ++ [(nextTimer s, now s + delay)];
      nextTimer := S (nextTimer s); fired := fired s |}).

(** scheduleRecalc *)
Definition scheduleRecalc (s : Sched) : Sched :=
  let s1 := clearTimeout (_recalcTimer s) s in
  let '(id, s2) := setTimeout QUIESCENCE s1 in
  {| world := world s2; now := now s2; _recalcTimer := Some id;
     timers := timers s2; nextTimer := nextTimer s2; fired := fired s2 |}.

(** A click on a quantity control, or a change or input event of a
    quantity field: every listener set registered by CheckboxHandler.init
    calls its [scheduleRecalc]; all of them share
    [CheckboxHandler._recalcTimer]. *)
Definition quantityEvent (s : Sched) : Sched :=
  Nat.iter (recalcListeners (world s)) scheduleRecalc s.

(** The timeout [t] runs: the delayed task is executed on the world. *)
Definition fire (s : Sched) (t : nat * nat) : Sched :=
  {| world := exec recalcTask (world s); now := now s; _recalcTimer := _recalcTimer s;
     timers := List.filter (fun t' => negb (fst t' =? fst t)%nat) (timers s);
     nextTimer := nextTimer s; fired := fired s ++ [snd t] |}.

(** [dt] milliseconds pass: the timeouts that become due run. *)
Definition elapse (dt : nat) (s : Sched) : Sched :=
  let later := now s + dt in
  let s' := fold_left fire (List.filter (fun t => (snd t <=? later)%nat) (timers s)) s in
  {| world := world s'; now := later; _recalcTimer := _recalcTimer s';
     timers := timers s'; nextTimer := nextTimer s'; fired := fired s' |}.

(** What happens on the page: the user changes a quantity (the cart of
    the store changes by [edit], and the quantity event fires), or time
    passes. *)
Inductive Step :=
| Quantity (edit : list Item -> list Item)
| Wait (dt : nat).

Definition step (s : Sched) (st : Step) : Sched :=
  match st with
  | Quantity edit =>
      quantityEvent
        {| world := set_store (edit (store (world s))) (world s); now := now s;
           _recalcTimer := _recalcTimer s; timers := timers s;
           nextTimer := nextTimer s; fired := fired s |}
  | Wait dt => elapse dt s
  end.

Definition steps (sts : list Step) (s : Sched) : Sched := fold_left step sts s.

(** The states passed through, the last one first excluded: the state
    after each step. *)
Fixpoint trace (sts : list Step) (s : Sched) : list Sched :=
  match sts with
  | [] => []
  | st :: sts' => step s st :: trace sts' (step s st)
  end.

(** A burst: a first quantity change, and further ones, each after a gap. *)
Definition burst (first : list Item -> list Item)
    (more : list (nat * (list Item -> list Item))) : list Step :=
  Quantity first :: flat_map (fun '(gap, edit) => [Wait gap; Quantity edit]) more.

Definition gaps (more : list (nat * (list Item -> list Item))) : nat :=
  fold_right (fun '(gap, _) n => gap + n) 0 more.

Definition edited (first : list Item -> list Item)
    (more : list (nat * (list Item -> list Item))) (s : list Item) : list Item :=
  fold_left (fun s '(_, edit) => edit s) more (first s).

(** No timeout is pending, or the one that [_recalcTimer] names. *)
Definition settled (s : Sched) : bool :=
  match timers s with
  | [] => true
  | [(id, _)] => match _recalcTimer s with Some i => (i =? id)%nat | None => false end
  | _ => false
  end.

(** The state in which exactly the timeout [id], set at the present
    time, is pending. *)
Definition armed (id : nat) (s : Sched) : Sched :=
  {| world := world s; now := now s; _recalcTimer := Some id;
     timers := [(id, now s + QUIESCENCE)]; nextTimer := S id; fired := fired s |}.

End Debounce.

(** ** Vocabulary of the statements *)

(** The requests that change the cart of the store. *)
Definition is_mutation (r : Request) : bool :=
  match r with
  | GET_cart | GET_section => false
  | _ => true
  end.
Definition mutations (w : World) : list Request := List.filter is_mutation (requests w).

(** The subtotal, without the fee, of the lines of a cart. *)
Definition subtotal_of (l : list Item) : Z := getSubtotalWithoutFee {| items := l |}.

(** The number of fee lines in a cart. *)
Definition fee_lines (l : list Item) : nat := length (List.filter is_fee l).

(** The preference: the user wants the fee. *)
Definition wants_fee (w : World) : bool := is_true (sessionStorage w !! SESSION_KEY_ADDED).

(** Carts the store hands out: keys identify lines, there is at most one
    fee line, line prices are not negative, and the subtotal is an
    integer that a number holds exactly. *)
Definition wf_cart (l : list Item) : bool :=
  bool_decide (NoDup (key <$> l))
  && (fee_lines l <=? 1)%nat
  && forallb (fun i => (0 <=? final_line_price i)%Z) l
  && (getSubtotalWithoutFee {| items := l |} <? 2 ^ 53)%Z.

(** The next request of the network is served. *)
Definition served (n : list Outcome) : bool :=
  match hd Served n with
  | Served | ServedWithoutSection => true
  | _ => false
  end.

(** The world after a request that left the cart of the store alone. *)
Definition sent (r : Request) (w : World) : World :=
  set_traffic (store w) (requests w ++ [r]) (tl (network w)) w.

(** The cart without its first fee line, and with the quantity of its
    first fee line set. *)
Fixpoint drop_first_fee (l : list Item) : list Item :=
  match l with
  | [] => []
  | x :: l' => if is_fee x then l' else x :: drop_first_fee l'
  end.

Fixpoint set_first_fee (qty : Z) (l : list Item) : list Item :=
  match l with
  | [] => []
  | x :: l' => if is_fee x then with_quantity qty x :: l' else x :: set_first_fee qty l'
  end.

(** The one request by which [updateFee] changes the cart it has read,
    if any: this is the decision made by its branches. *)
Definition reconcile (l : list Item) : option Request :=
  let cart := {| items := l |} in
  let subtotal := getSubtotalWithoutFee cart in
  if (subtotal =? 0)%Z then
    match findFeeLineItem cart with
    | Some fee => Some (POST_change_line (indexOf l fee + 1) 0)
    | None => None
    end
  else
    let desired := calculateFee subtotal in
    match findFeeLineItem cart with
    | Some fee => if (quantity fee =? desired)%Z then None
                  else Some (POST_change_id (key fee) desired)
    | None => Some (POST_add PAYPAL_FEE_VARIANT_ID desired)
    end.

(** The cart of the store once it has served the request, if it can. *)
Definition applied (r : option Request) (l : list Item) : list Item :=
  match r with
  | Some r => match serve r l with Some l' => l' | None => l end
  | None => l
  end.

(** *** Relations between the world before and after a computation *)

(** [m] takes every world to one related to it by [R]. *)
Definition preserves {A} (R : World -> World -> Prop) (m : M A) : Prop :=
  forall w, R w (exec m w).

(** Entries of [sessionStorage] are kept or deleted. *)
Definition only_deletes (w w' : World) : Prop :=
  forall k, sessionStorage w' !! k = sessionStorage w !! k \/ sessionStorage w' !! k = None.

(** Entries of [sessionStorage] are kept or deleted, except that
    [SESSION_KEY_ADDED] may be set to 'true'. *)
Definition only_sets_added (w w' : World) : Prop :=
  forall k, sessionStorage w' !! k = sessionStorage w !! k
            \/ sessionStorage w' !! k = None
            \/ (k = SESSION_KEY_ADDED /\ sessionStorage w' !! k = Some "true").

Definition is_add (r : Request) : bool :=
  match r with POST_add _ _ | POST_add_form _ => true | _ => false end.

(** The requests sent since are no adds. *)
Definition sends_no_add (w w' : World) : Prop :=
  exists l, requests w' = requests w ++ l /\ forallb (fun r => negb (is_add r)) l = true.

(** The cart has no more fee lines than before. *)
Definition no_more_fee_lines (w w' : World) : Prop :=
  (fee_lines (store w') <= fee_lines (store w))%nat.

(** A cart with at most one fee line stays one. *)
Definition keeps_one_fee_line (w w' : World) : Prop :=
  (fee_lines (store w) <= 1)%nat -> (fee_lines (store w') <= 1)%nat.

(** With a subtotal other than 0, the cart is left alone. *)
Definition quiet_if_nonempty (w w' : World) : Prop :=
  subtotal_of (store w) <> 0%Z -> store w' = store w /\ mutations w' = mutations w.

(** Without a fee line, the cart is left alone. *)
Definition quiet_if_no_fee (w w' : World) : Prop :=
  fee_lines (store w) = 0%nat -> store w' = store w /\ mutations w' = mutations w.

(** A network that serves everything goes on doing so. *)
Definition stays_healthy (w w' : World) : Prop :=
  network w = [] -> network w' = [].

(** The cart and the traffic are the same. *)
Definition same_traffic (w w' : World) : Prop :=
  store w' = store w /\ requests w' = requests w /\ network w' = network w.

(** The requests of a list, as the list of those sent after [w]. *)
Definition option_list {A} (o : option A) : list A :=
  match o with Some a => [a] | None => [] end.

(** [m] never throws. *)
Definition returns {A} (m : M A) : Prop := forall w, result m w <> None.

(** *** Worlds to evaluate the script on *)

Definition rifle : Item :=
  {| key := "40123456789:0a1b"; sku := "AEG-M4"; quantity := 1; price := 1000;
     final_line_price := 1000 |}.

(** A loaded cart page: the cart of the store, whether the user has
    asked for the fee (boxes and storage agree), and what the network is
    going to do. *)
Definition page (cart : list Item) (wantsFee : bool) (net : list Outcome) : World :=
  {| store := cart;
     sessionStorage := if wantsFee then {[ SESSION_KEY_ADDED := "true" ]} else ∅;
     checkboxes := {[ ID_MAIN := {| checked := wantsFee; disabled := false |};
                      ID_DRAWER := {| checked := wantsFee; disabled := false |} ]};
     cartSection := true; loader := false;
     modalElement := true; modalActive := false; overflowHidden := false;
     recalcListeners := 2; cartUpdatedListeners := 2;
     alerts := []; dispatched := []; reloads := 0; requests := []; network := net |}.

(** The box [id] is there and checked. *)
Definition box_checked (id : string) (w : World) : bool :=
  match checkboxes w !! id with Some c => checked c | None => false end.

(** A box that is not checked stays so. *)
Definition keeps_unchecked (id : string) (w w' : World) : Prop :=
  box_checked id w = false -> box_checked id w' = false.

(** The modal and the cart section are as before. *)
Definition same_page (w w' : World) : Prop :=
  modalElement w' = modalElement w /\ modalActive w' = modalActive w
  /\ overflowHidden w' = overflowHidden w /\ cartSection w' = cartSection w.

(** *** Vocabulary of the further properties *)

(** The lines of a cart that are not fee lines. *)
Definition merchandise (l : list Item) : list Item :=
  List.filter (fun item => negb (is_fee item)) l.

(** The sum of a field over the lines of a cart. *)
Definition total (f : Item -> Z) (l : list Item) : Z :=
  fold_right (fun item a => (f item + a)%Z) 0%Z l.

(** Alerts, reloads and listeners are as before. *)
Definition same_bookkeeping (w w' : World) : Prop :=
  alerts w' = alerts w /\ reloads w' = reloads w
  /\ recalcListeners w' = recalcListeners w
  /\ cartUpdatedListeners w' = cartUpdatedListeners w.

(** No alert is shown. *)
Definition same_alerts (w w' : World) : Prop := alerts w' = alerts w.

(** Listener sets are only added, and no 'cart:updated' listener is. *)
Definition listeners_grow (w w' : World) : Prop :=
  (recalcListeners w <= recalcListeners w')%nat
  /\ cartUpdatedListeners w' = cartUpdatedListeners w.

(** The modal is as open as before, and the scroll as locked. *)
Definition same_modal_state (w w' : World) : Prop :=
  modalActive w' = modalActive w /\ overflowHidden w' = overflowHidden w.

(** With a subtotal other than 0, the cart and the storage are left
    alone. *)
Definition calm_if_nonempty (w w' : World) : Prop :=
  subtotal_of (store w) <> 0%Z ->
  store w' = store w /\ sessionStorage w' = sessionStorage w.

(** Reloads are only added. *)
Definition reloads_grow (w w' : World) : Prop := (reloads w <= reloads w')%nat.

(** The box [id] is in the document. *)
Definition box_present (id : string) (w : World) : bool :=
  bool_decide (is_Some (checkboxes w !! id)).

(** The loader is shown or hidden as before. *)
Definition same_loader (w w' : World) : Prop := loader w' = loader w.

(** The checkboxes are as before. *)
Definition same_boxes (w w' : World) : Prop := checkboxes w' = checkboxes w.

(** What CheckboxHandler.init makes of a checkbox: it shows the stored
    preference. *)
Definition synced (v : bool) (c : Checkbox) : Checkbox :=
  {| checked := v; disabled := disabled c |}.

(** The modal is as it was, or has been closed and the scroll released. *)
Definition modal_closes (w w' : World) : Prop :=
  same_modal_state w w' \/ (modalActive w' = false /\ overflowHidden w' = false).

(** The events that open the modal. *)
Definition opens_modal (e : Event) : bool :=
  match e with RemoveClicked => true | _ => false end.

(** The alerts shown since are the out-of-stock alert of [addFee] or the
    error alert of the checkbox handler. *)
Definition known_alert (msg : string) : bool :=
  String.eqb msg MSG_OUT_OF_STOCK || String.eqb msg MSG_CHECKBOX_ERROR.
Definition alerts_known (w w' : World) : Prop :=
  exists l, alerts w' = alerts w ++ l /\ forallb known_alert l = true.

(** The cart that the automatic pipelines aim at, from the cart [l] and
    the preference: without its fee line when the subtotal is 0, with
    the fee aligned when the user wants the fee or the cart holds a fee
    line, and as it is otherwise. *)
Definition settled_cart (wants : bool) (l : list Item) : list Item :=
  if (subtotal_of l =? 0)%Z then drop_first_fee l
  else if wants || (0 <? fee_lines l)%nat then applied (reconcile l) l
  else l.

(** The next request is served or fails: it is not answered with an
    error status. *)
Definition not_refused (n : list Outcome) : bool :=
  match hd Served n with
  | Refused _ => false
  | _ => true
  end.

(** The amounts of a cart that sums of numbers hold exactly: no line
    price and no quantity of a line that is not a fee line is negative,
    and their totals are below 2^53. *)
Definition exact_amounts (l : list Item) : bool :=
  forallb (fun item => (0 <=? final_line_price item)%Z && (0 <=? quantity item)%Z)
          (merchandise l)
  && (total final_line_price (merchandise l) <? 2 ^ 53)%Z
  && (total quantity (merchandise l) <? 2 ^ 53)%Z.

(** Requests are only added to the log. *)
Definition requests_grow (w w' : World) : Prop :=
  exists l, requests w' = requests w ++ l.

(** * Properties *)

(** ** Numbers: rounding never loses a positive product

    The lemmas follow a positive mantissa through the two shifts and the
    rounding of [binary_round_aux]: when the magnitude (digits plus
    exponent) is in the range of normal numbers, the result is a finite
    positive number of the same magnitude or the next. *)

Module NumFacts.
Import Num.
Local Open Scope Z_scope.

Lemma digits2_size p : digits2_pos p = Pos.size p.
Proof. induction p; simpl; congruence. Qed.

Lemma digits_bounds p : 2 ^ (Z.pos (digits2_pos p) - 1) <= Z.pos p < 2 ^ Z.pos (digits2_pos p).
Proof.
  rewrite digits2_size. split.
  - pose proof (Pos.size_le p) as H.
    assert (Z.pos (2 ^ Pos.size p) <= Z.pos p~0) by (apply Pos2Z.pos_le_pos; exact H).
    rewrite Pos2Z.inj_pow in H0.
    replace (Z.pos (Pos.size p)) with (Z.succ (Z.pos (Pos.size p) - 1)) in H0 by lia.
    rewrite Z.pow_succ_r in H0 by lia. lia.
  - pose proof (Pos.size_gt p) as H.
    apply Pos2Z.pos_lt_pos in H. rewrite Pos2Z.inj_pow in H. exact H.
Qed.

Lemma digits_unique p k : 2 ^ (k - 1) <= Z.pos p < 2 ^ k -> Z.pos (digits2_pos p) = k.
Proof.
  intros [Hl Hu]. pose proof (digits_bounds p) as [Dl Du].
  assert (0 < k). { destruct (Z.ltb_spec 0 k); auto. rewrite Z.pow_neg_r in Hl by lia.
     destruct (Z.eq_dec k 0); subst; simpl in *; try lia. rewrite Z.pow_neg_r in Hu by lia. lia. }
  assert (Z.pos (digits2_pos p) - 1 < k).
  { apply (Z.pow_lt_mono_r_iff 2); lia. }
  assert (k - 1 < Z.pos (digits2_pos p)).
  { apply (Z.pow_lt_mono_r_iff 2); lia. }
  lia.
Qed.

Lemma shr_1_m mrs : 0 <= shr_m mrs -> shr_m (shr_1 mrs) = shr_m mrs / 2.
Proof.
  destruct mrs as [m r s]; simpl. intros Hm.
  destruct m as [|p|p]; [reflexivity| |lia].
  destruct p; simpl.
  - rewrite Pos2Z.inj_xI. apply (Z.div_unique _ _ _ 1); lia.
  - rewrite Pos2Z.inj_xO. apply (Z.div_unique _ _ _ 0); lia.
  - reflexivity.
Qed.

Lemma iter_shr_1_m p : forall mrs, 0 <= shr_m mrs ->
  shr_m (SpecFloat.iter_pos shr_1 p mrs) = shr_m mrs / 2 ^ Z.pos p.
Proof.
  assert (Hnn : forall m k, 0 <= m -> 0 <= m / 2 ^ k).
  { intros. apply Z_div_nonneg_nonneg; [assumption|apply Z.pow_nonneg; lia]. }
  assert (H1 : forall mrs, 0 <= shr_m mrs -> 0 <= shr_m (shr_1 mrs)).
  { intros mrs Hm. rewrite shr_1_m by assumption. apply (Hnn _ 1 Hm). }
  induction p as [p IH|p IH|]; intros mrs Hm; simpl SpecFloat.iter_pos.
  - assert (H2 : 0 <= shr_m (SpecFloat.iter_pos shr_1 p (shr_1 mrs))).
    { rewrite IH by auto. apply Hnn; auto. }
    rewrite (IH _ H2), (IH _ (H1 _ Hm)), shr_1_m by assumption.
    rewrite !Z.div_div by (try lia; apply Z.pow_pos_nonneg; lia).
    f_equal. replace (Z.pos p~1) with (1 + Z.pos p + Z.pos p) by lia.
    rewrite !Z.pow_add_r by lia. lia.
  - assert (H2 : 0 <= shr_m (SpecFloat.iter_pos shr_1 p mrs)).
    { rewrite IH by auto. apply Hnn; auto. }
    rewrite (IH _ H2), (IH _ Hm).
    rewrite !Z.div_div by (try lia; apply Z.pow_pos_nonneg; lia).
    f_equal. replace (Z.pos p~0) with (Z.pos p + Z.pos p) by lia.
    rewrite !Z.pow_add_r by lia. lia.
  - rewrite shr_1_m by assumption. reflexivity.
Qed.

Lemma fexp_lt g : -1074 < g -> fexp prec emax g < g.
Proof. unfold fexp, emin, prec, emax. lia. Qed.

Lemma shr_fexp_pos m e :
  -1074 < mag m e ->
  exists mrs m1 e1, shr_fexp prec emax (Z.pos m) e loc_Exact = (mrs, e1)
    /\ shr_m mrs = Z.pos m1 /\ mag m1 e1 = mag m e
    /\ (e1 = e \/ e1 = fexp prec emax (mag m e)).
Proof.
  intros Hg. unfold shr_fexp, shr. simpl Zdigits2. fold (mag m e).
  pose proof (fexp_lt _ Hg) as Hf.
  destruct (fexp prec emax (mag m e) - e) as [|n|n] eqn:En.
  - exists (shr_record_of_loc (Z.pos m) loc_Exact), m, e. simpl. auto.
  - pose proof (digits_bounds m) as [Dl Du].
    set (d := Z.pos (digits2_pos m)) in *.
    assert (Hn : Z.pos n < d) by (unfold mag in *; fold d in Hf, En; lia).
    assert (P2 : 0 < 2 ^ Z.pos n) by (apply Z.pow_pos_nonneg; lia).
    assert (Lo : 2 ^ (d - Z.pos n - 1) <= Z.pos m / 2 ^ Z.pos n).
    { apply Z.div_le_lower_bound; [lia|].
      rewrite <- Z.pow_add_r by lia. replace (Z.pos n + (d - Z.pos n - 1)) with (d - 1) by lia. exact Dl. }
    assert (Hi : Z.pos m / 2 ^ Z.pos n < 2 ^ (d - Z.pos n)).
    { apply Z.div_lt_upper_bound; [lia|].
      rewrite <- Z.pow_add_r by lia. replace (Z.pos n + (d - Z.pos n)) with d by lia. exact Du. }
    assert (Pq : 0 < Z.pos m / 2 ^ Z.pos n).
    { assert (0 < 2 ^ (d - Z.pos n - 1)) by (apply Z.pow_pos_nonneg; lia). lia. }
    destruct (Z.pos m / 2 ^ Z.pos n) as [|q|q] eqn:Eq; try lia.
    eexists _, q, _. split; [reflexivity|].
    split; [rewrite iter_shr_1_m by (simpl; lia); simpl; exact Eq|].
    split; [|right; lia].
    unfold mag. rewrite (digits_unique q (d - Z.pos n)) by (split; [exact Lo|exact Hi]).
    fold d. lia.
  - exists (shr_record_of_loc (Z.pos m) loc_Exact), m, e. simpl. auto.
Qed.

Lemma round_nearest_even_pos m l :
  exists m2, round_nearest_even (Z.pos m) l = Z.pos m2
    /\ (Z.pos (digits2_pos m2) = Z.pos (digits2_pos m) \/ Z.pos (digits2_pos m2) = Z.pos (digits2_pos m) + 1).
Proof.
  assert (Hs : exists m2, Z.pos m + 1 = Z.pos m2 /\
     (Z.pos (digits2_pos m2) = Z.pos (digits2_pos m) \/ Z.pos (digits2_pos m2) = Z.pos (digits2_pos m) + 1)).
  { exists (m + 1)%positive. split; [lia|].
    pose proof (digits_bounds m) as [Dl Du]. set (d := Z.pos (digits2_pos m)) in *.
    destruct (Z.eq_dec (Z.pos m + 1) (2 ^ d)) as [E|E].
    - right. apply digits_unique. replace (d + 1 - 1) with d by lia.
      rewrite Z.pow_add_r by lia. lia.
    - left. apply digits_unique. lia. }
  unfold round_nearest_even. destruct l as [|[]]; eauto.
  destruct (Z.even (Z.pos m)); eauto.
Qed.

Lemma binary_round_aux_finite m e :
  -1074 < mag m e -> mag m e <= 1023 -> e <= 971 ->
  exists m' e', binary_round_aux prec emax false (Z.pos m) e loc_Exact = S754_finite false m' e'
    /\ mag m e <= mag m' e' <= mag m e + 1 /\ e' <= 971.
Proof.
  intros Hlo Hhi He. unfold binary_round_aux.
  destruct (shr_fexp_pos m e Hlo) as (mrs & m1 & e1 & -> & Hm1 & Hg1 & He1).
  rewrite Hm1.
  destruct (round_nearest_even_pos m1 (loc_of_shr_record mrs)) as (m2 & -> & Hd2).
  assert (Hg2 : mag m2 e1 = mag m e \/ mag m2 e1 = mag m e + 1) by (unfold mag in *; lia).
  destruct (shr_fexp_pos m2 e1 ltac:(lia)) as (mrs3 & m3 & e3 & -> & Hm3 & Hg3 & He3).
  rewrite Hm3.
  assert (e3 <= 971).
  { unfold fexp, emin, prec, emax in *. lia. }
  replace (e3 <=? emax - prec) with true by (symmetry; apply Z.leb_le; unfold emax, prec; lia).
  exists m3, e3. split; [reflexivity|]. lia.
Qed.

Lemma digits_iter_xO m n : Z.pos (digits2_pos (Pos.iter xO m n)) = Z.pos (digits2_pos m) + Z.pos n.
Proof.
  induction n using Pos.peano_ind.
  - simpl. lia.
  - rewrite Pos.iter_succ. simpl digits2_pos. lia.
Qed.

Lemma number_of_Z_finite s :
  0 < s < 2 ^ 53 ->
  exists m e, number_of_Z s = S754_finite false m e /\ 1 <= mag m e <= 54 /\ e <= 971.
Proof.
  intros [Hs Hb]. destruct s as [|p|p]; try lia.
  unfold number_of_Z, binary_normalize, binary_round.
  pose proof (digits_bounds p) as [Dl Du].
  assert (Hd : Z.pos (digits2_pos p) <= 53).
  { assert (Z.pos (digits2_pos p) - 1 < 53); [|lia]. apply (Z.pow_lt_mono_r_iff 2); lia. }
  destruct (shl_align p 0 (fexp prec emax (Z.pos (digits2_pos p) + 0))) as [mz ez] eqn:Ea.
  assert (Hmz : mag mz ez = Z.pos (digits2_pos p) /\ ez <= 0).
  { unfold shl_align in Ea.
    destruct (fexp prec emax (Z.pos (digits2_pos p) + 0) - 0) as [|n|n] eqn:En;
      inversion Ea; subst; unfold mag; try lia.
    rewrite digits_iter_xO. unfold fexp, emin, prec, emax in *. lia. }
  destruct Hmz as [Hmz Hez].
  destruct (binary_round_aux_finite mz ez) as (m' & e' & -> & Hg & He'); try lia.
  exists m', e'. split; [reflexivity|]. lia.
Qed.

Lemma Math_ceil_pos m e : 1 <= Math_ceil (S754_finite false m e).
Proof.
  unfold Math_ceil. destruct (Z.leb_spec 0 e).
  - assert (0 < 2 ^ e) by (apply Z.pow_pos_nonneg; lia). nia.
  - assert (0 < 2 ^ (- e)) by (apply Z.pow_pos_nonneg; lia).
    assert (- Z.pos m / 2 ^ (- e) < 0); [|lia].
    apply Z.div_lt_upper_bound; lia.
Qed.

Lemma calculateFee_pos s : 0 < s < 2 ^ 53 -> 1 <= calculateFee s.
Proof.
  intros Hs. unfold calculateFee, FEE_PERCENTAGE.
  destruct (number_of_Z_finite s Hs) as (m & e & -> & Hg & He).
  unfold mul, lit_0_035, SFmul. simpl xorb.
  set (M := 5044031582654956%positive).
  assert (Hk : Z.pos (digits2_pos m) + 52 <= Z.pos (digits2_pos (m * M))
               <= Z.pos (digits2_pos m) + 53).
  { pose proof (digits_bounds m) as [Dl Du]. pose proof (digits_bounds (m * M)) as [Pl Pu].
    set (d := Z.pos (digits2_pos m)) in *. set (k := Z.pos (digits2_pos (m * M))) in *.
    rewrite Pos2Z.inj_mul in Pl, Pu.
    assert (HM : 2 ^ 52 <= Z.pos M < 2 ^ 53) by (unfold M; lia).
    assert (0 < 2 ^ (d - 1)) by (apply Z.pow_pos_nonneg; lia).
    assert (Z.pos m * Z.pos M < 2 ^ (d + 53)).
    { rewrite Z.pow_add_r by lia. nia. }
    assert (2 ^ (d - 1 + 52) <= Z.pos m * Z.pos M).
    { rewrite Z.pow_add_r by lia. nia. }
    assert (k - 1 < d + 53) by (apply (Z.pow_lt_mono_r_iff 2); lia).
    assert (d - 1 + 52 < k) by (apply (Z.pow_lt_mono_r_iff 2); lia).
    lia. }
  destruct (binary_round_aux_finite (m * M) (e + -57)) as (m' & e' & -> & _);
    try (unfold mag in *; lia).
  apply Math_ceil_pos.
Qed.

(** The literal is the double nearest to 35/1000: it has 53 digits and is
    within half a unit in the last place. *)
Lemma lit_0_035_nearest :
  Z.pos (digits2_pos 5044031582654956) = 53
  /\ 2 * Z.abs (1000 * 5044031582654956 - 35 * 2 ^ 57) <= 1000.
Proof. split; [reflexivity|]. vm_compute. discriminate. Qed.

End NumFacts.

(** ** Utils.calculateFee on the amounts of the claims *)

(** C1 (the code departs from the claim).  The examples of the claim
    hold: calculateFee gives 35 for 1000, 36 for 1001 and 0 for 0.  But
    3.5% of 3000 cents is 105 cents exactly, and calculateFee gives 106:
    the double nearest to 0.035 lies above 35/1000, the product 3000 *
    0.035 rounds to the double after 105, and Math.ceil takes it to 106.
    The same happens at 200, where the exact fee is 7 and the result 8. *)
Theorem calculateFee_above_exact_fee :
  calculateFee 1000 = 35%Z /\ calculateFee 1001 = 36%Z /\ calculateFee 0 = 0%Z
  /\ exact_fee 3000 = 105%Z /\ calculateFee 3000 = 106%Z
  /\ exact_fee 200 = 7%Z /\ calculateFee 200 = 8%Z.
Proof. vm_compute. repeat split. Qed.

(** ** Lines of a cart *)

Arguments getSubtotalWithoutFee : simpl never.
Arguments findFeeLineItem : simpl never.
Arguments calculateFee : simpl never.

Section Lines.
Local Open Scope Z_scope.

Lemma subtotal_fold l : forall a,
  fold_left (fun subtotal item =>
               if negb (is_fee item) then subtotal + final_line_price item else subtotal) l a
  = a + subtotal_of l.
Proof.
  unfold subtotal_of, getSubtotalWithoutFee. simpl.
  induction l as [|x l IH]; intros a; simpl; [lia|].
  rewrite IH. rewrite (IH (if negb (is_fee x) then _ else _)).
  destruct (is_fee x); simpl; lia.
Qed.

Lemma subtotal_cons x l :
  subtotal_of (x :: l) = (if is_fee x then 0 else final_line_price x) + subtotal_of l.
Proof.
  unfold subtotal_of at 1, getSubtotalWithoutFee. simpl. rewrite subtotal_fold.
  destruct (is_fee x); reflexivity.
Qed.

Lemma subtotal_app l1 l2 : subtotal_of (l1 ++ l2) = subtotal_of l1 + subtotal_of l2.
Proof.
  induction l1 as [|x l1 IH]; simpl; [reflexivity|].
  rewrite !subtotal_cons, IH. lia.
Qed.

Lemma subtotal_nonneg l :
  forallb (fun i => 0 <=? final_line_price i) l = true -> 0 <= subtotal_of l.
Proof.
  induction l as [|x l IH]; simpl; [discriminate || (intros; vm_compute; discriminate)|].
  intros H. apply andb_prop in H as [Hx Hl]. rewrite subtotal_cons.
  apply Z.leb_le in Hx. specialize (IH Hl). destruct (is_fee x); lia.
Qed.

Lemma is_fee_fee_line q : is_fee (fee_line q) = true.
Proof. reflexivity. Qed.

Lemma is_fee_with_quantity q x : is_fee (with_quantity q x) = is_fee x.
Proof. reflexivity. Qed.

Lemma subtotal_drop_first_fee l : subtotal_of (drop_first_fee l) = subtotal_of l.
Proof.
  induction l as [|x l IH]; simpl; [reflexivity|].
  destruct (is_fee x) eqn:E; rewrite ?subtotal_cons, ?E, ?IH; lia.
Qed.

Lemma subtotal_set_first_fee q l : subtotal_of (set_first_fee q l) = subtotal_of l.
Proof.
  induction l as [|x l IH]; simpl; [reflexivity|].
  destruct (is_fee x) eqn:E; rewrite !subtotal_cons, ?is_fee_with_quantity, ?E, ?IH; lia.
Qed.

Lemma fee_lines_cons x l :
  fee_lines (x :: l) = ((if is_fee x then 1 else 0) + fee_lines l)%nat.
Proof. unfold fee_lines. simpl. destruct (is_fee x); reflexivity. Qed.

Lemma fee_lines_app l1 l2 : fee_lines (l1 ++ l2) = (fee_lines l1 + fee_lines l2)%nat.
Proof. unfold fee_lines. rewrite List.filter_app, length_app. reflexivity. Qed.

Lemma find_fee_none l : find is_fee l = None <-> fee_lines l = 0%nat.
Proof.
  induction l as [|x l IH]; simpl; [split; reflexivity|].
  rewrite fee_lines_cons. destruct (is_fee x); simpl; [split; discriminate|exact IH].
Qed.

Lemma fee_lines_drop_first_fee l : fee_lines (drop_first_fee l) = Nat.pred (fee_lines l).
Proof.
  induction l as [|x l IH]; simpl; [reflexivity|].
  destruct (is_fee x) eqn:E; rewrite ?fee_lines_cons, ?E; simpl; [reflexivity|exact IH].
Qed.

Lemma fee_lines_set_first_fee q l : fee_lines (set_first_fee q l) = fee_lines l.
Proof.
  induction l as [|x l IH]; simpl; [reflexivity|].
  destruct (is_fee x) eqn:E; rewrite !fee_lines_cons, ?is_fee_with_quantity, ?E, ?IH; reflexivity.
Qed.

Lemma find_set_first_fee q l fee :
  find is_fee l = Some fee -> find is_fee (set_first_fee q l) = Some (with_quantity q fee).
Proof.
  induction l as [|x l IH]; simpl; [discriminate|].
  destruct (is_fee x) eqn:E; simpl; rewrite ?is_fee_with_quantity, E.
  - intros [= ->]. reflexivity.
  - exact IH.
Qed.

Lemma find_app_fee_line q l :
  find is_fee l = None -> find is_fee (l ++ [fee_line q]) = Some (fee_line q).
Proof.
  induction l as [|x l IH]; simpl; [reflexivity|].
  destruct (is_fee x); [discriminate|exact IH].
Qed.

Lemma find_is_fee l fee : find is_fee l = Some fee -> is_fee fee = true.
Proof. intros H. apply find_some in H. tauto. Qed.

Lemma item_eqb_refl x : item_eqb x x = true.
Proof.
  unfold item_eqb. rewrite !String.eqb_refl, !Z.eqb_refl. reflexivity.
Qed.

Lemma item_eqb_fee x fee : is_fee x = false -> is_fee fee = true -> item_eqb x fee = false.
Proof.
  unfold is_fee, item_eqb. intros Hx Hf.
  apply String.eqb_eq in Hf. rewrite Hf.
  rewrite Hx, andb_false_r. reflexivity.
Qed.

(** The position [removeFee] computes is that of the first fee line, and
    the store removes that line. *)
Lemma serve_remove_first_fee l fee :
  find is_fee l = Some fee ->
  1 <= indexOf l fee + 1 /\
  change_at (Z.to_nat (indexOf l fee + 1 - 1)) 0 l = Some (drop_first_fee l).
Proof.
  revert fee. induction l as [|x l IH]; simpl; [discriminate|]. intros fee.
  destruct (is_fee x) eqn:E.
  - intros [= ->]. rewrite item_eqb_refl. simpl. split; [lia|reflexivity].
  - intros H. rewrite (item_eqb_fee x fee E (find_is_fee _ _ H)).
    destruct (IH fee H) as [Hi Hc].
    destruct (Z.ltb_spec (indexOf l fee) 0); [lia|].
    split; [lia|].
    replace (Z.to_nat (indexOf l fee + 1 + 1 - 1)) with (S (Z.to_nat (indexOf l fee + 1 - 1))) by lia.
    cbn [change_at]. rewrite Hc. reflexivity.
Qed.

(** The key of the first fee line addresses that line when keys identify
    lines. *)
Lemma change_key_first_fee q l fee :
  NoDup (key <$> l) -> find is_fee l = Some fee ->
  change_key (key fee) q l = Some (if q =? 0 then drop_first_fee l else set_first_fee q l).
Proof.
  intros Hnd Hf.
  induction l as [|x l IH]; simpl in *; [discriminate|].
  apply NoDup_cons in Hnd as [Hx Hnd].
  destruct (is_fee x) eqn:E.
  - injection Hf as ->. rewrite String.eqb_refl. destruct (q =? 0); reflexivity.
  - destruct (String.eqb_spec (key x) (key fee)) as [Ek|Ek].
    + exfalso. apply Hx. rewrite Ek. apply list_elem_of_fmap.
      exists fee. split; [reflexivity|]. apply list_elem_of_In.
      apply find_some in Hf. tauto.
    + rewrite (IH Hnd Hf). destruct (q =? 0); reflexivity.
Qed.

Lemma change_key_subtotal q l l' fee :
  NoDup (key <$> l) -> find is_fee l = Some fee ->
  change_key (key fee) q l = Some l' -> subtotal_of l' = subtotal_of l.
Proof.
  intros Hnd Hf. rewrite (change_key_first_fee q l fee Hnd Hf). intros [= <-].
  destruct (q =? 0); [apply subtotal_drop_first_fee|apply subtotal_set_first_fee].
Qed.

End Lines.

(** ** Reasoning about computations *)

#[local] Instance only_deletes_preorder : PreOrder only_deletes.
Proof.
  split.
  - intros w k. auto.
  - intros w1 w2 w3 H12 H23 k. destruct (H23 k) as [->| ->]; auto.
Qed.

#[local] Instance only_sets_added_preorder : PreOrder only_sets_added.
Proof.
  split.
  - intros w k. auto.
  - intros w1 w2 w3 H12 H23 k. destruct (H23 k) as [->|[->|[-> ->]]]; auto.
Qed.

#[local] Instance sends_no_add_preorder : PreOrder sends_no_add.
Proof.
  split.
  - intros w. exists []. rewrite app_nil_r. auto.
  - intros w1 w2 w3 (l1 & E1 & F1) (l2 & E2 & F2). exists (l1 ++ l2).
    rewrite E2, E1, <- app_assoc, forallb_app, F1, F2. auto.
Qed.

#[local] Instance no_more_fee_lines_preorder : PreOrder no_more_fee_lines.
Proof. split; unfold no_more_fee_lines; [intros w|intros w1 w2 w3 ? ?]; lia. Qed.

#[local] Instance keeps_one_fee_line_preorder : PreOrder keeps_one_fee_line.
Proof. split; unfold keeps_one_fee_line; [intros w|intros w1 w2 w3 ? ?]; auto. Qed.

#[local] Instance quiet_if_nonempty_preorder : PreOrder quiet_if_nonempty.
Proof.
  split.
  - intros w _. auto.
  - intros w1 w2 w3 H12 H23 H. destruct (H12 H) as [S12 M12].
    destruct H23 as [S23 M23]; [rewrite S12; exact H|].
    split; congruence.
Qed.

#[local] Instance quiet_if_no_fee_preorder : PreOrder quiet_if_no_fee.
Proof.
  split.
  - intros w _. auto.
  - intros w1 w2 w3 H12 H23 H. destruct (H12 H) as [S12 M12].
    destruct H23 as [S23 M23]; [rewrite S12; exact H|].
    split; congruence.
Qed.

#[local] Instance stays_healthy_preorder : PreOrder stays_healthy.
Proof. split; unfold stays_healthy; [intros w|intros w1 w2 w3 ? ?]; auto. Qed.

Section Preserves.
Context (R : World -> World -> Prop) `{!PreOrder R}.

Lemma preserves_ret {A} (a : A) : preserves R (ret a).
Proof. intros w. reflexivity. Qed.

Lemma preserves_throw {A} : preserves R (@throw A).
Proof. intros w. reflexivity. Qed.

Lemma preserves_get : preserves R get.
Proof. intros w. reflexivity. Qed.

Lemma preserves_bind {A B} (m : M A) (k : A -> M B) :
  preserves R m -> (forall a, preserves R (k a)) -> preserves R (bind m k).
Proof.
  intros Hm Hk w. unfold exec, bind. specialize (Hm w). unfold exec in Hm.
  destruct (m w) as [[a|] w']; simpl in *; [|exact Hm].
  etransitivity; [exact Hm|apply Hk].
Qed.

Lemma preserves_try_catch {A} (m h : M A) :
  preserves R m -> preserves R h -> preserves R (try_catch m h).
Proof.
  intros Hm Hh w. unfold exec, try_catch. specialize (Hm w). unfold exec in Hm.
  destruct (m w) as [[a|] w']; simpl in *; [exact Hm|].
  etransitivity; [exact Hm|apply Hh].
Qed.

Lemma preserves_when c (m : M unit) : preserves R m -> preserves R (when c m).
Proof. destruct c; simpl; [auto|intros _; apply preserves_ret]. Qed.

Lemma preserves_deref {A} (o : option A) : preserves R (deref o).
Proof. destruct o; [apply preserves_ret|apply preserves_throw]. Qed.

Lemma preserves_json_cart r : preserves R (json_cart r).
Proof. unfold json_cart. destruct (body r); auto using preserves_ret, preserves_throw. Qed.

End Preserves.

(** Decompose a computation along its structure. *)
Ltac pres_step :=
  lazymatch goal with
  | |- preserves _ (bind _ _) => apply preserves_bind; [typeclasses eauto| |intros ?]
  | |- preserves _ (try_catch _ _) => apply preserves_try_catch; [typeclasses eauto| |]
  | |- preserves _ (ret _) => apply preserves_ret; typeclasses eauto
  | |- preserves _ throw => apply preserves_throw; typeclasses eauto
  | |- preserves _ get => apply preserves_get; typeclasses eauto
  | |- preserves _ (when _ _) => apply preserves_when; [typeclasses eauto|]
  | |- preserves _ (deref _) => apply preserves_deref; typeclasses eauto
  | |- preserves _ (json_cart _) => apply preserves_json_cart; typeclasses eauto
  | |- preserves _ (if ?c then _ else _) => destruct c
  | |- preserves _ (match ?x with _ => _ end) => destruct x
  end.

Create HintDb pres.
Ltac pres := repeat first [pres_step | solve [eauto with pres]].

(** *** Steps that are no traffic, and steps that leave the storage alone *)

Lemma same_session_only_deletes w w' :
  sessionStorage w' = sessionStorage w -> only_deletes w w'.
Proof. intros E k. rewrite E. auto. Qed.

Lemma same_session_only_sets_added w w' :
  sessionStorage w' = sessionStorage w -> only_sets_added w w'.
Proof. intros E k. rewrite E. auto. Qed.

Lemma same_traffic_sends_no_add w w' : same_traffic w w' -> sends_no_add w w'.
Proof. intros (_ & E & _). exists []. rewrite E, app_nil_r. auto. Qed.

Lemma same_traffic_no_more_fee_lines w w' : same_traffic w w' -> no_more_fee_lines w w'.
Proof. intros (E & _). unfold no_more_fee_lines. rewrite E. lia. Qed.

Lemma same_traffic_keeps_one_fee_line w w' : same_traffic w w' -> keeps_one_fee_line w w'.
Proof. intros (E & _). unfold keeps_one_fee_line. rewrite E. auto. Qed.

Lemma same_traffic_quiet_if_nonempty w w' : same_traffic w w' -> quiet_if_nonempty w w'.
Proof. intros (E & Er & _) _. unfold mutations. rewrite E, Er. auto. Qed.

Lemma same_traffic_quiet_if_no_fee w w' : same_traffic w w' -> quiet_if_no_fee w w'.
Proof. intros (E & Er & _) _. unfold mutations. rewrite E, Er. auto. Qed.

Lemma same_traffic_stays_healthy w w' : same_traffic w w' -> stays_healthy w w'.
Proof. intros (_ & _ & E). unfold stays_healthy. rewrite E. auto. Qed.

Lemma removeItem_only_deletes k : preserves only_deletes (removeItem k).
Proof.
  intros w k'. unfold exec, removeItem, modify. cbn.
  destruct (decide (k = k')) as [->|Hne].
  - right. apply lookup_delete_eq.
  - left. apply lookup_delete_ne. exact Hne.
Qed.

Lemma only_deletes_only_sets_added {A} (m : M A) :
  preserves only_deletes m -> preserves only_sets_added m.
Proof. intros H w k. destruct (H w k); auto. Qed.

Lemma removeItem_only_sets_added k : preserves only_sets_added (removeItem k).
Proof. apply only_deletes_only_sets_added, removeItem_only_deletes. Qed.

Lemma setItem_added : preserves only_sets_added (setItem SESSION_KEY_ADDED "true").
Proof.
  intros w k. unfold exec, setItem, modify. cbn.
  destruct (decide (SESSION_KEY_ADDED = k)) as [<-|Hne].
  - right. right. split; [reflexivity|]. apply lookup_insert_eq.
  - left. apply lookup_insert_ne. exact Hne.
Qed.

#[local] Hint Resolve removeItem_only_deletes removeItem_only_sets_added setItem_added : pres.

(** A step that is a [modify] of the document, of the logs or of the
    storage. *)
Ltac modify_step :=
  lazymatch goal with
  | |- preserves _ (modify _) =>
      let w := fresh "w" in
      intros w; unfold exec, modify; cbn [snd];
      first [apply same_session_only_deletes | apply same_session_only_sets_added
            | apply same_traffic_sends_no_add | apply same_traffic_no_more_fee_lines
            | apply same_traffic_keeps_one_fee_line | apply same_traffic_quiet_if_nonempty
            | apply same_traffic_quiet_if_no_fee | apply same_traffic_stays_healthy];
      repeat split; reflexivity
  end.

Ltac unfold_prims :=
  progress unfold setChecked, setDisabled, showLoader, hideLoader, alert, dispatchEvent,
    reload, getItem, userWantsFee, getChecked, syncCheckbox, createModal,
    showConfirmModal, closeConfirmModal, onEscape, handleRemoveClick, toggle,
    syncCheckboxFromStorage, addFee_not_ok, setItem, removeItem.

Ltac pres ::=
  repeat first [pres_step | solve [eauto with pres] | modify_step | unfold_prims].

(** *** Requests *)

Lemma change_at_fee_lines n q l l' :
  change_at n q l = Some l' -> (fee_lines l' <= fee_lines l)%nat.
Proof.
  revert n l'. induction l as [|x l IH]; intros n l'; [destruct n; discriminate|].
  destruct n as [|n]; simpl.
  - intros [= <-]. destruct (q =? 0)%Z; rewrite !fee_lines_cons, ?is_fee_with_quantity; lia.
  - destruct (change_at n q l) as [l0|] eqn:E; [|discriminate].
    intros [= <-]. specialize (IH _ _ E). rewrite !fee_lines_cons. lia.
Qed.

Lemma change_key_fee_lines k q l l' :
  change_key k q l = Some l' -> (fee_lines l' <= fee_lines l)%nat.
Proof.
  revert l'. induction l as [|x l IH]; intros l'; [discriminate|]. simpl.
  destruct (String.eqb (key x) k).
  - intros [= <-]. destruct (q =? 0)%Z; rewrite !fee_lines_cons, ?is_fee_with_quantity; lia.
  - destruct (change_key k q l) as [l0|] eqn:E; [|discriminate].
    intros [= <-]. specialize (IH _ eq_refl). rewrite !fee_lines_cons. lia.
Qed.

Lemma serve_fee_lines r l l' :
  is_add r = false -> serve r l = Some l' -> (fee_lines l' <= fee_lines l)%nat.
Proof.
  destruct r; simpl; try discriminate; intros _.
  - intros [= <-]. lia.
  - destruct (_ && _); [apply change_at_fee_lines|discriminate].
  - destruct (_ <=? _)%Z; [apply change_key_fee_lines|discriminate].
  - intros [= <-]. lia.
Qed.

(** The world after [fetch]: the request is logged, one outcome is used
    up, and the cart is the old one or the one the store made of it. *)
Lemma fetch_world r w :
  sessionStorage (exec (fetch r) w) = sessionStorage w
  /\ requests (exec (fetch r) w) = requests w ++ [r]
  /\ network (exec (fetch r) w) = tl (network w)
  /\ (store (exec (fetch r) w) = store w
      \/ (served (network w) = true /\ serve r (store w) = Some (store (exec (fetch r) w)))).
Proof.
  unfold exec, fetch, served.
  destruct (hd Served (network w)); cbn;
    try (destruct (serve r (store w)) eqn:E; cbn); repeat split; auto.
Qed.

Lemma fetch_only_deletes r : preserves only_deletes (fetch r).
Proof. intros w k. destruct (fetch_world r w) as (E & _). rewrite E. auto. Qed.

Lemma fetch_only_sets_added r : preserves only_sets_added (fetch r).
Proof. apply only_deletes_only_sets_added, fetch_only_deletes. Qed.

Lemma fetch_stays_healthy r : preserves stays_healthy (fetch r).
Proof. intros w H. destruct (fetch_world r w) as (_ & _ & E & _). rewrite E, H. reflexivity. Qed.

Lemma fetch_sends_no_add r : is_add r = false -> preserves sends_no_add (fetch r).
Proof.
  intros Hr w. destruct (fetch_world r w) as (_ & E & _).
  exists [r]. cbn. rewrite Hr. auto.
Qed.

Lemma fetch_no_more_fee_lines r : is_add r = false -> preserves no_more_fee_lines (fetch r).
Proof.
  intros Hr w. destruct (fetch_world r w) as (_ & _ & _ & [E|[_ E]]); unfold no_more_fee_lines.
  - rewrite E. lia.
  - eapply serve_fee_lines; eauto.
Qed.

Lemma no_more_keeps_one {A} (m : M A) :
  preserves no_more_fee_lines m -> preserves keeps_one_fee_line m.
Proof. intros H w Hw. specialize (H w). unfold no_more_fee_lines in H. lia. Qed.

Lemma fetch_get_store r w : is_mutation r = false -> store (exec (fetch r) w) = store w.
Proof.
  intros Hr. destruct (fetch_world r w) as (_ & _ & _ & [E|[_ E]]); [exact E|].
  destruct r; try discriminate; cbn in E; congruence.
Qed.

Lemma fetch_mutations r w :
  mutations (exec (fetch r) w) = mutations w ++ (if is_mutation r then [r] else []).
Proof.
  unfold mutations. destruct (fetch_world r w) as (_ & E & _).
  rewrite E, List.filter_app. cbn. destruct (is_mutation r); reflexivity.
Qed.

Lemma fetch_quiet_if_nonempty r : is_mutation r = false -> preserves quiet_if_nonempty (fetch r).
Proof.
  intros Hr w _. rewrite fetch_get_store, fetch_mutations, Hr, app_nil_r by exact Hr. auto.
Qed.

Lemma fetch_quiet_if_no_fee r : is_mutation r = false -> preserves quiet_if_no_fee (fetch r).
Proof.
  intros Hr w _. rewrite fetch_get_store, fetch_mutations, Hr, app_nil_r by exact Hr. auto.
Qed.

#[local] Hint Resolve fetch_only_deletes fetch_only_sets_added fetch_stays_healthy : pres.
#[local] Hint Extern 1 (preserves sends_no_add (fetch _)) =>
  apply fetch_sends_no_add; reflexivity : pres.
#[local] Hint Extern 1 (preserves no_more_fee_lines (fetch _)) =>
  apply fetch_no_more_fee_lines; reflexivity : pres.
#[local] Hint Extern 1 (preserves quiet_if_nonempty (fetch _)) =>
  apply fetch_quiet_if_nonempty; reflexivity : pres.
#[local] Hint Extern 1 (preserves quiet_if_no_fee (fetch _)) =>
  apply fetch_quiet_if_no_fee; reflexivity : pres.

(** ** What the functions preserve *)

(** Utils.getCart: the cart it returns is the cart of the store, or
    [null] when the request is not served. *)
Lemma getCart_eq w :
  getCart w = (Some (if served (network w) then Some {| items := store w |} else None),
               sent GET_cart w).
Proof.
  unfold getCart, try_catch, bind, fetch, served, sent.
  destruct (hd Served (network w)); reflexivity.
Qed.

Lemma getCart_only_deletes : preserves only_deletes getCart.
Proof. unfold getCart. pres. Qed.
#[local] Hint Resolve getCart_only_deletes : pres.

Lemma getCart_only_sets_added : preserves only_sets_added getCart.
Proof. unfold getCart. pres. Qed.
#[local] Hint Resolve getCart_only_sets_added : pres.

Lemma getCart_stays_healthy : preserves stays_healthy getCart.
Proof. unfold getCart. pres. Qed.
#[local] Hint Resolve getCart_stays_healthy : pres.

Lemma getCart_sends_no_add : preserves sends_no_add getCart.
Proof. unfold getCart. pres. Qed.
#[local] Hint Resolve getCart_sends_no_add : pres.

Lemma getCart_no_more_fee_lines : preserves no_more_fee_lines getCart.
Proof. unfold getCart. pres. Qed.
#[local] Hint Resolve getCart_no_more_fee_lines : pres.

Lemma getCart_quiet_if_nonempty : preserves quiet_if_nonempty getCart.
Proof. unfold getCart. pres. Qed.
#[local] Hint Resolve getCart_quiet_if_nonempty : pres.

Lemma getCart_quiet_if_no_fee : preserves quiet_if_no_fee getCart.
Proof. unfold getCart. pres. Qed.
#[local] Hint Resolve getCart_quiet_if_no_fee : pres.

Lemma removeFee_only_deletes : preserves only_deletes removeFee.
Proof. unfold removeFee. pres. Qed.
#[local] Hint Resolve removeFee_only_deletes : pres.

Lemma removeFee_only_sets_added : preserves only_sets_added removeFee.
Proof. unfold removeFee. pres. Qed.
#[local] Hint Resolve removeFee_only_sets_added : pres.

Lemma removeFee_stays_healthy : preserves stays_healthy removeFee.
Proof. unfold removeFee. pres. Qed.
#[local] Hint Resolve removeFee_stays_healthy : pres.

Lemma removeFee_sends_no_add : preserves sends_no_add removeFee.
Proof. unfold removeFee. pres. Qed.
#[local] Hint Resolve removeFee_sends_no_add : pres.

Lemma removeFee_no_more_fee_lines : preserves no_more_fee_lines removeFee.
Proof. unfold removeFee. pres. Qed.
#[local] Hint Resolve removeFee_no_more_fee_lines : pres.

Lemma removeFee_quiet_if_no_fee : preserves quiet_if_no_fee removeFee.
Proof.
  intros w Hw. unfold exec, removeFee, bind. rewrite getCart_eq.
  destruct (served (network w)); cbn.
  - apply find_fee_none in Hw. unfold findFeeLineItem. cbn [items]. rewrite Hw. cbn.
    unfold mutations. cbn. rewrite List.filter_app, app_nil_r. auto.
  - unfold mutations. cbn. rewrite List.filter_app, app_nil_r. auto.
Qed.
#[local] Hint Resolve removeFee_quiet_if_no_fee : pres.

Lemma checkEmptyCart_quiet_if_nonempty : preserves quiet_if_nonempty checkEmptyCart.
Proof.
  intros w Hw. unfold exec, checkEmptyCart, bind. rewrite getCart_eq.
  destruct (served (network w)); cbn.
  - unfold subtotal_of in Hw. apply Z.eqb_neq in Hw. rewrite Hw. cbn.
    unfold mutations. cbn. rewrite List.filter_app, app_nil_r. auto.
  - unfold mutations. cbn. rewrite List.filter_app, app_nil_r. auto.
Qed.
#[local] Hint Resolve checkEmptyCart_quiet_if_nonempty : pres.
Lemma checkEmptyCart_only_deletes : preserves only_deletes checkEmptyCart.
Proof. unfold checkEmptyCart. pres. Qed.
#[local] Hint Resolve checkEmptyCart_only_deletes : pres.

Lemma checkEmptyCart_only_sets_added : preserves only_sets_added checkEmptyCart.
Proof. unfold checkEmptyCart. pres. Qed.
#[local] Hint Resolve checkEmptyCart_only_sets_added : pres.

Lemma checkEmptyCart_stays_healthy : preserves stays_healthy checkEmptyCart.
Proof. unfold checkEmptyCart. pres. Qed.
#[local] Hint Resolve checkEmptyCart_stays_healthy : pres.

Lemma checkEmptyCart_sends_no_add : preserves sends_no_add checkEmptyCart.
Proof. unfold checkEmptyCart. pres. Qed.
#[local] Hint Resolve checkEmptyCart_sends_no_add : pres.

Lemma checkEmptyCart_no_more_fee_lines : preserves no_more_fee_lines checkEmptyCart.
Proof. unfold checkEmptyCart. pres. Qed.
#[local] Hint Resolve checkEmptyCart_no_more_fee_lines : pres.

Lemma checkEmptyCart_quiet_if_no_fee : preserves quiet_if_no_fee checkEmptyCart.
Proof. unfold checkEmptyCart. pres. Qed.
#[local] Hint Resolve checkEmptyCart_quiet_if_no_fee : pres.

Lemma CheckboxHandler_init_only_deletes : preserves only_deletes CheckboxHandler_init.
Proof. unfold CheckboxHandler_init. pres. Qed.
#[local] Hint Resolve CheckboxHandler_init_only_deletes : pres.

Lemma CheckboxHandler_init_only_sets_added : preserves only_sets_added CheckboxHandler_init.
Proof. unfold CheckboxHandler_init. pres. Qed.
#[local] Hint Resolve CheckboxHandler_init_only_sets_added : pres.

Lemma CheckboxHandler_init_stays_healthy : preserves stays_healthy CheckboxHandler_init.
Proof. unfold CheckboxHandler_init. pres. Qed.
#[local] Hint Resolve CheckboxHandler_init_stays_healthy : pres.

Lemma CheckboxHandler_init_sends_no_add : preserves sends_no_add CheckboxHandler_init.
Proof. unfold CheckboxHandler_init. pres. Qed.
#[local] Hint Resolve CheckboxHandler_init_sends_no_add : pres.

Lemma CheckboxHandler_init_no_more_fee_lines : preserves no_more_fee_lines CheckboxHandler_init.
Proof. unfold CheckboxHandler_init. pres. Qed.
#[local] Hint Resolve CheckboxHandler_init_no_more_fee_lines : pres.

Lemma CheckboxHandler_init_quiet_if_nonempty : preserves quiet_if_nonempty CheckboxHandler_init.
Proof. unfold CheckboxHandler_init. pres. Qed.
#[local] Hint Resolve CheckboxHandler_init_quiet_if_nonempty : pres.

Lemma CheckboxHandler_init_quiet_if_no_fee : preserves quiet_if_no_fee CheckboxHandler_init.
Proof. unfold CheckboxHandler_init. pres. Qed.
#[local] Hint Resolve CheckboxHandler_init_quiet_if_no_fee : pres.

Lemma refreshCartUI_only_deletes : preserves only_deletes refreshCartUI.
Proof. unfold refreshCartUI. pres. Qed.
#[local] Hint Resolve refreshCartUI_only_deletes : pres.

Lemma refreshCartUI_only_sets_added : preserves only_sets_added refreshCartUI.
Proof. unfold refreshCartUI. pres. Qed.
#[local] Hint Resolve refreshCartUI_only_sets_added : pres.

Lemma refreshCartUI_stays_healthy : preserves stays_healthy refreshCartUI.
Proof. unfold refreshCartUI. pres. Qed.
#[local] Hint Resolve refreshCartUI_stays_healthy : pres.

Lemma refreshCartUI_sends_no_add : preserves sends_no_add refreshCartUI.
Proof. unfold refreshCartUI. pres. Qed.
#[local] Hint Resolve refreshCartUI_sends_no_add : pres.

Lemma refreshCartUI_no_more_fee_lines : preserves no_more_fee_lines refreshCartUI.
Proof. unfold refreshCartUI. pres. Qed.
#[local] Hint Resolve refreshCartUI_no_more_fee_lines : pres.

Lemma refreshCartUI_quiet_if_nonempty : preserves quiet_if_nonempty refreshCartUI.
Proof. unfold refreshCartUI. pres. Qed.
#[local] Hint Resolve refreshCartUI_quiet_if_nonempty : pres.

Lemma refreshCartUI_quiet_if_no_fee : preserves quiet_if_no_fee refreshCartUI.
Proof. unfold refreshCartUI. pres. Qed.
#[local] Hint Resolve refreshCartUI_quiet_if_no_fee : pres.

Lemma setFeeQuantity_only_deletes (k : string) (q : Z) : preserves only_deletes (setFeeQuantity k q).
Proof. unfold setFeeQuantity. pres. Qed.
#[local] Hint Resolve setFeeQuantity_only_deletes : pres.

Lemma setFeeQuantity_only_sets_added (k : string) (q : Z) : preserves only_sets_added (setFeeQuantity k q).
Proof. unfold setFeeQuantity. pres. Qed.
#[local] Hint Resolve setFeeQuantity_only_sets_added : pres.

Lemma setFeeQuantity_stays_healthy (k : string) (q : Z) : preserves stays_healthy (setFeeQuantity k q).
Proof. unfold setFeeQuantity. pres. Qed.
#[local] Hint Resolve setFeeQuantity_stays_healthy : pres.

Lemma setFeeQuantity_sends_no_add (k : string) (q : Z) : preserves sends_no_add (setFeeQuantity k q).
Proof. unfold setFeeQuantity. pres. Qed.
#[local] Hint Resolve setFeeQuantity_sends_no_add : pres.

Lemma setFeeQuantity_no_more_fee_lines (k : string) (q : Z) : preserves no_more_fee_lines (setFeeQuantity k q).
Proof. unfold setFeeQuantity. pres. Qed.
#[local] Hint Resolve setFeeQuantity_no_more_fee_lines : pres.

Lemma addFee_only_deletes (feeAmount : Z) : preserves only_deletes (addFee feeAmount).
Proof. unfold addFee. pres. Qed.
#[local] Hint Resolve addFee_only_deletes : pres.

Lemma addFee_only_sets_added (feeAmount : Z) : preserves only_sets_added (addFee feeAmount).
Proof. unfold addFee. pres. Qed.
#[local] Hint Resolve addFee_only_sets_added : pres.

Lemma addFee_stays_healthy (feeAmount : Z) : preserves stays_healthy (addFee feeAmount).
Proof. unfold addFee. pres. Qed.
#[local] Hint Resolve addFee_stays_healthy : pres.

Lemma updateFee_only_deletes : preserves only_deletes updateFee.
Proof. unfold updateFee. pres. Qed.
#[local] Hint Resolve updateFee_only_deletes : pres.

Lemma updateFee_only_sets_added : preserves only_sets_added updateFee.
Proof. unfold updateFee. pres. Qed.
#[local] Hint Resolve updateFee_only_sets_added : pres.

Lemma updateFee_stays_healthy : preserves stays_healthy updateFee.
Proof. unfold updateFee. pres. Qed.
#[local] Hint Resolve updateFee_stays_healthy : pres.

Lemma recalcTask_only_deletes : preserves only_deletes recalcTask.
Proof. unfold recalcTask. pres. Qed.
#[local] Hint Resolve recalcTask_only_deletes : pres.

Lemma recalcTask_only_sets_added : preserves only_sets_added recalcTask.
Proof. unfold recalcTask. pres. Qed.
#[local] Hint Resolve recalcTask_only_sets_added : pres.

Lemma recalcTask_stays_healthy : preserves stays_healthy recalcTask.
Proof. unfold recalcTask. pres. Qed.
#[local] Hint Resolve recalcTask_stays_healthy : pres.

Lemma onCartUpdated_only_deletes : preserves only_deletes onCartUpdated.
Proof. unfold onCartUpdated. pres. Qed.
#[local] Hint Resolve onCartUpdated_only_deletes : pres.

Lemma onCartUpdated_only_sets_added : preserves only_sets_added onCartUpdated.
Proof. unfold onCartUpdated. pres. Qed.
#[local] Hint Resolve onCartUpdated_only_sets_added : pres.

Lemma onCartUpdated_stays_healthy : preserves stays_healthy onCartUpdated.
Proof. unfold onCartUpdated. pres. Qed.
#[local] Hint Resolve onCartUpdated_stays_healthy : pres.

Lemma alignFee_only_deletes : preserves only_deletes alignFee.
Proof. unfold alignFee. pres. Qed.
#[local] Hint Resolve alignFee_only_deletes : pres.

Lemma alignFee_only_sets_added : preserves only_sets_added alignFee.
Proof. unfold alignFee. pres. Qed.
#[local] Hint Resolve alignFee_only_sets_added : pres.

Lemma alignFee_stays_healthy : preserves stays_healthy alignFee.
Proof. unfold alignFee. pres. Qed.
#[local] Hint Resolve alignFee_stays_healthy : pres.

Lemma init_only_deletes : preserves only_deletes init.
Proof. unfold init. pres. Qed.
#[local] Hint Resolve init_only_deletes : pres.

Lemma init_only_sets_added : preserves only_sets_added init.
Proof. unfold init. pres. Qed.
#[local] Hint Resolve init_only_sets_added : pres.

Lemma init_stays_healthy : preserves stays_healthy init.
Proof. unfold init. pres. Qed.
#[local] Hint Resolve init_stays_healthy : pres.

Lemma pageScript_only_deletes : preserves only_deletes pageScript.
Proof. unfold pageScript. pres. Qed.
#[local] Hint Resolve pageScript_only_deletes : pres.

Lemma pageScript_only_sets_added : preserves only_sets_added pageScript.
Proof. unfold pageScript. pres. Qed.
#[local] Hint Resolve pageScript_only_sets_added : pres.

Lemma pageScript_stays_healthy : preserves stays_healthy pageScript.
Proof. unfold pageScript. pres. Qed.
#[local] Hint Resolve pageScript_stays_healthy : pres.

Lemma ajaxAdd_only_deletes (item : Item) : preserves only_deletes (ajaxAdd item).
Proof. unfold ajaxAdd. pres. Qed.
#[local] Hint Resolve ajaxAdd_only_deletes : pres.

Lemma ajaxAdd_only_sets_added (item : Item) : preserves only_sets_added (ajaxAdd item).
Proof. unfold ajaxAdd. pres. Qed.
#[local] Hint Resolve ajaxAdd_only_sets_added : pres.

Lemma ajaxAdd_stays_healthy (item : Item) : preserves stays_healthy (ajaxAdd item).
Proof. unfold ajaxAdd. pres. Qed.
#[local] Hint Resolve ajaxAdd_stays_healthy : pres.

Lemma confirmRemoval_only_deletes : preserves only_deletes confirmRemoval.
Proof. unfold confirmRemoval. pres. Qed.
#[local] Hint Resolve confirmRemoval_only_deletes : pres.

Lemma confirmRemoval_only_sets_added : preserves only_sets_added confirmRemoval.
Proof. unfold confirmRemoval. pres. Qed.
#[local] Hint Resolve confirmRemoval_only_sets_added : pres.

Lemma confirmRemoval_stays_healthy : preserves stays_healthy confirmRemoval.
Proof. unfold confirmRemoval. pres. Qed.
#[local] Hint Resolve confirmRemoval_stays_healthy : pres.

Lemma confirmRemoval_sends_no_add : preserves sends_no_add confirmRemoval.
Proof. unfold confirmRemoval. pres. Qed.
#[local] Hint Resolve confirmRemoval_sends_no_add : pres.

Lemma confirmRemoval_no_more_fee_lines : preserves no_more_fee_lines confirmRemoval.
Proof. unfold confirmRemoval. pres. Qed.
#[local] Hint Resolve confirmRemoval_no_more_fee_lines : pres.

Lemma handleCheckboxChange_only_sets_added (target : string) : preserves only_sets_added (handleCheckboxChange target).
Proof. unfold handleCheckboxChange. pres. Qed.
#[local] Hint Resolve handleCheckboxChange_only_sets_added : pres.

Lemma handleCheckboxChange_stays_healthy (target : string) : preserves stays_healthy (handleCheckboxChange target).
Proof. unfold handleCheckboxChange. pres. Qed.
#[local] Hint Resolve handleCheckboxChange_stays_healthy : pres.

Lemma handleProductCheckboxChange_only_sets_added : preserves only_sets_added handleProductCheckboxChange.
Proof. unfold handleProductCheckboxChange. pres. Qed.
#[local] Hint Resolve handleProductCheckboxChange_only_sets_added : pres.

Lemma handleProductCheckboxChange_stays_healthy : preserves stays_healthy handleProductCheckboxChange.
Proof. unfold handleProductCheckboxChange. pres. Qed.
#[local] Hint Resolve handleProductCheckboxChange_stays_healthy : pres.

Lemma syncCheckboxState_only_sets_added (checkbox : string) : preserves only_sets_added (syncCheckboxState checkbox).
Proof. unfold syncCheckboxState. pres. Qed.
#[local] Hint Resolve syncCheckboxState_only_sets_added : pres.

Lemma syncCheckboxState_stays_healthy (checkbox : string) : preserves stays_healthy (syncCheckboxState checkbox).
Proof. unfold syncCheckboxState. pres. Qed.
#[local] Hint Resolve syncCheckboxState_stays_healthy : pres.

(** ** CartAPI.updateFee: one decision, one request *)

Lemma exec_GET_mutations r w :
  is_mutation r = false -> mutations (sent r w) = mutations w.
Proof.
  intros Hr. unfold mutations, sent. cbn. rewrite List.filter_app. cbn. rewrite Hr.
  apply app_nil_r.
Qed.

Lemma fetch_store_healthy r w :
  network w = [] -> store (exec (fetch r) w) = applied (Some r) (store w).
Proof.
  intros H. unfold exec, fetch, applied. rewrite H. cbn.
  destruct (serve r (store w)); reflexivity.
Qed.

Lemma fetch_store_cases r w :
  store (exec (fetch r) w) = store w \/ serve r (store w) = Some (store (exec (fetch r) w)).
Proof. destruct (fetch_world r w) as (_ & _ & _ & [E|[_ E]]); auto. Qed.

Lemma json_cart_world r w : exec (json_cart r) w = w.
Proof. unfold json_cart. destruct (body r); reflexivity. Qed.

(** After its request, [setFeeQuantity] stops or refreshes the cart
    section. *)
Lemma setFeeQuantity_world k q w :
  exec (setFeeQuantity k q) w = exec (fetch (POST_change_id k q)) w
  \/ exec (setFeeQuantity k q) w = exec refreshCartUI (exec (fetch (POST_change_id k q)) w).
Proof.
  unfold exec, setFeeQuantity, try_catch, bind.
  destruct (fetch (POST_change_id k q) w) as [[resp|] w2]; cbn; auto.
  destruct (ok resp); cbn; auto.
  pose proof (json_cart_world resp w2) as Hj. unfold exec in Hj.
  destruct (json_cart resp w2) as [[c|] w2']; cbn in *; subst; auto.
  destruct (refreshCartUI w2) as [[u|] w3]; cbn; auto.
Qed.

(** After its request, [addFee] stops, possibly with an alert, or
    refreshes the cart section. *)
Lemma addFee_world f w :
  let w2 := exec (fetch (POST_add PAYPAL_FEE_VARIANT_ID (Num.Math_round f))) w in
  (same_traffic w2 (exec (addFee f) w) /\ sessionStorage (exec (addFee f) w) = sessionStorage w2)
  \/ exec (addFee f) w = exec refreshCartUI w2.
Proof.
  unfold exec, addFee. change (PAYPAL_FEE_VARIANT_ID =? 0)%Z with false. cbv iota.
  unfold try_catch, bind.
  destruct (fetch (POST_add PAYPAL_FEE_VARIANT_ID (Num.Math_round f)) w) as [[resp|] w2]; cbn.
  2: { left. repeat split. }
  destruct (ok resp); cbn.
  - pose proof (json_cart_world resp w2) as Hj. unfold exec in Hj.
    destruct (json_cart resp w2) as [[c|] w2']; cbn in *; subst.
    + destruct (refreshCartUI w2) as [[u|] w3]; cbn; auto.
    + left. repeat split.
  - left. unfold addFee_not_ok, bind. destruct (body resp); cbn; try (repeat split; fail).
    destruct (includes _ _); cbn; repeat split.
Qed.

Lemma removeFee_world w :
  served (network w) = true ->
  exec removeFee w =
    match findFeeLineItem {| items := store w |} with
    | None => sent GET_cart w
    | Some fee => exec (fetch (POST_change_line (indexOf (store w) fee + 1) 0)) (sent GET_cart w)
    end.
Proof.
  intros Hs. unfold exec at 1, removeFee, bind. rewrite getCart_eq, Hs.
  destruct (findFeeLineItem _) as [fee|]; [|reflexivity]. cbn [items].
  unfold exec, try_catch, bind.
  destruct (fetch _ (sent GET_cart w)) as [[resp|] w2]; cbn; [|reflexivity].
  destruct (ok resp); reflexivity.
Qed.

Lemma removeFee_failed w :
  served (network w) = false -> exec removeFee w = sent GET_cart w.
Proof. intros Hs. unfold exec, removeFee, bind. rewrite getCart_eq, Hs. reflexivity. Qed.

Lemma exec_then_ret {A B} (m : M A) (b : B) w : exec (bind m (fun _ => ret b)) w = exec m w.
Proof. unfold exec, bind, ret. destruct (m w) as [[a|] w']; reflexivity. Qed.

(** The world [updateFee] leaves, from the branch it takes. *)
Lemma updateFee_world w :
  served (network w) = true ->
  exec updateFee w =
    let w1 := sent GET_cart w in
    let subtotal := subtotal_of (store w) in
    if (subtotal =? 0)%Z then exec removeFee w1
    else match findFeeLineItem {| items := store w |} with
         | Some fee => if (quantity fee =? calculateFee subtotal)%Z then w1
                       else exec (setFeeQuantity (key fee) (calculateFee subtotal)) w1
         | None => exec (addFee (calculateFee subtotal)) w1
         end.
Proof.
  intros Hs. unfold updateFee, subtotal_of, Num.Math_round.
  unfold exec at 1. unfold bind at 1. rewrite getCart_eq, Hs. cbv zeta.
  destruct (_ =? 0)%Z; [apply exec_then_ret|].
  destruct (findFeeLineItem _) as [fee|]; [|apply exec_then_ret].
  destruct (_ =? _)%Z; [reflexivity|apply exec_then_ret].
Qed.

(** The requests [updateFee] sends that change the cart, and the cart it
    leaves when the network is healthy. *)
Lemma updateFee_run w :
  served (network w) = true ->
  (subtotal_of (store w) = 0%Z -> served (tl (network w)) = true) ->
  NoDup (key <$> store w) ->
  mutations (exec updateFee w) = mutations w ++ option_list (reconcile (store w))
  /\ (network w = [] -> store (exec updateFee w) = applied (reconcile (store w)) (store w)).
Proof.
  intros Hs Hz Hnd. rewrite (updateFee_world w Hs). cbv zeta.
  unfold reconcile. fold (subtotal_of (store w)).
  set (w1 := sent GET_cart w).
  assert (Hm1 : mutations w1 = mutations w) by (apply exec_GET_mutations; reflexivity).
  assert (Hn1 : network w = [] -> network w1 = []) by (intros Hn; cbn; rewrite Hn; reflexivity).
  destruct (Z.eqb_spec (subtotal_of (store w)) 0) as [E0|E0].
  - (* empty cart: removeFee *)
    rewrite (removeFee_world w1 (Hz E0)).
    change (store w1) with (store w).
    destruct (findFeeLineItem {| items := store w |}) as [fee|]; cbn [option_list applied].
    + rewrite fetch_mutations. cbn [is_mutation]. rewrite exec_GET_mutations, Hm1 by reflexivity.
      split; [reflexivity|]. intros Hn. rewrite fetch_store_healthy; [reflexivity|].
      cbn. rewrite Hn. reflexivity.
    + rewrite exec_GET_mutations, Hm1, app_nil_r by reflexivity. split; reflexivity.
  - (* fee due *)
    set (d := calculateFee (subtotal_of (store w))).
    destruct (findFeeLineItem {| items := store w |}) as [fee|] eqn:Ef.
    + destruct (Z.eqb_spec (quantity fee) d) as [Eq|Eq]; cbn [option_list applied].
      * rewrite Hm1, app_nil_r. split; reflexivity.
      * set (r := POST_change_id (key fee) d).
        assert (Hsub : subtotal_of (store (exec (fetch r) w1)) <> 0%Z).
        { destruct (fetch_store_cases r w1) as [E|E]; [rewrite E; exact E0|].
          rewrite (change_key_subtotal d (store w) _ fee Hnd Ef); [exact E0|].
          cbn in E. destruct (0 <=? _)%Z; [exact E|discriminate]. }
        assert (Hres : mutations (exec (setFeeQuantity (key fee) d) w1) = mutations w ++ [r]
                       /\ store (exec (setFeeQuantity (key fee) d) w1) = store (exec (fetch r) w1)).
        { destruct (setFeeQuantity_world (key fee) d w1) as [-> | ->]; fold r.
          - rewrite fetch_mutations, Hm1. auto.
          - destruct (refreshCartUI_quiet_if_nonempty (exec (fetch r) w1) Hsub) as [-> ->].
            rewrite fetch_mutations, Hm1. auto. }
        destruct Hres as [-> ->]. split; [reflexivity|].
        intros Hn. apply (fetch_store_healthy r w1), Hn1, Hn.
    + cbn [option_list applied].
      set (r := POST_add PAYPAL_FEE_VARIANT_ID d).
      assert (Hsub : subtotal_of (store (exec (fetch r) w1)) <> 0%Z).
      { destruct (fetch_store_cases r w1) as [E|E]; [rewrite E; exact E0|].
        cbn in E. destruct (0 <? d)%Z; [|discriminate]. injection E as E. rewrite <- E.
        change (store w1) with (store w).
        rewrite subtotal_app. change (subtotal_of [fee_line d]) with 0%Z.
        rewrite Z.add_0_r. exact E0. }
      assert (Hres : mutations (exec (addFee d) w1) = mutations w ++ [r]
                     /\ store (exec (addFee d) w1) = store (exec (fetch r) w1)).
      { pose proof (addFee_world d w1) as Hfin.
        change (POST_add PAYPAL_FEE_VARIANT_ID (Num.Math_round d)) with r in Hfin.
        cbv zeta in Hfin. destruct Hfin as [[(Es & Er & _) _] | ->].
        - unfold mutations at 1. rewrite Er, Es. fold (mutations (exec (fetch r) w1)).
          rewrite fetch_mutations, Hm1. auto.
        - destruct (refreshCartUI_quiet_if_nonempty (exec (fetch r) w1) Hsub) as [-> ->].
          rewrite fetch_mutations, Hm1. auto. }
      destruct Hres as [-> ->]. split; [reflexivity|].
      intros Hn. apply (fetch_store_healthy r w1), Hn1, Hn.
Qed.

(** ** Computations that do not throw *)

Lemma returns_ret {A} (a : A) : returns (ret a).
Proof. intros w. discriminate. Qed.

Lemma returns_get : returns get.
Proof. intros w. discriminate. Qed.

Lemma returns_modify f : returns (modify f).
Proof. intros w. discriminate. Qed.

Lemma returns_bind {A B} (m : M A) (k : A -> M B) :
  returns m -> (forall a, returns (k a)) -> returns (bind m k).
Proof.
  intros Hm Hk w. unfold result, bind. specialize (Hm w). unfold result in Hm.
  destruct (m w) as [[a|] w']; [apply Hk|exfalso; apply Hm; reflexivity].
Qed.

Lemma returns_try_catch {A} (m h : M A) : returns h -> returns (try_catch m h).
Proof.
  intros Hh w. unfold result, try_catch. destruct (m w) as [[a|] w']; [discriminate|apply Hh].
Qed.

Lemma returns_when c m : returns m -> returns (when c m).
Proof. destruct c; [auto|intros _; apply returns_ret]. Qed.

Ltac rets_step :=
  lazymatch goal with
  | |- returns (bind _ _) => apply returns_bind; [|intros ?]
  | |- returns (try_catch _ _) => apply returns_try_catch
  | |- returns (ret _) => apply returns_ret
  | |- returns get => apply returns_get
  | |- returns (modify _) => apply returns_modify
  | |- returns (when _ _) => apply returns_when
  | |- returns (if ?c then _ else _) => destruct c
  | |- returns (match ?x with _ => _ end) => destruct x
  end.

Create HintDb rets.
Ltac rets := repeat first [rets_step | solve [eauto with rets] | unfold_prims].

Lemma getCart_returns : returns getCart.
Proof. unfold getCart. rets. Qed.
#[local] Hint Resolve getCart_returns : rets.
Lemma removeFee_returns : returns removeFee.
Proof. unfold removeFee. rets. Qed.
#[local] Hint Resolve removeFee_returns : rets.
Lemma checkEmptyCart_returns : returns checkEmptyCart.
Proof. unfold checkEmptyCart. rets. Qed.
#[local] Hint Resolve checkEmptyCart_returns : rets.
Lemma CheckboxHandler_init_returns : returns CheckboxHandler_init.
Proof. unfold CheckboxHandler_init. rets. Qed.
#[local] Hint Resolve CheckboxHandler_init_returns : rets.
Lemma refreshCartUI_returns : returns refreshCartUI.
Proof. unfold refreshCartUI. rets. Qed.
#[local] Hint Resolve refreshCartUI_returns : rets.
Lemma addFee_returns f : returns (addFee f).
Proof. unfold addFee. rets. Qed.
#[local] Hint Resolve addFee_returns : rets.
Lemma setFeeQuantity_returns k q : returns (setFeeQuantity k q).
Proof. unfold setFeeQuantity. rets. Qed.
#[local] Hint Resolve setFeeQuantity_returns : rets.
Lemma updateFee_returns : returns updateFee.
Proof. unfold updateFee. rets. Qed.
#[local] Hint Resolve updateFee_returns : rets.

(** What follows a computation that returns starts in the world it
    leaves. *)
Lemma exec_bind {A B} (m : M A) (k : A -> M B) w :
  returns m -> exists a, result m w = Some a /\ exec (bind m k) w = exec (k a) (exec m w).
Proof.
  intros Hm. specialize (Hm w). unfold result, exec, bind in *.
  destruct (m w) as [[a|] w']; [|exfalso; apply Hm; reflexivity]. exists a. auto.
Qed.

Lemma exec_seq {A B} (m : M A) (k : M B) w :
  returns m -> exec (bind m (fun _ => k)) w = exec k (exec m w).
Proof. intros Hm. destruct (exec_bind m (fun _ => k) w Hm) as (a & _ & E). exact E. Qed.

Lemma drop_first_fee_none l : find is_fee l = None -> drop_first_fee l = l.
Proof.
  induction l as [|x l IH]; simpl; [reflexivity|].
  destruct (is_fee x); [discriminate|]. intros H. rewrite (IH H). reflexivity.
Qed.

(** The request with which [removeFee] removes the fee line of the cart
    it has read, if there is one. *)
Lemma removeFee_run w :
  served (network w) = true ->
  mutations (exec removeFee w)
  = mutations w ++ match findFeeLineItem {| items := store w |} with
                   | Some fee => [POST_change_line (indexOf (store w) fee + 1) 0]
                   | None => []
                   end
  /\ (served (tl (network w)) = true -> store (exec removeFee w) = drop_first_fee (store w)).
Proof.
  intros Hs. rewrite (removeFee_world w Hs). unfold findFeeLineItem. cbn [items].
  destruct (find is_fee (store w)) as [fee|] eqn:Ef.
  - rewrite fetch_mutations, exec_GET_mutations by reflexivity. split; [reflexivity|].
    intros Hs2. unfold exec, fetch. cbn [network sent set_traffic store].
    unfold served in Hs2.
    destruct (serve_remove_first_fee _ _ Ef) as [Hi Hc].
    assert (Hserve : serve (POST_change_line (indexOf (store w) fee + 1) 0) (store w)
                     = Some (drop_first_fee (store w))).
    { cbn. apply Z.leb_le in Hi. rewrite Hi. cbn. exact Hc. }
    rewrite Hserve.
    destruct (hd Served (tl (network w))); try discriminate; reflexivity.
  - rewrite exec_GET_mutations, app_nil_r by reflexivity. split; [reflexivity|].
    intros _. rewrite (drop_first_fee_none _ Ef). reflexivity.
Qed.

Lemma only_deletes_unset w w' k :
  only_deletes w w' -> sessionStorage w !! k = None -> sessionStorage w' !! k = None.
Proof. intros H E. destruct (H k) as [-> | ->]; auto. Qed.

Lemma unset_not_wanted w :
  sessionStorage w !! SESSION_KEY_ADDED = None -> wants_fee w = false.
Proof. unfold wants_fee. intros ->. reflexivity. Qed.

(** [checkEmptyCart] on an empty cart it could read. *)
Lemma checkEmptyCart_empty w :
  served (network w) = true -> subtotal_of (store w) = 0%Z ->
  exec checkEmptyCart w =
    exec (setChecked ID_MAIN false ;; setChecked ID_DRAWER false ;;
          removeItem SESSION_KEY_ADDED) (exec removeFee (sent GET_cart w)).
Proof.
  intros Hs E0. unfold checkEmptyCart. unfold exec at 1. unfold bind at 1.
  rewrite getCart_eq, Hs. unfold subtotal_of in E0. rewrite E0. cbn [Z.eqb when].
  apply (exec_seq removeFee), removeFee_returns.
Qed.

(** C3.  Whatever the preference, for a cart whose subtotal without the
    fee is 0 (and that the two reads of [updateFee] return), [updateFee]
    sends, as its only change of the cart, the removal of the fee line if
    there is one, and nothing if there is none: no add and no
    set-quantity.  The store, if it serves the removal, is left with the
    cart without that line.  [checkEmptyCart], which every listener set
    and the 'cart:updated' listener run, sends the same removal and
    clears the preference: SESSION_KEY_ADDED is unset after it, and after
    the whole 'cart:updated' listener. *)
Theorem zero_subtotal_removes_fee w :
  subtotal_of (store w) = 0%Z ->
  served (network w) = true ->
  served (tl (network w)) = true ->
  let removal := match findFeeLineItem {| items := store w |} with
                 | Some fee => [POST_change_line (indexOf (store w) fee + 1) 0]
                 | None => []
                 end in
  mutations (exec updateFee w) = mutations w ++ removal
  /\ (served (tl (tl (network w))) = true ->
      store (exec updateFee w) = drop_first_fee (store w))
  /\ mutations (exec checkEmptyCart w) = mutations w ++ removal
  /\ sessionStorage (exec checkEmptyCart w) !! SESSION_KEY_ADDED = None
  /\ wants_fee (exec checkEmptyCart w) = false
  /\ wants_fee (exec onCartUpdated w) = false.
Proof.
  intros E0 Hs Hs2 removal.
  assert (Hrm : mutations (exec removeFee (sent GET_cart w)) = mutations w ++ removal
                /\ (served (tl (tl (network w))) = true ->
                    store (exec removeFee (sent GET_cart w)) = drop_first_fee (store w))).
  { destruct (removeFee_run (sent GET_cart w) Hs2) as [Hm Hst].
    rewrite exec_GET_mutations in Hm by reflexivity. split; [exact Hm|exact Hst]. }
  destruct Hrm as [Hm Hst].
  assert (Hce : sessionStorage (exec checkEmptyCart w) !! SESSION_KEY_ADDED = None
                /\ mutations (exec checkEmptyCart w) = mutations w ++ removal).
  { rewrite (checkEmptyCart_empty w Hs E0).
    set (w1 := exec removeFee (sent GET_cart w)) in *.
    unfold exec, bind, setChecked, removeItem, modify. cbn.
    split; [apply lookup_delete_eq|exact Hm]. }
  destruct Hce as [Hunset Hcm].
  split; [|split; [|split; [|split; [|split]]]].
  - rewrite (updateFee_world w Hs). cbv zeta.
    apply Z.eqb_eq in E0. rewrite E0. exact Hm.
  - rewrite (updateFee_world w Hs). cbv zeta.
    apply Z.eqb_eq in E0. rewrite E0. exact Hst.
  - exact Hcm.
  - exact Hunset.
  - apply unset_not_wanted, Hunset.
  - apply unset_not_wanted.
    change onCartUpdated with (bind checkEmptyCart (fun _ => recalcTask)).
    rewrite (exec_seq checkEmptyCart recalcTask w checkEmptyCart_returns).
    apply (only_deletes_unset (exec checkEmptyCart w)); [|exact Hunset].
    apply recalcTask_only_deletes.
Qed.

Lemma zero_subtotal_removes_fee_witness :
  mutations (exec updateFee (page [fee_line 35] true [])) = [POST_change_line 1 0]
  /\ store (exec updateFee (page [fee_line 35] true [])) = []
  /\ wants_fee (exec checkEmptyCart (page [fee_line 35] true [])) = false.
Proof.
  destruct (zero_subtotal_removes_fee (page [fee_line 35] true [])) as (H1 & H2 & _ & _ & H5 & _);
    [reflexivity|reflexivity|reflexivity|].
  split; [exact H1|]. split; [apply H2; reflexivity|exact H5].
Defined.


(** ** The gate of the trigger pipelines *)

Lemma userWantsFee_eq w : userWantsFee w = (Some (wants_fee w), w).
Proof. reflexivity. Qed.

Lemma only_deletes_not_wanted w w' :
  only_deletes w w' -> wants_fee w = false -> wants_fee w' = false.
Proof.
  unfold wants_fee. intros H E. destruct (H SESSION_KEY_ADDED) as [-> | ->]; auto.
Qed.

(** With no fee line in the cart and no wish for one, the debounced task
    and the task at the end of [init] do nothing but read the cart. *)
Lemma recalcTask_gate_closed w :
  findFeeLineItem {| items := store w |} = None -> wants_fee w = false ->
  exec recalcTask w = sent GET_cart w.
Proof.
  intros Ef Ew. unfold recalcTask, exec, bind. rewrite getCart_eq.
  destruct (served (network w)); [|reflexivity].
  rewrite userWantsFee_eq. change (wants_fee (sent GET_cart w)) with (wants_fee w).
  rewrite Ef, Ew. reflexivity.
Qed.

Lemma alignFee_gate_closed w :
  findFeeLineItem {| items := store w |} = None -> wants_fee w = false ->
  exec alignFee w = sent GET_cart w.
Proof.
  intros Ef Ew. unfold alignFee, exec, bind. rewrite getCart_eq.
  destruct (served (network w)); [|reflexivity].
  rewrite userWantsFee_eq. change (wants_fee (sent GET_cart w)) with (wants_fee w).
  rewrite Ef, Ew. reflexivity.
Qed.

Lemma onCartUpdated_gate_closed w :
  findFeeLineItem {| items := store w |} = None -> wants_fee w = false ->
  mutations (exec onCartUpdated w) = mutations w /\ store (exec onCartUpdated w) = store w.
Proof.
  intros Ef Ew.
  change onCartUpdated with (bind checkEmptyCart (fun _ => recalcTask)).
  rewrite (exec_seq checkEmptyCart recalcTask w checkEmptyCart_returns).
  destruct (checkEmptyCart_quiet_if_no_fee w) as [Es Em].
  { apply find_fee_none. exact Ef. }
  rewrite recalcTask_gate_closed.
  - rewrite exec_GET_mutations by reflexivity. cbn [store sent set_traffic]. auto.
  - rewrite Es. exact Ef.
  - apply (only_deletes_not_wanted w); [apply checkEmptyCart_only_deletes|exact Ew].
Qed.

(** C2, as stated, fails: the preference is unset, the cart holds a rifle
    of 10 euros and a fee line of 35 cents, every request is served, and
    neither [updateFee] nor the 'cart:updated' listener sends a removal;
    the fee line stays in the cart. *)
Lemma unset_preference_keeps_fee_line :
  wants_fee (page [rifle; fee_line 35] false []) = false
  /\ findFeeLineItem {| items := [rifle; fee_line 35] |} = Some (fee_line 35)
  /\ mutations (exec updateFee (page [rifle; fee_line 35] false [])) = []
  /\ mutations (exec onCartUpdated (page [rifle; fee_line 35] false [])) = []
  /\ store (exec onCartUpdated (page [rifle; fee_line 35] false [])) = [rifle; fee_line 35].
Proof. vm_compute. repeat split. Qed.

(** C2, amended.  [updateFee] does not look at the preference.  When the
    preference is not wants-fee and the cart it reads has a fee line and
    a subtotal other than 0, it sends no removal: nothing if the quantity
    of the line is calculateFee(subtotal), and otherwise the one request
    that sets the quantity of that line to calculateFee(subtotal).  When
    the cart has no fee line, the 'cart:updated' listener, the debounced
    task and the task at the end of [init] send no request that changes
    the cart, and leave the cart as it is. *)
Theorem unset_preference_reconciliation w :
  wants_fee w = false ->
  (forall fee,
      findFeeLineItem {| items := store w |} = Some fee ->
      subtotal_of (store w) <> 0%Z ->
      served (network w) = true ->
      NoDup (key <$> store w) ->
      mutations (exec updateFee w)
      = mutations w ++ (if (quantity fee =? calculateFee (subtotal_of (store w)))%Z then []
                        else [POST_change_id (key fee) (calculateFee (subtotal_of (store w)))]))
  /\ (findFeeLineItem {| items := store w |} = None ->
      (mutations (exec onCartUpdated w) = mutations w /\ store (exec onCartUpdated w) = store w)
      /\ (mutations (exec recalcTask w) = mutations w /\ store (exec recalcTask w) = store w)
      /\ (mutations (exec alignFee w) = mutations w /\ store (exec alignFee w) = store w)).
Proof.
  intros Ew. split.
  - intros fee Ef E0 Hs Hnd.
    destruct (updateFee_run w Hs) as [Hm _]; [intros E; contradiction|exact Hnd|].
    rewrite Hm. unfold reconcile, subtotal_of in *.
    destruct (Z.eqb_spec (getSubtotalWithoutFee {| items := store w |}) 0); [contradiction|].
    rewrite Ef. destruct (quantity fee =? _)%Z; reflexivity.
  - intros Ef. split; [apply onCartUpdated_gate_closed; assumption|].
    rewrite recalcTask_gate_closed, alignFee_gate_closed by assumption.
    rewrite exec_GET_mutations by reflexivity. auto.
Qed.

Lemma unset_preference_reconciliation_witness :
  mutations (exec updateFee (page [rifle; fee_line 10] false []))
  = [POST_change_id FEE_LINE_KEY 35]
  /\ mutations (exec onCartUpdated (page [rifle] false [])) = [].
Proof.
  split.
  - destruct (unset_preference_reconciliation (page [rifle; fee_line 10] false []))
      as [H _]; [reflexivity|].
    apply (H (fee_line 10)); [reflexivity|vm_compute; discriminate|reflexivity|].
    apply (bool_decide_unpack _). vm_compute. exact I.
  - destruct (unset_preference_reconciliation (page [rifle] false []))
      as [_ H]; [reflexivity|].
    apply H. reflexivity.
Defined.


(** ** Convergence *)

Lemma wf_cart_facts l :
  wf_cart l = true ->
  NoDup (key <$> l) /\ (fee_lines l <= 1)%nat /\ (0 <= subtotal_of l < 2 ^ 53)%Z.
Proof.
  unfold wf_cart. intros H.
  apply andb_prop in H as [H H4]. apply andb_prop in H as [H H3].
  apply andb_prop in H as [H1 H2].
  apply bool_decide_eq_true in H1. apply Nat.leb_le in H2. apply Z.ltb_lt in H4.
  pose proof (subtotal_nonneg l H3). auto.
Qed.

(** Once the store has served the request that [updateFee] decides on,
    [updateFee] decides on none. *)
Lemma reconcile_applied l :
  wf_cart l = true -> reconcile (applied (reconcile l) l) = None.
Proof.
  intros Hwf. destruct (wf_cart_facts l Hwf) as (Hnd & H1 & Hlo & Hhi).
  unfold reconcile at 2. unfold findFeeLineItem. cbn [items]. fold (subtotal_of l).
  destruct (Z.eqb_spec (subtotal_of l) 0) as [E0|E0].
  - destruct (find is_fee l) as [fee|] eqn:Ef.
    + unfold applied.
      destruct (serve_remove_first_fee l fee Ef) as [Hi Hc].
      cbn [serve]. apply Z.leb_le in Hi. rewrite Hi. cbn. rewrite Hc.
      unfold reconcile, findFeeLineItem. cbn [items]. fold (subtotal_of (drop_first_fee l)).
      rewrite subtotal_drop_first_fee. apply Z.eqb_eq in E0. rewrite E0.
      assert (Hn : find is_fee (drop_first_fee l) = None).
      { apply find_fee_none. rewrite fee_lines_drop_first_fee. lia. }
      rewrite Hn. reflexivity.
    + cbn. unfold reconcile, findFeeLineItem. cbn [items]. fold (subtotal_of l).
      apply Z.eqb_eq in E0. rewrite E0, Ef. reflexivity.
  - assert (Hd : (1 <= calculateFee (subtotal_of l))%Z).
    { apply NumFacts.calculateFee_pos. lia. }
    set (d := calculateFee (subtotal_of l)) in *.
    destruct (find is_fee l) as [fee|] eqn:Ef.
    + destruct (Z.eqb_spec (quantity fee) d) as [Eq|Eq].
      * cbn. unfold reconcile, findFeeLineItem. cbn [items]. fold (subtotal_of l). fold d.
        apply Z.eqb_neq in E0. rewrite E0, Ef. apply Z.eqb_eq in Eq. rewrite Eq. reflexivity.
      * unfold applied. cbn [serve].
        replace (0 <=? d)%Z with true by (symmetry; apply Z.leb_le; lia).
        rewrite (change_key_first_fee d l fee Hnd Ef).
        replace (d =? 0)%Z with false by (symmetry; apply Z.eqb_neq; lia).
        unfold reconcile, findFeeLineItem. cbn [items].
        fold (subtotal_of (set_first_fee d l)). rewrite subtotal_set_first_fee. fold d.
        apply Z.eqb_neq in E0. rewrite E0.
        rewrite (find_set_first_fee d l fee Ef). cbn [quantity with_quantity].
        rewrite Z.eqb_refl. reflexivity.
    + unfold applied. cbn [serve]. rewrite Z.eqb_refl.
      replace (0 <? d)%Z with true by (symmetry; apply Z.ltb_lt; lia). cbn [andb].
      unfold reconcile, findFeeLineItem. cbn [items].
      fold (subtotal_of (l ++ [fee_line d])). rewrite subtotal_app.
      change (subtotal_of [fee_line d]) with 0%Z. rewrite Z.add_0_r. fold d.
      apply Z.eqb_neq in E0. rewrite E0.
      rewrite (find_app_fee_line d l Ef). cbn [quantity fee_line].
      rewrite Z.eqb_refl. reflexivity.
Qed.

(** What [updateFee] does when the read fails. *)
Lemma updateFee_failed w :
  served (network w) = false -> exec updateFee w = sent GET_cart w.
Proof. intros Hs. unfold exec, updateFee, bind. rewrite getCart_eq, Hs. reflexivity. Qed.

(** When [updateFee] decides on no request, it leaves the cart alone,
    whatever the network does. *)
Lemma updateFee_converged w :
  reconcile (store w) = None ->
  mutations (exec updateFee w) = mutations w /\ store (exec updateFee w) = store w.
Proof.
  intros Hr. destruct (served (network w)) eqn:Hs.
  2: { rewrite (updateFee_failed w Hs), exec_GET_mutations by reflexivity. auto. }
  rewrite (updateFee_world w Hs). cbv zeta.
  unfold reconcile in Hr. fold (subtotal_of (store w)) in Hr.
  destruct (subtotal_of (store w) =? 0)%Z.
  - destruct (findFeeLineItem {| items := store w |}) as [fee|] eqn:Ef; [discriminate|].
    destruct (served (tl (network w))) eqn:Hs2.
    + rewrite removeFee_world by exact Hs2. change (store (sent GET_cart w)) with (store w).
      rewrite Ef, !exec_GET_mutations by reflexivity. auto.
    + rewrite removeFee_failed by exact Hs2. rewrite !exec_GET_mutations by reflexivity. auto.
  - destruct (findFeeLineItem {| items := store w |}) as [fee|]; [|discriminate].
    destruct (quantity fee =? _)%Z; [|discriminate].
    rewrite exec_GET_mutations by reflexivity. auto.
Qed.

(** C4.  Reconciliation is idempotent.  For a cart as the store hands it
    out and a network that serves every request, the second run of
    [updateFee] sends no request that changes the cart, and leaves the
    cart as the first run left it; the preference plays no part.  And
    when the fee line of the cart already has the quantity
    calculateFee(subtotal), [updateFee] sends no such request at all,
    whatever the network does. *)
Theorem updateFee_idempotent w :
  wf_cart (store w) = true ->
  network w = [] ->
  (mutations (exec updateFee (exec updateFee w)) = mutations (exec updateFee w)
   /\ store (exec updateFee (exec updateFee w)) = store (exec updateFee w))
  /\ (forall w' fee,
        findFeeLineItem {| items := store w' |} = Some fee ->
        subtotal_of (store w') <> 0%Z ->
        quantity fee = calculateFee (subtotal_of (store w')) ->
        mutations (exec updateFee w') = mutations w' /\ store (exec updateFee w') = store w').
Proof.
  intros Hwf Hn. split.
  - destruct (wf_cart_facts _ Hwf) as (Hnd & _).
    destruct (updateFee_run w) as [_ Hst];
      [rewrite Hn; reflexivity|intros _; rewrite Hn; reflexivity|exact Hnd|].
    apply updateFee_converged. rewrite (Hst Hn). apply reconcile_applied, Hwf.
  - intros w' fee Ef E0 Eq. apply updateFee_converged.
    unfold reconcile. fold (subtotal_of (store w')).
    apply Z.eqb_neq in E0. rewrite E0, Ef. apply Z.eqb_eq in Eq. rewrite Eq. reflexivity.
Qed.

Lemma updateFee_idempotent_witness :
  mutations (exec updateFee (page [rifle] true [])) = [POST_add PAYPAL_FEE_VARIANT_ID 35]
  /\ mutations (exec updateFee (exec updateFee (page [rifle] true [])))
     = mutations (exec updateFee (page [rifle] true []))
  /\ store (exec updateFee (exec updateFee (page [rifle] true [])))
     = [rifle; fee_line 35]
  /\ mutations (exec updateFee (page [rifle; fee_line 35] false [Served; Failed])) = [].
Proof.
  destruct (updateFee_idempotent (page [rifle] true [])) as [[H1 H2] H3];
    [vm_compute; reflexivity|reflexivity|].
  split; [vm_compute; reflexivity|]. split; [exact H1|].
  split; [rewrite H2; vm_compute; reflexivity|].
  apply (H3 (page [rifle; fee_line 35] false [Served; Failed]) (fee_line 35));
    [reflexivity|vm_compute; discriminate|vm_compute; reflexivity].
Defined.

(** ** No second fee line *)

Lemma getCart_keeps_one_fee_line : preserves keeps_one_fee_line getCart.
Proof. apply no_more_keeps_one, getCart_no_more_fee_lines. Qed.
Lemma checkEmptyCart_keeps_one_fee_line : preserves keeps_one_fee_line checkEmptyCart.
Proof. apply no_more_keeps_one, checkEmptyCart_no_more_fee_lines. Qed.
Lemma refreshCartUI_keeps_one_fee_line : preserves keeps_one_fee_line refreshCartUI.
Proof. apply no_more_keeps_one, refreshCartUI_no_more_fee_lines. Qed.
#[local] Hint Resolve getCart_keeps_one_fee_line checkEmptyCart_keeps_one_fee_line
  refreshCartUI_keeps_one_fee_line : pres.

(** [updateFee] adds a fee line only to a cart in which it found none. *)
Lemma updateFee_keeps_one_fee_line : preserves keeps_one_fee_line updateFee.
Proof.
  intros w H1. destruct (served (network w)) eqn:Hs.
  2: { rewrite (updateFee_failed w Hs). exact H1. }
  rewrite (updateFee_world w Hs). cbv zeta.
  set (w1 := sent GET_cart w).
  destruct (_ =? 0)%Z.
  { pose proof (removeFee_no_more_fee_lines w1) as H. unfold no_more_fee_lines in H.
    change (store w1) with (store w) in H. lia. }
  destruct (findFeeLineItem {| items := store w |}) as [fee|] eqn:Ef.
  - destruct (_ =? _)%Z; [exact H1|].
    pose proof (setFeeQuantity_no_more_fee_lines (key fee)
                  (calculateFee (subtotal_of (store w))) w1) as H.
    unfold no_more_fee_lines in H. change (store w1) with (store w) in H. lia.
  - set (d := calculateFee (subtotal_of (store w))).
    set (r := POST_add PAYPAL_FEE_VARIANT_ID d).
    assert (H2 : (fee_lines (store (exec (fetch r) w1)) <= 1)%nat).
    { assert (Ef0 : fee_lines (store w) = 0%nat) by (apply find_fee_none; exact Ef).
      destruct (fetch_store_cases r w1) as [E|E].
      - rewrite E. exact H1.
      - cbn in E. destruct (0 <? d)%Z; [|discriminate]. injection E as E. rewrite <- E.
        change (store w1) with (store w). rewrite fee_lines_app, Ef0. cbn. lia. }
    pose proof (addFee_world d w1) as Hfin.
    change (POST_add PAYPAL_FEE_VARIANT_ID (Num.Math_round d)) with r in Hfin.
    cbv zeta in Hfin. destruct Hfin as [[(Es & _) _] | ->].
    + rewrite Es. exact H2.
    + pose proof (refreshCartUI_no_more_fee_lines (exec (fetch r) w1)) as H.
      unfold no_more_fee_lines in H. lia.
Qed.
#[local] Hint Resolve updateFee_keeps_one_fee_line : pres.

Lemma recalcTask_keeps_one_fee_line : preserves keeps_one_fee_line recalcTask.
Proof. unfold recalcTask. pres. Qed.
Lemma onCartUpdated_keeps_one_fee_line : preserves keeps_one_fee_line onCartUpdated.
Proof. unfold onCartUpdated. pres. Qed.
Lemma alignFee_keeps_one_fee_line : preserves keeps_one_fee_line alignFee.
Proof. unfold alignFee. pres. Qed.

(** [updateFee] sends no add when the cart it reads has a fee line. *)
Lemma updateFee_sends_no_add w fee :
  findFeeLineItem {| items := store w |} = Some fee -> sends_no_add w (exec updateFee w).
Proof.
  intros Ef. destruct (served (network w)) eqn:Hs.
  2: { rewrite (updateFee_failed w Hs). exists [GET_cart]. auto. }
  rewrite (updateFee_world w Hs). cbv zeta. rewrite Ef.
  assert (H1 : sends_no_add w (sent GET_cart w)) by (exists [GET_cart]; auto).
  destruct (_ =? 0)%Z; [|destruct (_ =? _)%Z]; try exact H1.
  - etransitivity; [exact H1|apply removeFee_sends_no_add].
  - etransitivity; [exact H1|apply setFeeQuantity_sends_no_add].
Qed.

(** [updateFee] is its read followed by [updateFee_from]. *)
Lemma updateFee_reads_then_decides : updateFee = (cart <- getCart ;; updateFee_from cart).
Proof. reflexivity. Qed.

(** C5, as stated, fails: the cart holds a rifle and no fee line, the
    user wants the fee, every request is served, and two passes of
    [updateFee] are in flight together.  Both read the cart before
    either changes it, both find no fee line, and both add one: the
    cart ends with two fee lines. *)
Lemma overlapping_passes_add_twice :
  fee_lines (store (page [rifle] true [])) = 0%nat
  /\ requests (exec updateFee_overlapping (page [rifle] true []))
     = [GET_cart; GET_cart;
        POST_add PAYPAL_FEE_VARIANT_ID 35; GET_section; GET_cart;
        POST_add PAYPAL_FEE_VARIANT_ID 35; GET_section; GET_cart]
  /\ store (exec updateFee_overlapping (page [rifle] true []))
     = [rifle; fee_line 35; fee_line 35]
  /\ fee_lines (store (exec updateFee_overlapping (page [rifle] true []))) = 2%nat
  /\ ~ (fee_lines (store (exec updateFee_overlapping (page [rifle] true []))) <= 1)%nat.
Proof. vm_compute. repeat split. lia. Qed.

(** C5, amended.  When the cart that [updateFee] reads has a fee line
    whose quantity is not calculateFee(subtotal), and keys identify
    lines, the one request with which [updateFee] changes the cart sets
    the quantity of that line to calculateFee(subtotal): by its key or,
    when the subtotal is 0 and the amount therefore 0, by its position.
    Whenever the cart has a fee line, none of the requests [updateFee]
    sends is an add, whatever the network does.  So a pass that runs
    alone, with no other pass between its read and its request, leaves
    at most one fee line in a cart that had at most one; and so do the
    debounced task, the 'cart:updated' listener and the task at the end
    of [init], each run alone. *)
Theorem existing_fee_line_is_updated w fee :
  findFeeLineItem {| items := store w |} = Some fee ->
  quantity fee <> calculateFee (subtotal_of (store w)) ->
  NoDup (key <$> store w) ->
  served (network w) = true ->
  (subtotal_of (store w) = 0%Z -> served (tl (network w)) = true) ->
  mutations (exec updateFee w)
  = mutations w ++
      [if (subtotal_of (store w) =? 0)%Z
       then POST_change_line (indexOf (store w) fee + 1) (calculateFee (subtotal_of (store w)))
       else POST_change_id (key fee) (calculateFee (subtotal_of (store w)))]
  /\ (forall w' fee', findFeeLineItem {| items := store w' |} = Some fee' ->
        sends_no_add w' (exec updateFee w'))
  /\ (forall w', (fee_lines (store w') <= 1)%nat ->
        (fee_lines (store (exec updateFee w')) <= 1)%nat
        /\ (fee_lines (store (exec recalcTask w')) <= 1)%nat
        /\ (fee_lines (store (exec onCartUpdated w')) <= 1)%nat
        /\ (fee_lines (store (exec alignFee w')) <= 1)%nat).
Proof.
  intros Ef Eq Hnd Hs Hz. split; [|split].
  - destruct (updateFee_run w Hs Hz Hnd) as [Hm _]. rewrite Hm.
    unfold reconcile. fold (subtotal_of (store w)). rewrite Ef.
    destruct (Z.eqb_spec (subtotal_of (store w)) 0) as [E0|E0].
    + rewrite E0. reflexivity.
    + apply Z.eqb_neq in Eq. rewrite Eq. reflexivity.
  - intros w' fee'. apply updateFee_sends_no_add.
  - intros w' H1. repeat split.
    + apply updateFee_keeps_one_fee_line, H1.
    + apply recalcTask_keeps_one_fee_line, H1.
    + apply onCartUpdated_keeps_one_fee_line, H1.
    + apply alignFee_keeps_one_fee_line, H1.
Qed.

Lemma existing_fee_line_is_updated_witness :
  mutations (exec updateFee (page [with_quantity 3 rifle; fee_line 35] true []))
  = [POST_change_id FEE_LINE_KEY 106]
  /\ sends_no_add (page [rifle; fee_line 35] true [Served; Failed])
       (exec updateFee (page [rifle; fee_line 35] true [Served; Failed]))
  /\ (fee_lines (store (exec onCartUpdated (page [rifle] true []))) <= 1)%nat.
Proof.
  destruct (existing_fee_line_is_updated
              (page [with_quantity 3 rifle; fee_line 35] true []) (fee_line 35))
    as (H & Hadd & Hone).
  - reflexivity.
  - vm_compute. discriminate.
  - apply (bool_decide_unpack _). vm_compute. exact I.
  - reflexivity.
  - intros _. reflexivity.
  - split; [exact H|]. split.
    + apply (Hadd _ (fee_line 35)). reflexivity.
    + apply (Hone (page [rifle] true [])). vm_compute. lia.
Defined.

(** The handler of the main and drawer checkboxes is not such a pass:
    when the box is checked it reads the cart and adds the fee without
    looking for a fee line, where [updateFee] on the same cart sets the
    quantity of the line that is there. *)
Lemma checkbox_handler_adds_second_fee_line :
  mutations (exec (react (CheckboxToggled ID_MAIN))
               (page [with_quantity 3 rifle; fee_line 35] false []))
  = [POST_add PAYPAL_FEE_VARIANT_ID 106]
  /\ store (exec (react (CheckboxToggled ID_MAIN))
              (page [with_quantity 3 rifle; fee_line 35] false []))
     = [with_quantity 3 rifle; fee_line 35; fee_line 106]
  /\ mutations (exec updateFee (page [with_quantity 3 rifle; fee_line 35] true []))
     = [POST_change_id FEE_LINE_KEY 106].
Proof. vm_compute. repeat split. Qed.

(** ** Failed reads and failed changes *)

Lemma exec_try_catch_thrown {A} (m h : M A) w w1 :
  m w = (None, w1) -> exec (try_catch m h) w = exec h w1.
Proof. intros E. unfold exec, try_catch. rewrite E. reflexivity. Qed.

Lemma exec_try_catch_returned {A} (m h : M A) w a w1 :
  m w = (Some a, w1) -> exec (try_catch m h) w = w1.
Proof. intros E. unfold exec, try_catch. rewrite E. reflexivity. Qed.


Lemma exec_getChecked {B} id (k : bool -> M B) w :
  exec (bind (getChecked id) k) w = exec (k (box_checked id w)) w.
Proof. reflexivity. Qed.

(** A read that fails stops [updateFee], [removeFee], [checkEmptyCart],
    the debounced task and the task at the end of [init]: the world
    they leave differs from the one they found by the logged read
    only. *)
Lemma failed_read_stops_callers w n :
  network w = Failed :: n ->
  getCart w = (Some None, sent GET_cart w)
  /\ exec updateFee w = sent GET_cart w
  /\ exec removeFee w = sent GET_cart w
  /\ exec checkEmptyCart w = sent GET_cart w
  /\ exec recalcTask w = sent GET_cart w
  /\ exec alignFee w = sent GET_cart w.
Proof.
  intros Hn. assert (Hs : served (network w) = false) by (rewrite Hn; reflexivity).
  assert (Hg : getCart w = (Some None, sent GET_cart w)) by (rewrite getCart_eq, Hs; reflexivity).
  split; [exact Hg|].
  split; [apply updateFee_failed, Hs|].
  split; [apply removeFee_failed, Hs|].
  split; [unfold exec, checkEmptyCart, bind; rewrite Hg; reflexivity|].
  split; [unfold exec, recalcTask, bind; rewrite Hg; reflexivity|].
  unfold exec, alignFee, bind; rewrite Hg; reflexivity.
Qed.

(** C6 (the code departs from the claim).  The preference is wants-fee,
    the cart holds a rifle and the fee line, and the user unchecks the
    main box while the request for the cart fails.  The handler has
    removed SESSION_KEY_ADDED before the read; [removeFee] reads, gets
    [null] and gives [false]; the handler does not look at that result,
    so that its [catch] block, which would put the box and the
    preference back, is not reached: the page is reloaded with the
    preference cleared and the fee line still in the cart, and no error
    is shown.  On the other path the failed read is undone: the user
    checks the box while the read fails, the [null] cart ends in the
    [catch] block, and the box and the preference are as before, with
    an alert.  [updateFee], [removeFee], [checkEmptyCart], the debounced
    task and the task at the end of [init] stop at the failed read. *)
Theorem failed_read_after_uncheck_clears_preference :
  wants_fee (page [rifle; fee_line 35] true [Failed]) = true
  /\ wants_fee (exec (react (CheckboxToggled ID_MAIN)) (page [rifle; fee_line 35] true [Failed]))
     = false
  /\ store (exec (react (CheckboxToggled ID_MAIN)) (page [rifle; fee_line 35] true [Failed]))
     = [rifle; fee_line 35]
  /\ requests (exec (react (CheckboxToggled ID_MAIN)) (page [rifle; fee_line 35] true [Failed]))
     = [GET_cart]
  /\ checkboxes (exec (react (CheckboxToggled ID_MAIN)) (page [rifle; fee_line 35] true [Failed]))
       !! ID_MAIN = Some {| checked := false; disabled := true |}
  /\ alerts (exec (react (CheckboxToggled ID_MAIN)) (page [rifle; fee_line 35] true [Failed]))
     = []
  /\ reloads (exec (react (CheckboxToggled ID_MAIN)) (page [rifle; fee_line 35] true [Failed]))
     = 1%nat
  /\ wants_fee (exec (react (CheckboxToggled ID_MAIN)) (page [rifle] false [Failed])) = false
  /\ checkboxes (exec (react (CheckboxToggled ID_MAIN)) (page [rifle] false [Failed])) !! ID_MAIN
     = Some {| checked := false; disabled := false |}
  /\ alerts (exec (react (CheckboxToggled ID_MAIN)) (page [rifle] false [Failed]))
     = [MSG_CHECKBOX_ERROR]
  /\ reloads (exec (react (CheckboxToggled ID_MAIN)) (page [rifle] false [Failed])) = 0%nat
  /\ exec updateFee (page [rifle; fee_line 35] true [Failed])
     = sent GET_cart (page [rifle; fee_line 35] true [Failed])
  /\ exec removeFee (page [rifle; fee_line 35] true [Failed])
     = sent GET_cart (page [rifle; fee_line 35] true [Failed])
  /\ exec checkEmptyCart (page [fee_line 35] true [Failed])
     = sent GET_cart (page [fee_line 35] true [Failed])
  /\ exec recalcTask (page [rifle; fee_line 35] true [Failed])
     = sent GET_cart (page [rifle; fee_line 35] true [Failed])
  /\ exec alignFee (page [rifle; fee_line 35] true [Failed])
     = sent GET_cart (page [rifle; fee_line 35] true [Failed]).
Proof. vm_compute. repeat split. Qed.

(** C8 (the code departs from the claim).  The user checks the main
    checkbox; the cart is read, and the store refuses the add (or the
    request fails).  [addFee] catches the error and gives [false],
    [handleCheckboxChange] does not look at that result and never reaches
    its [catch] block: the page is reloaded with the box still checked
    (and disabled) and SESSION_KEY_ADDED still 'true', no fee line is in
    the cart, and no error is shown.  In the same way, a refused removal
    after unchecking leaves the box unchecked and the preference unset
    with the fee line still in the cart. *)
Theorem failed_change_is_not_reverted :
  checkboxes (exec (react (CheckboxToggled ID_MAIN)) (page [rifle] false [Served; Refused ""]))
    !! ID_MAIN = Some {| checked := true; disabled := true |}
  /\ wants_fee (exec (react (CheckboxToggled ID_MAIN)) (page [rifle] false [Served; Refused ""]))
     = true
  /\ store (exec (react (CheckboxToggled ID_MAIN)) (page [rifle] false [Served; Refused ""]))
     = [rifle]
  /\ alerts (exec (react (CheckboxToggled ID_MAIN)) (page [rifle] false [Served; Refused ""]))
     = []
  /\ reloads (exec (react (CheckboxToggled ID_MAIN)) (page [rifle] false [Served; Refused ""]))
     = 1
  /\ checkboxes (exec (react (CheckboxToggled ID_MAIN)) (page [rifle] false [Served; Failed]))
       !! ID_MAIN = Some {| checked := true; disabled := true |}
  /\ wants_fee (exec (react (CheckboxToggled ID_MAIN)) (page [rifle] false [Served; Failed]))
     = true
  /\ alerts (exec (react (CheckboxToggled ID_MAIN)) (page [rifle] false [Served; Failed])) = []
  /\ checkboxes (exec (react (CheckboxToggled ID_MAIN))
                   (page [rifle; fee_line 35] true [Served; Refused ""]))
       !! ID_MAIN = Some {| checked := false; disabled := true |}
  /\ wants_fee (exec (react (CheckboxToggled ID_MAIN))
                  (page [rifle; fee_line 35] true [Served; Refused ""])) = false
  /\ store (exec (react (CheckboxToggled ID_MAIN))
              (page [rifle; fee_line 35] true [Served; Refused ""])) = [rifle; fee_line 35].
Proof. vm_compute. repeat split. Qed.


(** ** The debounced triggers *)

Module DebounceFacts.
Import Debounce.

Lemma clearTimeout_settled s :
  settled s = true -> timers (clearTimeout (_recalcTimer s) s) = [].
Proof.
  unfold settled, clearTimeout.
  destruct (timers s) as [|[id due] [|t l]] eqn:Et; destruct (_recalcTimer s) as [i|];
    cbn; rewrite ?Et; try discriminate; try reflexivity.
  intros Hi. cbn. apply Nat.eqb_eq in Hi. subst i. rewrite Nat.eqb_refl. reflexivity.
Qed.

Lemma scheduleRecalc_armed s :
  settled s = true -> scheduleRecalc s = armed (nextTimer s) s.
Proof.
  intros Hs. unfold scheduleRecalc, setTimeout, armed.
  pose proof (clearTimeout_settled s Hs) as Hc.
  destruct (_recalcTimer s) as [i|]; cbn in *; rewrite Hc; reflexivity.
Qed.

Lemma armed_settled id s : settled (armed id s) = true.
Proof. unfold settled, armed. cbn. apply Nat.eqb_refl. Qed.

Lemma iter_scheduleRecalc k s :
  settled s = true ->
  Nat.iter (S k) scheduleRecalc s = armed (nextTimer s + k) s.
Proof.
  intros Hs. induction k as [|k IH].
  - change (Nat.iter 1 scheduleRecalc s) with (scheduleRecalc s).
    rewrite scheduleRecalc_armed by exact Hs. rewrite Nat.add_0_r. reflexivity.
  - change (Nat.iter (S (S k)) scheduleRecalc s)
      with (scheduleRecalc (Nat.iter (S k) scheduleRecalc s)).
    rewrite IH, scheduleRecalc_armed by apply armed_settled.
    unfold armed. cbn. rewrite Nat.add_succ_r. reflexivity.
Qed.

(** A quantity event leaves exactly one timeout pending, due a
    quiescence window later: each listener has cancelled the timeout of
    the one before. *)
Lemma quantityEvent_armed s :
  settled s = true -> (0 < recalcListeners (world s))%nat ->
  quantityEvent s = armed (nextTimer s + Nat.pred (recalcListeners (world s))) s.
Proof.
  intros Hs Hk. unfold quantityEvent.
  destruct (recalcListeners (world s)) as [|k]; [lia|].
  apply iter_scheduleRecalc, Hs.
Qed.

Lemma elapse_before id due s dt :
  timers s = [(id, due)] -> (now s + dt < due)%nat ->
  elapse dt s =
    {| world := world s; now := now s + dt; _recalcTimer := _recalcTimer s;
       timers := timers s; nextTimer := nextTimer s; fired := fired s |}.
Proof.
  intros Et Hlt. unfold elapse. rewrite Et. cbn.
  replace (due <=? now s + dt)%nat with false by (symmetry; apply Nat.leb_gt; lia).
  cbn. rewrite Et. reflexivity.
Qed.

Lemma elapse_after id due s dt :
  timers s = [(id, due)] -> (due <= now s + dt)%nat ->
  elapse dt s =
    {| world := exec recalcTask (world s); now := now s + dt; _recalcTimer := _recalcTimer s;
       timers := []; nextTimer := nextTimer s; fired := fired s ++ [due] |}.
Proof.
  intros Et Hle. unfold elapse. rewrite Et. cbn.
  replace (due <=? now s + dt)%nat with true by (symmetry; apply Nat.leb_le; lia).
  cbn. rewrite Et. cbn. rewrite Nat.eqb_refl. reflexivity.
Qed.

Lemma set_store_same w : set_store (store w) w = w.
Proof. destruct w. reflexivity. Qed.

(** The further quantity changes of a burst: each arrives before the
    pending timeout is due and replaces it. *)
Lemma burst_tail more : forall s id,
  (0 < recalcListeners (world s))%nat ->
  Forall (fun p => (fst p < QUIESCENCE)%nat) more ->
  let sts := flat_map (fun '(gap, edit) => [Wait gap; Quantity edit]) more in
  exists id',
    steps sts (armed id s)
    = armed id'
        {| world := set_store (fold_left (fun c '(_, edit) => edit c) more (store (world s)))
                      (world s);
           now := now s + gaps more; _recalcTimer := _recalcTimer s; timers := timers s;
           nextTimer := nextTimer s; fired := fired s |}
    /\ Forall (fun s' => (length (timers s') <= 1)%nat) (trace sts (armed id s)).
Proof.
  induction more as [|[gap edit] more IH]; intros s id Hk Hg; cbn zeta.
  - exists id. cbn. unfold armed. cbn. rewrite set_store_same, Nat.add_0_r. auto.
  - apply Forall_cons in Hg as [Hgap Hg]. cbn in Hgap.
    cbn [flat_map app steps fold_left trace step].
    rewrite (elapse_before id (now s + QUIESCENCE) (armed id s) gap) by (cbn; first [reflexivity|lia]).
    cbn [world now _recalcTimer timers nextTimer fired armed].
    rewrite quantityEvent_armed by (cbn; first [apply Nat.eqb_refl|exact Hk]).
    cbn [world now _recalcTimer timers nextTimer fired recalcListeners set_store].
    set (s1 := {| world := set_store (edit (store (world s))) (world s); now := now s + gap;
                  _recalcTimer := _recalcTimer s; timers := timers s;
                  nextTimer := nextTimer s; fired := fired s |}).
    set (id1 := (S id + Nat.pred (recalcListeners (world s)))%nat).
    destruct (IH s1 id1) as (id' & Hst & Htr); [exact Hk|exact Hg|].
    exists id'. split.
    + etransitivity; [exact Hst|]. unfold armed, s1. cbn. rewrite Nat.add_assoc. reflexivity.
    + constructor; [cbn; lia|]. constructor; [cbn; lia|]. exact Htr.
Qed.

End DebounceFacts.



(** ** The preference keys *)

Lemma react_only_sets_added e : preserves only_sets_added (react e).
Proof. unfold react. destruct e; pres. Qed.

Lemma run_only_sets_added es : forall w, only_sets_added w (run es w).
Proof.
  unfold run. induction es as [|e es IH]; intros w; cbn [fold_left].
  - reflexivity.
  - etransitivity; [apply (react_only_sets_added e w)|apply IH].
Qed.

Lemma page_declined_unset cart wantsFee net :
  sessionStorage (page cart wantsFee net) !! SESSION_KEY_DECLINED = None.
Proof. destruct wantsFee; reflexivity. Qed.

(** C10.  Whatever events the page reacts to, in whatever order, every
    entry of sessionStorage is afterwards as it was before or deleted,
    except that SESSION_KEY_ADDED may have been set to 'true': no other
    key is ever written.  In particular SESSION_KEY_DECLINED is as before
    or deleted, and on a page that starts without it, it stays unset: the
    declined state is never reached.  The same holds of
    [syncCheckboxState], which no event runs. *)
Theorem only_added_key_is_ever_set es w :
  only_sets_added w (run es w)
  /\ (sessionStorage (run es w) !! SESSION_KEY_DECLINED = sessionStorage w !! SESSION_KEY_DECLINED
      \/ sessionStorage (run es w) !! SESSION_KEY_DECLINED = None)
  /\ (forall cart wantsFee net,
        sessionStorage (run es (page cart wantsFee net)) !! SESSION_KEY_DECLINED = None)
  /\ (forall checkbox, only_sets_added w (exec (syncCheckboxState checkbox) w)).
Proof.
  assert (Hd : forall w', sessionStorage (run es w') !! SESSION_KEY_DECLINED
                          = sessionStorage w' !! SESSION_KEY_DECLINED
                          \/ sessionStorage (run es w') !! SESSION_KEY_DECLINED = None).
  { intros w'. destruct (run_only_sets_added es w' SESSION_KEY_DECLINED) as [H|[H|[H _]]]; auto.
    discriminate H. }
  split; [apply run_only_sets_added|]. split; [apply Hd|]. split.
  - intros cart wantsFee net. destruct (Hd (page cart wantsFee net)) as [H|H]; [|exact H].
    rewrite H. apply page_declined_unset.
  - intros checkbox. apply syncCheckboxState_only_sets_added.
Qed.


(** ** The removal confirmation *)

#[local] Instance same_page_preorder : PreOrder same_page.
Proof.
  split.
  - intros w. repeat split.
  - intros w1 w2 w3 (A1 & B1 & C1 & D1) (A2 & B2 & C2 & D2). repeat split; congruence.
Qed.

#[local] Instance keeps_unchecked_preorder id : PreOrder (keeps_unchecked id).
Proof. split; unfold keeps_unchecked; [intros w|intros w1 w2 w3 ? ?]; auto. Qed.

Lemma same_boxes_keeps_unchecked id w w' :
  checkboxes w' = checkboxes w -> keeps_unchecked id w w'.
Proof. unfold keeps_unchecked, box_checked. intros ->. auto. Qed.

Lemma fetch_same_dom r w :
  checkboxes (exec (fetch r) w) = checkboxes w /\ same_page w (exec (fetch r) w).
Proof.
  unfold exec, fetch.
  destruct (hd Served (network w)); cbn;
    try (destruct (serve r (store w)); cbn); repeat split.
Qed.

Lemma fetch_same_page r : preserves same_page (fetch r).
Proof. intros w. apply fetch_same_dom. Qed.

Lemma fetch_keeps_unchecked id r : preserves (keeps_unchecked id) (fetch r).
Proof. intros w. apply same_boxes_keeps_unchecked, fetch_same_dom. Qed.

Lemma box_checked_setChecked id id' v w :
  box_checked id (exec (setChecked id' v) w)
  = if decide (id' = id)
    then match checkboxes w !! id with Some _ => v | None => false end
    else box_checked id w.
Proof.
  unfold box_checked, exec, setChecked, modify. cbn.
  rewrite lookup_alter. destruct (decide (id' = id)) as [->|Hne]; [|reflexivity].
  destruct (checkboxes w !! id); reflexivity.
Qed.

Lemma setChecked_false_keeps_unchecked id id' :
  preserves (keeps_unchecked id) (setChecked id' false).
Proof.
  intros w H. rewrite box_checked_setChecked.
  destruct (decide (id' = id)); [destruct (checkboxes w !! id); reflexivity|exact H].
Qed.

#[local] Hint Resolve fetch_same_page fetch_keeps_unchecked setChecked_false_keeps_unchecked : pres.

Ltac modify_step ::=
  lazymatch goal with
  | |- preserves _ (modify _) =>
      let w := fresh "w" in
      intros w; unfold exec, modify; cbn [snd];
      first [apply same_session_only_deletes | apply same_session_only_sets_added
            | apply same_traffic_sends_no_add | apply same_traffic_no_more_fee_lines
            | apply same_traffic_keeps_one_fee_line | apply same_traffic_quiet_if_nonempty
            | apply same_traffic_quiet_if_no_fee | apply same_traffic_stays_healthy
            | apply same_boxes_keeps_unchecked | idtac];
      repeat split; reflexivity
  end.

Lemma getCart_same_page : preserves same_page getCart.
Proof. unfold getCart. pres. Qed.
Lemma getCart_keeps_unchecked id : preserves (keeps_unchecked id) getCart.
Proof. unfold getCart. pres. Qed.
#[local] Hint Resolve getCart_same_page getCart_keeps_unchecked : pres.
Lemma removeFee_same_page : preserves same_page removeFee.
Proof. unfold removeFee. pres. Qed.
Lemma removeFee_keeps_unchecked id : preserves (keeps_unchecked id) removeFee.
Proof. unfold removeFee. pres. Qed.
#[local] Hint Resolve removeFee_same_page removeFee_keeps_unchecked : pres.
Lemma checkEmptyCart_same_page : preserves same_page checkEmptyCart.
Proof. unfold checkEmptyCart. pres. Qed.
Lemma checkEmptyCart_keeps_unchecked id : preserves (keeps_unchecked id) checkEmptyCart.
Proof. unfold checkEmptyCart. pres. Qed.
#[local] Hint Resolve checkEmptyCart_same_page checkEmptyCart_keeps_unchecked : pres.
Lemma CheckboxHandler_init_same_page : preserves same_page CheckboxHandler_init.
Proof. unfold CheckboxHandler_init. pres. Qed.
#[local] Hint Resolve CheckboxHandler_init_same_page : pres.
Lemma refreshCartUI_same_page : preserves same_page refreshCartUI.
Proof. unfold refreshCartUI. pres. Qed.
#[local] Hint Resolve refreshCartUI_same_page : pres.

Lemma closeConfirmModal_eq w :
  modalElement w = true -> exec closeConfirmModal w = set_modal true false false w.
Proof. intros H. unfold exec, closeConfirmModal, bind, get. cbn. rewrite H. reflexivity. Qed.

Lemma syncCheckbox_returns id : returns (syncCheckbox id).
Proof. unfold syncCheckbox. rets. Qed.
#[local] Hint Resolve syncCheckbox_returns : rets.

(** With the preference unset, synchronising a box unchecks it, and
    leaves the other boxes alone. *)
Lemma syncCheckbox_unchecks id' w :
  wants_fee w = false ->
  wants_fee (exec (syncCheckbox id') w) = false
  /\ box_checked id' (exec (syncCheckbox id') w) = false
  /\ (forall id, keeps_unchecked id w (exec (syncCheckbox id') w)).
Proof.
  intros Hw.
  assert (E : exec (syncCheckbox id') w = exec (setChecked id' false) w).
  { unfold exec, syncCheckbox, bind. rewrite userWantsFee_eq, Hw. reflexivity. }
  rewrite E. split; [exact Hw|]. split.
  - rewrite box_checked_setChecked. destruct (decide (id' = id')); [|contradiction].
    destruct (checkboxes w !! id'); reflexivity.
  - intros id. apply setChecked_false_keeps_unchecked.
Qed.

(** With the preference unset, CheckboxHandler.init leaves the three fee
    boxes unchecked. *)
Lemma CheckboxHandler_init_unchecks w :
  wants_fee w = false ->
  box_checked ID_MAIN (exec CheckboxHandler_init w) = false
  /\ box_checked ID_DRAWER (exec CheckboxHandler_init w) = false
  /\ box_checked ID_PRODUCT (exec CheckboxHandler_init w) = false.
Proof.
  intros Hw. unfold CheckboxHandler_init.
  rewrite (exec_seq (syncCheckbox ID_MAIN)) by apply syncCheckbox_returns.
  destruct (syncCheckbox_unchecks ID_MAIN w Hw) as (Hw1 & Hm1 & _).
  set (w1 := exec (syncCheckbox ID_MAIN) w) in *.
  rewrite (exec_seq (syncCheckbox ID_DRAWER)) by apply syncCheckbox_returns.
  destruct (syncCheckbox_unchecks ID_DRAWER w1 Hw1) as (Hw2 & Hd2 & Hk2).
  set (w2 := exec (syncCheckbox ID_DRAWER) w1) in *.
  rewrite (exec_seq (syncCheckbox ID_PRODUCT)) by apply syncCheckbox_returns.
  destruct (syncCheckbox_unchecks ID_PRODUCT w2 Hw2) as (Hw3 & Hp3 & Hk3).
  set (w3 := exec (syncCheckbox ID_PRODUCT) w2) in *.
  rewrite (exec_seq (modify _)) by apply returns_modify.
  set (w4 := exec (modify _) w3).
  assert (Hb : forall id, box_checked id w4 = box_checked id w3) by reflexivity.
  repeat split; apply checkEmptyCart_keeps_unchecked; rewrite Hb.
  - apply Hk3, Hk2, Hm1.
  - apply Hk3, Hd2.
  - exact Hp3.
Qed.

(** On a page with the cart section, when the request is served with
    the section, [refreshCartUI] re-attaches the listeners. *)
Lemma refreshCartUI_served w :
  cartSection w = true -> hd Served (network w) = Served ->
  exec refreshCartUI w = exec CheckboxHandler_init (sent GET_section w).
Proof.
  intros Hc Hn. unfold exec, refreshCartUI, try_catch, bind, get. rewrite Hc. cbn [negb].
  unfold fetch. rewrite Hn. cbn [serve ok body negb].
  fold (sent GET_section w).
  pose proof (CheckboxHandler_init_returns (sent GET_section w)) as Hr. unfold result in Hr.
  destruct (CheckboxHandler_init (sent GET_section w)) as [[u|] w'];
    [reflexivity|exfalso; apply Hr; reflexivity].
Qed.

Lemma confirmRemoval_world w :
  exec confirmRemoval w
  = exec refreshCartUI
      (exec (removeItem SESSION_KEY_ADDED)
         (exec (setChecked ID_DRAWER false)
            (exec (setChecked "paypal-fee-checkbox" false)
               (exec removeFee (exec closeConfirmModal w))))).
Proof.
  unfold confirmRemoval.
  rewrite (exec_seq closeConfirmModal) by (unfold closeConfirmModal; rets).
  rewrite (exec_seq removeFee) by apply removeFee_returns.
  rewrite (exec_seq (setChecked _ _)) by apply returns_modify.
  rewrite (exec_seq (setChecked _ _)) by apply returns_modify.
  rewrite (exec_seq (removeItem _)) by apply returns_modify.
  apply exec_then_ret.
Qed.

(** C9.  On a page where the modal has been created: cancelling (the
    cancel button, a click on the overlay, or the Escape key) leaves the
    modal closed and the cart, the storage, the boxes and the log of
    requests untouched.  Confirming leaves the modal closed and
    SESSION_KEY_ADDED unset, whatever the network does.  When the network
    serves the requests and the cart has at most one fee line, confirming
    removes it (its removal is the only request that changes the cart);
    on a page with the cart section it then fetches the section again,
    and the main, drawer and product boxes end up unchecked. *)
Theorem removal_confirmation w :
  modalElement w = true ->
  (forall e, In e [ModalCancelClicked; ModalOverlayClicked; EscapePressed] ->
     modalActive (exec (react e) w) = false
     /\ store (exec (react e) w) = store w
     /\ sessionStorage (exec (react e) w) = sessionStorage w
     /\ checkboxes (exec (react e) w) = checkboxes w
     /\ requests (exec (react e) w) = requests w)
  /\ (modalActive (exec confirmRemoval w) = false
      /\ sessionStorage (exec confirmRemoval w) !! SESSION_KEY_ADDED = None
      /\ wants_fee (exec confirmRemoval w) = false)
  /\ (network w = [] -> (fee_lines (store w) <= 1)%nat ->
      store (exec confirmRemoval w) = drop_first_fee (store w)
      /\ fee_lines (store (exec confirmRemoval w)) = 0%nat
      /\ mutations (exec confirmRemoval w)
         = mutations w ++ match findFeeLineItem {| items := store w |} with
                          | Some fee => [POST_change_line (indexOf (store w) fee + 1) 0]
                          | None => []
                          end
      /\ (cartSection w = true ->
          In GET_section (requests (exec confirmRemoval w))
          /\ box_checked ID_MAIN (exec confirmRemoval w) = false
          /\ box_checked ID_DRAWER (exec confirmRemoval w) = false
          /\ box_checked ID_PRODUCT (exec confirmRemoval w) = false)).
Proof.
  intros Hm.
  pose proof (closeConfirmModal_eq w Hm) as Hclose.
  split; [|split].
  - intros e [<-|[<-|[<-|[]]]]; cbn [react].
    + rewrite Hclose. repeat split.
    + rewrite Hclose. repeat split.
    + assert (He : exec onEscape w = if modalActive w then exec closeConfirmModal w else w).
      { unfold exec, onEscape, bind, get. cbn. destruct (modalActive w); reflexivity. }
      rewrite He. destruct (modalActive w) eqn:Ha; [rewrite Hclose|rewrite Ha]; repeat split.
  - rewrite confirmRemoval_world, Hclose.
    set (w1 := set_modal true false false w).
    set (w2 := exec removeFee w1).
    set (w3 := exec (removeItem SESSION_KEY_ADDED)
                 (exec (setChecked ID_DRAWER false)
                    (exec (setChecked "paypal-fee-checkbox" false) w2))).
    assert (H3 : sessionStorage w3 !! SESSION_KEY_ADDED = None) by apply lookup_delete_eq.
    assert (Ha : modalActive w3 = false).
    { change (modalActive w3) with (modalActive w2).
      destruct (removeFee_same_page w1) as (_ & E & _). exact E. }
    assert (Hu : sessionStorage (exec refreshCartUI w3) !! SESSION_KEY_ADDED = None).
    { apply (only_deletes_unset w3); [apply refreshCartUI_only_deletes|exact H3]. }
    split; [|split; [exact Hu|apply unset_not_wanted, Hu]].
    destruct (refreshCartUI_same_page w3) as (_ & E & _). rewrite E. exact Ha.
  - intros Hn H1. rewrite confirmRemoval_world, Hclose.
    set (w1 := set_modal true false false w).
    set (w2 := exec removeFee w1).
    set (w3 := exec (removeItem SESSION_KEY_ADDED)
                 (exec (setChecked ID_DRAWER false)
                    (exec (setChecked "paypal-fee-checkbox" false) w2))).
    assert (Hn1 : network w1 = []) by exact Hn.
    destruct (removeFee_run w1) as [Hmut Hst]; [rewrite Hn1; reflexivity|].
    fold w2 in Hmut, Hst. change (store w1) with (store w) in Hmut, Hst.
    change (mutations w1) with (mutations w) in Hmut.
    specialize (Hst ltac:(rewrite Hn1; reflexivity)).
    assert (Hn2 : network w2 = []) by (apply (removeFee_stays_healthy w1), Hn1).
    assert (Hf3 : fee_lines (store w3) = 0%nat).
    { change (store w3) with (store w2). rewrite Hst, fee_lines_drop_first_fee. lia. }
    destruct (refreshCartUI_quiet_if_no_fee w3 Hf3) as [Es Em].
    change (store w3) with (store w2) in Es. change (mutations w3) with (mutations w2) in Em.
    split; [rewrite Es; exact Hst|]. split; [rewrite Es; exact Hf3|].
    split; [rewrite Em; exact Hmut|].
    intros Hc.
    assert (Hc3 : cartSection w3 = true).
    { change (cartSection w3) with (cartSection w2).
      destruct (removeFee_same_page w1) as (_ & _ & _ & E).
      transitivity (cartSection w1); [exact E|exact Hc]. }
    assert (Hn3 : hd Served (network w3) = Served).
    { change (network w3) with (network w2). rewrite Hn2. reflexivity. }
    rewrite (refreshCartUI_served w3 Hc3 Hn3).
    assert (Hw : wants_fee (sent GET_section w3) = false).
    { apply unset_not_wanted. apply lookup_delete_eq. }
    split; [|apply CheckboxHandler_init_unchecks, Hw].
    destruct (CheckboxHandler_init_sends_no_add (sent GET_section w3)) as (l & -> & _).
    apply in_or_app. left. cbn. apply in_or_app. right. left. reflexivity.
Qed.

Lemma removal_confirmation_witness :
  store (exec confirmRemoval (page [rifle; fee_line 35] true [])) = [rifle]
  /\ wants_fee (exec confirmRemoval (page [rifle; fee_line 35] true [])) = false
  /\ box_checked ID_MAIN (exec confirmRemoval (page [rifle; fee_line 35] true [])) = false
  /\ requests (exec (react EscapePressed) (page [rifle; fee_line 35] true [])) = [].
Proof.
  destruct (removal_confirmation (page [rifle; fee_line 35] true []))
    as (Hcancel & (_ & _ & Hpref) & Hconfirm); [reflexivity|].
  destruct Hconfirm as (Hstore & _ & _ & Hboxes); [reflexivity|vm_compute; lia|].
  destruct Hboxes as (_ & Hmain & _); [reflexivity|].
  split; [exact Hstore|]. split; [exact Hpref|]. split; [exact Hmain|].
  apply (Hcancel EscapePressed). cbn. auto.
Defined.

(** * Further properties of the code *)

(** ** Utils.calculateFee against the exact fee *)

Module FeeBounds.
Import Num NumFacts.
Local Open Scope Z_scope.

Lemma pos_iter_xO_value p k : Z.pos (Pos.iter xO p k) = Z.pos p * 2 ^ Z.pos k.
Proof.
  induction k using Pos.peano_ind.
  - cbn [Pos.iter]. change (2 ^ 1) with 2. lia.
  - rewrite Pos.iter_succ, Pos2Z.inj_xO, IHk, Pos2Z.inj_succ, Z.pow_succ_r by lia. lia.
Qed.

Lemma shr_fexp_shift m e pn :
  fexp prec emax (Z.pos (digits2_pos m) + e) - e = Z.pos pn ->
  shr_fexp prec emax (Z.pos m) e loc_Exact
  = (SpecFloat.iter_pos shr_1 pn (Build_shr_record (Z.pos m) false false), e + Z.pos pn).
Proof. intros H. unfold shr_fexp, shr. cbn [Zdigits2 shr_record_of_loc]. rewrite H. reflexivity. Qed.

Lemma shr_fexp_noshift m e :
  fexp prec emax (Z.pos (digits2_pos m) + e) - e = 0 ->
  shr_fexp prec emax (Z.pos m) e loc_Exact = (Build_shr_record (Z.pos m) false false, e).
Proof. intros H. unfold shr_fexp, shr. cbn [Zdigits2 shr_record_of_loc]. rewrite H. reflexivity. Qed.

(** A mantissa of 53 digits with an exponent in range is kept as it is. *)
Lemma binary_round_aux_canonical m e :
  Z.pos (digits2_pos m) = 53 -> -1074 <= e <= 971 ->
  binary_round_aux prec emax false (Z.pos m) e loc_Exact = S754_finite false m e.
Proof.
  intros Hd He.
  assert (H0 : fexp prec emax (Z.pos (digits2_pos m) + e) - e = 0)
    by (rewrite Hd; unfold fexp, emin, prec, emax; lia).
  unfold binary_round_aux. rewrite (shr_fexp_noshift m e H0).
  cbn [shr_m loc_of_shr_record round_nearest_even].
  rewrite (shr_fexp_noshift m e H0). cbn [shr_m].
  replace (e <=? emax - prec) with true by (symmetry; apply Z.leb_le; unfold emax, prec; lia).
  reflexivity.
Qed.

(** The number that holds the integer [s]: 53 digits, and the value [s]. *)
Lemma number_of_Z_exact s :
  0 < s < 2 ^ 53 ->
  exists m e, number_of_Z s = S754_finite false m e
    /\ Z.pos (digits2_pos m) = 53 /\ -52 <= e <= 0 /\ Z.pos m = s * 2 ^ (- e).
Proof.
  intros [Hs Hb]. destruct s as [|p|p]; try lia.
  unfold number_of_Z, binary_normalize, binary_round.
  pose proof (digits_bounds p) as [Dl Du].
  set (d := Z.pos (digits2_pos p)) in *.
  assert (Hd : 1 <= d <= 53).
  { split; [unfold d; lia|].
    assert (d - 1 < 53); [|lia]. apply (Z.pow_lt_mono_r_iff 2); lia. }
  assert (Hf : fexp prec emax (d + 0) = d - 53) by (unfold fexp, emin, prec, emax; lia).
  rewrite Hf. unfold shl_align.
  destruct (d - 53 - 0) as [|k|k] eqn:Ek; try lia.
  - rewrite binary_round_aux_canonical by (fold d; lia).
    exists p, 0. split; [reflexivity|]. fold d. split; [lia|]. split; [lia|].
    change (2 ^ (- 0)) with 1. lia.
  - assert (Hdk : Z.pos (digits2_pos (Pos.iter xO p k)) = 53)
      by (rewrite digits_iter_xO; fold d; lia).
    rewrite binary_round_aux_canonical by (rewrite ?Hdk; lia).
    exists (Pos.iter xO p k), (d - 53). split; [reflexivity|]. split; [exact Hdk|].
    split; [lia|]. rewrite pos_iter_xO_value. f_equal. f_equal. lia.
Qed.

(** The product with the literal 0.035: the exact product of the
    mantissas is cut to 53 digits, rounded to [m2], and [Math.ceil] reads
    [m2] at the exponent of the cut. *)
Lemma mul_lit_ceil m e :
  Z.pos (digits2_pos m) = 53 -> -52 <= e <= 0 ->
  exists n m2,
    52 <= n <= 53
    /\ Z.pos m * 5044031582654956 / 2 ^ n <= m2 <= Z.pos m * 5044031582654956 / 2 ^ n + 1
    /\ Math_ceil (mul (S754_finite false m e) lit_0_035) = - ((- m2) / 2 ^ (57 - e - n)).
Proof.
  intros Hd He. unfold mul, lit_0_035, SFmul. cbn [xorb].
  set (M := 5044031582654956%positive).
  pose proof (digits_bounds m) as [Ml Mu]. rewrite Hd in Ml, Mu.
  assert (HM : 2 ^ 52 <= Z.pos M < 2 ^ 53) by (unfold M; split; vm_compute; congruence).
  pose proof (digits_bounds (m * M)) as [Pl Pu].
  set (dP := Z.pos (digits2_pos (m * M))) in *.
  assert (HP : 2 ^ 104 <= Z.pos (m * M) < 2 ^ 106).
  { rewrite Pos2Z.inj_mul. change (2 ^ 104) with (2 ^ 52 * 2 ^ 52).
    change (2 ^ 106) with (2 ^ 53 * 2 ^ 53). change (2 ^ 52 - 0) with (2 ^ 52) in *.
    change (53 - 1) with 52 in Ml. nia. }
  assert (HdP : 105 <= dP <= 106).
  { split.
    - assert (104 < dP); [|lia]. apply (Z.pow_lt_mono_r_iff 2); [lia|unfold dP; lia|lia].
    - assert (dP - 1 < 106); [|lia]. apply (Z.pow_lt_mono_r_iff 2); lia. }
  assert (Hn : fexp prec emax (dP + (e + -57)) - (e + -57) = dP - 53)
    by (unfold fexp, emin, prec, emax; lia).
  destruct (dP - 53) as [|pn|pn] eqn:En; try lia.
  unfold binary_round_aux. fold dP in Hn.
  rewrite (shr_fexp_shift (m * M) (e + -57) pn Hn).
  set (mrs := SpecFloat.iter_pos shr_1 pn _).
  assert (Hm1 : shr_m mrs = Z.pos (m * M) / 2 ^ Z.pos pn)
    by (unfold mrs; rewrite iter_shr_1_m by (cbn; lia); reflexivity).
  set (m1 := shr_m mrs) in *.
  assert (Hpow : 2 ^ dP = 2 ^ 53 * 2 ^ Z.pos pn).
  { rewrite <- Z.pow_add_r by lia. f_equal. lia. }
  assert (Hpow' : 2 ^ (dP - 1) = 2 ^ 52 * 2 ^ Z.pos pn).
  { rewrite <- Z.pow_add_r by lia. f_equal. lia. }
  assert (H2n : 0 < 2 ^ Z.pos pn) by (apply Z.pow_pos_nonneg; lia).
  assert (Hb1 : 2 ^ 52 <= m1 < 2 ^ 53).
  { rewrite Hm1. split.
    - apply Z.div_le_lower_bound; [lia|]. rewrite Z.mul_comm, <- Hpow'. exact Pl.
    - apply Z.div_lt_upper_bound; [lia|]. rewrite Z.mul_comm, <- Hpow. exact Pu. }
  set (m2 := round_nearest_even m1 (loc_of_shr_record mrs)).
  assert (Hm2 : m1 <= m2 <= m1 + 1).
  { unfold m2, round_nearest_even. destruct (loc_of_shr_record mrs) as [|[| |]];
      try destruct (Z.even m1); lia. }
  exists (Z.pos pn), m2. split; [lia|]. split; [rewrite <- Pos2Z.inj_mul, <- Hm1; exact Hm2|].
  set (e1 := e + -57 + Z.pos pn).
  assert (He1 : -57 <= e1 <= -4) by (unfold e1; lia).
  replace (57 - e - Z.pos pn) with (- e1) by (unfold e1; lia).
  destruct m2 as [|q2|q2] eqn:Eq2; try lia.
  destruct (Z.ltb_spec (Z.pos q2) (2 ^ 53)) as [Hlt|Hge].
  - assert (Hq : Z.pos (digits2_pos q2) = 53) by (apply digits_unique; change (53 - 1) with 52; lia).
    assert (H0 : fexp prec emax (Z.pos (digits2_pos q2) + e1) - e1 = 0)
      by (rewrite Hq; unfold fexp, emin, prec, emax; lia).
    rewrite (shr_fexp_noshift q2 e1 H0). cbn [shr_m].
    replace (e1 <=? emax - prec) with true by (symmetry; apply Z.leb_le; unfold emax, prec; lia).
    unfold Math_ceil. replace (0 <=? e1) with false by (symmetry; apply Z.leb_gt; lia).
    reflexivity.
  - assert (Hq2 : Z.pos q2 = 2 ^ 53) by lia.
    assert (Hq : Z.pos (digits2_pos q2) = 54)
      by (apply digits_unique; rewrite Hq2; change (54 - 1) with 53; split; [lia|vm_compute; reflexivity]).
    assert (H1 : fexp prec emax (Z.pos (digits2_pos q2) + e1) - e1 = Z.pos 1)
      by (rewrite Hq; unfold fexp, emin, prec, emax; lia).
    rewrite (shr_fexp_shift q2 e1 1 H1).
    assert (Hs : shr_m (SpecFloat.iter_pos shr_1 1 (Build_shr_record (Z.pos q2) false false)) = 2 ^ 52).
    { rewrite iter_shr_1_m by (cbn; lia). cbn [shr_m]. rewrite Hq2. reflexivity. }
    rewrite Hs. change (2 ^ 52) with (Z.pos 4503599627370496).
    cbv beta iota.
    replace (e1 + 1 <=? emax - prec) with true by (symmetry; apply Z.leb_le; unfold emax, prec; lia).
    unfold Math_ceil. replace (0 <=? e1 + 1) with false by (symmetry; apply Z.leb_gt; lia).
    rewrite Hq2. f_equal.
    replace (- e1) with (Z.succ (- (e1 + 1))) by lia.
    rewrite Z.pow_succ_r by lia.
    change (- 2 ^ 53) with (2 * (- Z.pos 4503599627370496)).
    rewrite Z.div_mul_cancel_l; [reflexivity| |lia].
    apply Z.pow_nonzero; lia.
Qed.

End FeeBounds.

Section FeeWithinOneCent.
Local Open Scope Z_scope.

(** X1.  The fee the code computes is the exact 3.5%, rounded up to a whole
    cent, or one cent more: for every subtotal from 0 to below 2^49
    cents, [calculateFee] never returns less than the exact fee and
    never more than one cent above it. *)
Theorem calculateFee_within_one_cent s :
  0 <= s < 2 ^ 49 -> exact_fee s <= calculateFee s <= exact_fee s + 1.
Proof.
  intros [Hs0 Hs]. destruct (Z.eq_dec s 0) as [->|Hne]; [vm_compute; split; congruence|].
  assert (Hs53 : 0 < s < 2 ^ 53) by (split; [lia|]; eapply Z.lt_trans; [exact Hs|reflexivity]).
  unfold calculateFee, FEE_PERCENTAGE.
  destruct (FeeBounds.number_of_Z_exact s Hs53) as (m & e & -> & Hd & He & Hm).
  destruct (FeeBounds.mul_lit_ceil m e Hd He) as (n & m2 & Hn & Hm2 & ->).
  set (M := 5044031582654956) in *.
  set (T := 2 ^ (- e)) in *.
  set (N := 2 ^ n) in *.
  set (K := 2 ^ (57 - e - n)).
  assert (HT : 0 < T) by (apply Z.pow_pos_nonneg; lia).
  assert (HN : 0 < N) by (apply Z.pow_pos_nonneg; lia).
  assert (HK : 0 < K) by (apply Z.pow_pos_nonneg; lia).
  assert (HNK : N * K = 2 ^ 57 * T).
  { unfold N, K, T. rewrite <- !Z.pow_add_r by lia. f_equal. lia. }
  pose proof (NumFacts.digits_bounds m) as [Ml Mu]. rewrite Hd in Ml, Mu. change (53 - 1) with 52 in Ml.
  assert (HT16 : 16 <= T).
  { (* s < 2^49 and s * T >= 2^52 *)
    rewrite Hm in Ml. change (2 ^ 52) with (562949953421312 * 8) in Ml.
    change (2 ^ 49) with 562949953421312 in Hs.
    assert (s * T < 562949953421312 * T) by (apply Z.mul_lt_mono_pos_r; lia).
    assert (T <= 8 \/ 9 <= T) as [|] by lia; [nia|].
    unfold T in *. assert (Hp : 2 ^ 3 < 2 ^ (- e)) by (change (2 ^ 3) with 8; lia).
    apply Z.pow_lt_mono_r_iff in Hp; [|lia|lia].
    change 16 with (2 ^ 4). apply Z.pow_le_mono_r; lia. }
  assert (HN53 : N <= 2 ^ 53) by (apply Z.pow_le_mono_r; lia).
  set (F := exact_fee s).
  assert (HF : 1000 * (F - 1) + 5 <= 35 * s <= 1000 * F).
  { unfold F, exact_fee.
    assert (Hdiv : - (s * 35) = 1000 * (- (s * 35) / 1000) + (- (s * 35)) mod 1000)
      by (apply Z.div_mod; lia).
    pose proof (Z.mod_pos_bound (- (s * 35)) 1000 ltac:(lia)) as Hr.
    assert (H5 : ((- (s * 35)) mod 1000) mod 5 = 0).
    { rewrite (Z.mod_mod_divide _ 1000 5) by (exists 200; reflexivity).
      replace (- (s * 35)) with ((- (s * 7)) * 5) by lia. apply Z.mod_mul; lia. }
    set (r := (- (s * 35)) mod 1000) in *.
    assert (r <= 995).
    { pose proof (Z.div_mod r 5 ltac:(lia)) as Hr5. rewrite H5 in Hr5. lia. }
    lia. }
  assert (HMlo : 35 * 2 ^ 57 < 1000 * M) by (vm_compute; reflexivity).
  assert (HMhi : 1000 * M <= 35 * 2 ^ 57 + 500) by (vm_compute; congruence).
  set (P := Z.pos m * M) in *.
  assert (HPeq : P = s * T * M) by (unfold P; rewrite Hm; reflexivity).
  set (m1 := P / N) in *.
  assert (Hm1lo : (F - 1) * K + 1 <= m1).
  { unfold m1. apply Z.div_le_lower_bound; [lia|].
    (* N * ((F-1) K + 1) <= P *)
    assert (1000 * (N * ((F - 1) * K + 1)) <= 1000 * P); [|lia].
    replace (1000 * (N * ((F - 1) * K + 1))) with (1000 * (F - 1) * (N * K) + 1000 * N) by ring.
    rewrite HNK, HPeq.
    assert (1000 * N <= 5 * (2 ^ 57 * T)).
    { change (2 ^ 57) with (2 ^ 53 * 16). change (2 ^ 53) with 9007199254740992 in *. nia. }
    assert (35 * s * (2 ^ 57 * T) <= 1000 * (s * T * M)).
    { replace (1000 * (s * T * M)) with ((1000 * M) * (s * T)) by ring.
      replace (35 * s * (2 ^ 57 * T)) with ((35 * 2 ^ 57) * (s * T)) by ring.
      apply Z.mul_le_mono_nonneg_r; nia. }
    assert ((1000 * (F - 1) + 5) * (2 ^ 57 * T) <= 35 * s * (2 ^ 57 * T)).
    { apply Z.mul_le_mono_nonneg_r; [|lia]. change (2 ^ 57) with 144115188075855872. nia. }
    lia. }
  assert (Hm1hi : m1 < (F + 1) * K).
  { unfold m1. apply Z.div_lt_upper_bound; [lia|].
    assert (1000 * P < 1000 * (N * ((F + 1) * K))); [|lia].
    replace (1000 * (N * ((F + 1) * K))) with (1000 * F * (N * K) + 1000 * (N * K)) by ring.
    rewrite HNK, HPeq.
    assert (1000 * (s * T * M) <= (35 * 2 ^ 57 + 500) * (s * T)).
    { replace (1000 * (s * T * M)) with ((1000 * M) * (s * T)) by ring.
      apply Z.mul_le_mono_nonneg_r; nia. }
    assert (35 * s * (2 ^ 57 * T) <= 1000 * F * (2 ^ 57 * T)).
    { apply Z.mul_le_mono_nonneg_r; [|lia]. change (2 ^ 57) with 144115188075855872. nia. }
    assert (500 * (s * T) < 1000 * (2 ^ 57 * T)).
    { change (2 ^ 57) with 144115188075855872. change (2 ^ 49) with 562949953421312 in Hs. nia. }
    lia. }
  split.
  - assert (- m2 / K < - F + 1); [|lia].
    apply Z.div_lt_upper_bound; [lia|]. nia.
  - assert (- (F + 1) <= - m2 / K); [|lia].
    apply Z.div_le_lower_bound; [lia|]. nia.
Qed.

End FeeWithinOneCent.


Lemma calculateFee_within_one_cent_witness :
  (0 <= 1999 < 2 ^ 49)%Z /\ (exact_fee 1999 <= calculateFee 1999 <= exact_fee 1999 + 1)%Z.
Proof.
  split; [split; [lia|reflexivity]|].
  apply (calculateFee_within_one_cent 1999). split; [lia|reflexivity].
Defined.

(** ** Utils: the subtotal and the item count *)

Section Merchandise.
Local Open Scope Z_scope.

Lemma fold_merchandise (f : Item -> Z) l : forall a,
  fold_left (fun acc item => if negb (is_fee item) then acc + f item else acc) l a
  = a + total f (merchandise l).
Proof.
  induction l as [|x l IH]; intros a.
  - cbn. lia.
  - cbn [fold_left]. rewrite IH. unfold merchandise. cbn [List.filter].
    destruct (negb (is_fee x)); unfold total; cbn [fold_right]; lia.
Qed.

Lemma total_Permutation f l l' : Permutation l l' -> total f l = total f l'.
Proof.
  induction 1; unfold total in *; cbn [fold_right] in *; lia.
Qed.

Lemma merchandise_drop_first_fee l : merchandise (drop_first_fee l) = merchandise l.
Proof.
  induction l as [|x l IH]; [reflexivity|]. cbn [drop_first_fee merchandise List.filter].
  destruct (is_fee x) eqn:E; cbn [merchandise List.filter negb]; [reflexivity|].
  rewrite E. cbn [negb]. f_equal. exact IH.
Qed.

Lemma merchandise_set_first_fee q l : merchandise (set_first_fee q l) = merchandise l.
Proof.
  induction l as [|x l IH]; [reflexivity|]. cbn [set_first_fee merchandise List.filter].
  destruct (is_fee x) eqn:E; cbn [merchandise List.filter negb].
  - rewrite is_fee_with_quantity, E. reflexivity.
  - rewrite E. cbn [negb]. f_equal. exact IH.
Qed.

Lemma merchandise_app_fee_line q l : merchandise (l ++ [fee_line q]) = merchandise l.
Proof.
  unfold merchandise. rewrite List.filter_app. cbn [List.filter].
  rewrite is_fee_fee_line. cbn [negb]. apply app_nil_r.
Qed.

End Merchandise.

(** *** Sums of numbers

    The script adds the amounts as binary64 numbers.  Below 2^53 no
    addition rounds, and the sum is the number that holds the sum of
    the integers. *)

Module AddFacts.
Import Num NumFacts FeeBounds.
Local Open Scope Z_scope.

(** Shifting out digits that are all 0 loses nothing. *)
Lemma iter_shr_1_exact n : forall p m,
  Z.pos p = Z.pos m * 2 ^ Z.pos n ->
  SpecFloat.iter_pos shr_1 n (Build_shr_record (Z.pos p) false false)
  = Build_shr_record (Z.pos m) false false.
Proof.
  assert (H1 : forall p m, Z.pos p = Z.pos m * 2 ->
            shr_1 (Build_shr_record (Z.pos p) false false) = Build_shr_record (Z.pos m) false false).
  { intros p m E. destruct p as [p|p|]; try lia.
    assert (p = m) by lia. subst. reflexivity. }
  assert (Hq : forall p m k, Z.pos p = Z.pos m * 2 ^ Z.pos k ->
            exists q, Z.pos q = Z.pos m * 2 ^ Z.pos k).
  { intros p m k E. exists p. exact E. }
  induction n as [n IH|n IH|]; intros p m E; cbn [SpecFloat.iter_pos].
  - replace (Z.pos n~1) with (1 + Z.pos n + Z.pos n) in E by lia.
    rewrite !Z.pow_add_r in E by lia. change (2 ^ 1) with 2 in E.
    assert (P : 0 < 2 ^ Z.pos n) by (apply Z.pow_pos_nonneg; lia).
    rewrite (H1 p (Z.to_pos (Z.pos m * 2 ^ Z.pos n * 2 ^ Z.pos n))) by (rewrite Z2Pos.id; nia).
    rewrite (IH _ (Z.to_pos (Z.pos m * 2 ^ Z.pos n))) by (rewrite !Z2Pos.id; nia).
    apply IH. rewrite Z2Pos.id; nia.
  - replace (Z.pos n~0) with (Z.pos n + Z.pos n) in E by lia.
    rewrite !Z.pow_add_r in E by lia.
    assert (P : 0 < 2 ^ Z.pos n) by (apply Z.pow_pos_nonneg; lia).
    rewrite (IH _ (Z.to_pos (Z.pos m * 2 ^ Z.pos n))) by (rewrite !Z2Pos.id; nia).
    apply IH. rewrite Z2Pos.id; nia.
  - apply H1. exact E.
Qed.

(** A mantissa and an exponent that hold the integer [s] exactly are
    rounded to the number that holds [s]. *)
Lemma binary_round_exact M e s :
  0 < s < 2 ^ 53 -> -52 <= e <= 0 -> Z.pos M = s * 2 ^ (- e) ->
  exists m' e', binary_round prec emax false M e = S754_finite false m' e'
    /\ Z.pos (digits2_pos m') = 53 /\ -52 <= e' <= 0 /\ Z.pos m' = s * 2 ^ (- e').
Proof.
  intros [Hs Hb] He EM. unfold binary_round.
  pose proof (digits_bounds M) as [Dl Du].
  set (d := Z.pos (digits2_pos M)) in *.
  assert (Pe : 0 < 2 ^ (- e)) by (apply Z.pow_pos_nonneg; lia).
  assert (Pd : 0 < d) by (unfold d; lia).
  assert (Hd1 : - e < d).
  { apply (Z.pow_lt_mono_r_iff 2); [lia|lia|]. nia. }
  assert (Hd2 : d + e <= 53).
  { assert (d - 1 < 53 - e); [|lia]. apply (Z.pow_lt_mono_r_iff 2); [lia|lia|].
    replace (53 - e) with (53 + - e) by lia. rewrite Z.pow_add_r by lia. nia. }
  assert (Hf : fexp prec emax (d + e) = d + e - 53) by (unfold fexp, emin, prec, emax; lia).
  rewrite Hf. unfold shl_align.
  destruct (d + e - 53 - e) as [|n|k] eqn:Ek.
  - rewrite binary_round_aux_canonical by (fold d; lia).
    exists M, e. split; [reflexivity|]. fold d. repeat split; lia || exact EM.
  - (* more than 53 digits: the low ones are 0 *)
    assert (Hn : Z.pos n <= - e) by lia.
    assert (Pn : 0 < 2 ^ Z.pos n) by (apply Z.pow_pos_nonneg; lia).
    assert (Pr : 0 < 2 ^ (- e - Z.pos n)) by (apply Z.pow_pos_nonneg; lia).
    set (m1 := Z.to_pos (s * 2 ^ (- e - Z.pos n))).
    assert (Em1 : Z.pos m1 = s * 2 ^ (- e - Z.pos n)) by (unfold m1; rewrite Z2Pos.id; nia).
    assert (EM1 : Z.pos M = Z.pos m1 * 2 ^ Z.pos n).
    { rewrite EM, Em1, <- Z.mul_assoc, <- Z.pow_add_r by lia. do 2 f_equal. lia. }
    assert (Hd : Z.pos (digits2_pos m1) = 53).
    { apply digits_unique. split.
      - apply (Z.mul_le_mono_pos_r _ _ (2 ^ Z.pos n)); [exact Pn|].
        rewrite <- Z.pow_add_r, <- EM1 by lia.
        replace (53 - 1 + Z.pos n) with (d - 1) by lia. exact Dl.
      - apply (Z.mul_lt_mono_pos_r (2 ^ Z.pos n)); [exact Pn|].
        rewrite <- Z.pow_add_r, <- EM1 by lia.
        replace (53 + Z.pos n) with d by lia. exact Du. }
    assert (Hsh : shr_fexp prec emax (Z.pos M) e loc_Exact
                  = (Build_shr_record (Z.pos m1) false false, e + Z.pos n)).
    { rewrite (shr_fexp_shift M e n) by (fold d; rewrite Hf; exact Ek).
      rewrite (iter_shr_1_exact n M m1 EM1). reflexivity. }
    assert (H0 : fexp prec emax (Z.pos (digits2_pos m1) + (e + Z.pos n)) - (e + Z.pos n) = 0)
      by (rewrite Hd; unfold fexp, emin, prec, emax; lia).
    unfold binary_round_aux. rewrite Hsh.
    cbn [shr_m loc_of_shr_record round_nearest_even].
    rewrite (shr_fexp_noshift m1 _ H0). cbn [shr_m].
    replace (e + Z.pos n <=? emax - prec) with true
      by (symmetry; apply Z.leb_le; unfold emax, prec; lia).
    exists m1, (e + Z.pos n). split; [reflexivity|]. split; [exact Hd|]. split; [lia|].
    rewrite Em1. do 2 f_equal. lia.
  - assert (Hdk : Z.pos (digits2_pos (Pos.iter xO M k)) = 53)
      by (rewrite digits_iter_xO; fold d; lia).
    rewrite binary_round_aux_canonical by (rewrite ?Hdk; lia).
    exists (Pos.iter xO M k), (d + e - 53). split; [reflexivity|]. split; [exact Hdk|].
    split; [lia|]. rewrite pos_iter_xO_value, EM, <- Z.mul_assoc, <- Z.pow_add_r by lia.
    do 2 f_equal. lia.
Qed.

(** Two numbers of 53 digits that hold the same integer are the same. *)
Lemma canonical_unique s m e m' e' :
  Z.pos (digits2_pos m) = 53 -> Z.pos (digits2_pos m') = 53 ->
  e <= 0 -> e' <= 0 ->
  Z.pos m = s * 2 ^ (- e) -> Z.pos m' = s * 2 ^ (- e') ->
  m = m' /\ e = e'.
Proof.
  intros Hd Hd' He He' Em Em'.
  pose proof (digits_bounds m) as [Dl Du]. pose proof (digits_bounds m') as [Dl' Du'].
  rewrite Hd in Dl, Du. rewrite Hd' in Dl', Du'.
  assert (Hs : 0 < s).
  { assert (0 < 2 ^ (- e)) by (apply Z.pow_pos_nonneg; lia). nia. }
  assert (Hlt : forall a b x y, a < b -> b <= 0 -> 2 ^ (53 - 1) <= y ->
            x < 2 ^ 53 -> x = s * 2 ^ (- a) -> y = s * 2 ^ (- b) -> False).
  { intros a b x y Hab Hb Hy Hx Ex Ey.
    assert (E : x = y * 2 ^ (b - a)).
    { rewrite Ex, Ey, <- Z.mul_assoc, <- Z.pow_add_r by lia. do 2 f_equal. lia. }
    assert (2 ^ 1 <= 2 ^ (b - a)) by (apply Z.pow_le_mono_r; lia).
    change (2 ^ 1) with 2 in *. change (2 ^ (53 - 1)) with 4503599627370496 in Hy.
    change (2 ^ 53) with 9007199254740992 in Hx. nia. }
  destruct (Z.lt_trichotomy e e') as [H|[H|H]].
  - exfalso. exact (Hlt e e' _ _ H He' Dl' Du Em Em').
  - subst e'. split; [|reflexivity]. lia.
  - exfalso. exact (Hlt e' e _ _ H He Dl Du' Em' Em).
Qed.

Lemma shl_align_value m e e' :
  e' <= e -> Z.pos (fst (shl_align m e e')) = Z.pos m * 2 ^ (e - e').
Proof.
  intros H. unfold shl_align. destruct (e' - e) as [|k|k] eqn:E; try lia.
  - replace (e - e') with 0 by lia. cbn [fst]. change (2 ^ 0) with 1. lia.
  - cbn [fst]. rewrite pos_iter_xO_value. do 2 f_equal. lia.
Qed.

(** [a + b] on numbers that hold integers whose sum is below 2^53 is the
    number that holds the sum: no rounding takes place. *)
Lemma add_exact a b :
  0 <= a -> 0 <= b -> a + b < 2 ^ 53 ->
  add (number_of_Z a) (number_of_Z b) = number_of_Z (a + b).
Proof.
  intros Ha Hb Hab. unfold add.
  destruct (Z.eq_dec a 0) as [->|Na].
  { destruct (Z.eq_dec b 0) as [->|Nb]; [reflexivity|].
    destruct (number_of_Z_exact b ltac:(lia)) as (m & e & E & _).
    rewrite Z.add_0_l, E. reflexivity. }
  destruct (Z.eq_dec b 0) as [->|Nb].
  { destruct (number_of_Z_exact a ltac:(lia)) as (m & e & E & _). rewrite Z.add_0_r.
    rewrite E. reflexivity. }
  destruct (number_of_Z_exact a ltac:(lia)) as (ma & ea & Ea & Da & Ra & Va).
  destruct (number_of_Z_exact b ltac:(lia)) as (mb & eb & Eb & Db & Rb & Vb).
  destruct (number_of_Z_exact (a + b) ltac:(lia)) as (mc & ec & Ec & Dc & Rc & Vc).
  rewrite Ea, Eb, Ec. cbn [SFadd cond_Zopp].
  set (ez := Z.min ea eb).
  rewrite Pos2Z.add_pos_pos. cbn [binary_normalize].
  assert (EM : Z.pos (fst (shl_align ma ea ez) + fst (shl_align mb eb ez)) = (a + b) * 2 ^ (- ez)).
  { rewrite Pos2Z.inj_add, !shl_align_value by (unfold ez; lia).
    rewrite Va, Vb, <- !Z.mul_assoc, <- !Z.pow_add_r by (unfold ez; lia).
    replace (- ea + (ea - ez)) with (- ez) by lia.
    replace (- eb + (eb - ez)) with (- ez) by lia. lia. }
  destruct (binary_round_exact _ ez (a + b) ltac:(lia) ltac:(unfold ez; lia) EM)
    as (m' & e' & -> & D' & R' & V').
  destruct (canonical_unique (a + b) m' e' mc ec) as [-> ->]; auto; lia.
Qed.

End AddFacts.

Section NumberSums.
Import Num.
Local Open Scope Z_scope.

Lemma total_nonneg (f : Item -> Z) l :
  Forall (fun item => 0 <= f item) l -> 0 <= total f l.
Proof.
  induction 1 as [|x l Hx _ IH]; unfold total in *; cbn [fold_right]; lia.
Qed.

(** The sum of numbers that the loop computes holds the sum of the
    integers, while that is below 2^53. *)
Lemma fold_binary64 (f : Item -> Z) l : forall a,
  0 <= a ->
  Forall (fun item => 0 <= f item) (merchandise l) ->
  a + total f (merchandise l) < 2 ^ 53 ->
  fold_left (fun acc item =>
               if negb (is_fee item) then add acc (number_of_Z (f item)) else acc)
            l (number_of_Z a)
  = number_of_Z (a + total f (merchandise l)).
Proof.
  induction l as [|x l IH]; intros a Ha Hf Hb.
  - cbn. rewrite Z.add_0_r. reflexivity.
  - cbn [fold_left]. unfold merchandise in Hf, Hb |- *. cbn [List.filter] in Hf, Hb |- *.
    destruct (negb (is_fee x)).
    + apply Forall_cons in Hf as [Hx Hf]. unfold total in Hb |- *. cbn [fold_right] in Hb |- *.
      pose proof (total_nonneg f _ Hf) as Ht. unfold total in Ht.
      rewrite AddFacts.add_exact by lia.
      unfold merchandise, total in IH. rewrite IH by (auto; lia). f_equal. lia.
    + apply IH; assumption.
Qed.

Lemma exact_amounts_facts l :
  exact_amounts l = true ->
  Forall (fun item => 0 <= final_line_price item) (merchandise l)
  /\ Forall (fun item => 0 <= quantity item) (merchandise l)
  /\ total final_line_price (merchandise l) < 2 ^ 53
  /\ total quantity (merchandise l) < 2 ^ 53.
Proof.
  unfold exact_amounts. intros H.
  apply andb_prop in H as [H H3]. apply andb_prop in H as [H1 H2].
  apply Z.ltb_lt in H2, H3. rewrite forallb_forall in H1.
  repeat split; try assumption; apply List.Forall_forall; intros x Hx;
    specialize (H1 x Hx); apply andb_prop in H1 as [A B];
    apply Z.leb_le in A, B; assumption.
Qed.

(** On carts as the store hands them out, the subtotal the script
    computes is the number that holds [getSubtotalWithoutFee]. *)
Lemma wf_cart_subtotal_binary64 l :
  wf_cart l = true ->
  getSubtotalWithoutFee_binary64 {| items := l |}
  = number_of_Z (getSubtotalWithoutFee {| items := l |}).
Proof.
  intros Hwf. destruct (wf_cart_facts _ Hwf) as (_ & _ & _ & Hhi).
  unfold wf_cart in Hwf. apply andb_prop in Hwf as [Hwf _]. apply andb_prop in Hwf as [_ Hlo].
  rewrite forallb_forall in Hlo.
  unfold getSubtotalWithoutFee_binary64, getSubtotalWithoutFee. cbn [items].
  rewrite (fold_merchandise final_line_price), Z.add_0_l.
  unfold subtotal_of, getSubtotalWithoutFee in Hhi. cbn [items] in Hhi.
  rewrite (fold_merchandise final_line_price), Z.add_0_l in Hhi.
  rewrite (fold_binary64 final_line_price l 0); [reflexivity|lia| |lia].
  apply List.Forall_forall. intros x Hx. unfold merchandise in Hx.
  apply filter_In in Hx as [Hx _]. apply Z.leb_le, Hlo, Hx.
Qed.

End NumberSums.

(** Above 2^53 the sum the script computes depends on the order of the
    lines: small amounts added to a large one are lost one by one, and
    are kept when they are added up first. *)
Lemma binary64_sum_depends_on_order :
  let big := {| key := "a"; sku := "A"; quantity := 1; price := 2 ^ 53;
                final_line_price := 2 ^ 53 |} in
  let one := {| key := "b"; sku := "B"; quantity := 1; price := 1; final_line_price := 1 |} in
  getSubtotalWithoutFee_binary64 {| items := [big; one; one] |} = Num.number_of_Z (2 ^ 53)
  /\ getSubtotalWithoutFee_binary64 {| items := [one; one; big] |} = Num.number_of_Z (2 ^ 53 + 2)
  /\ Num.number_of_Z (2 ^ 53) <> Num.number_of_Z (2 ^ 53 + 2).
Proof. vm_compute. repeat split; discriminate. Qed.

(** X2.  Utils.getSubtotalWithoutFee and Utils.getAdjustedItemCount compute
    sums of numbers.  On a cart whose lines that are not fee lines have
    no negative line price or quantity and totals below 2^53, the
    numbers they return hold the sums of the integers exactly, and they
    depend only on the lines that are not fee lines, whatever their
    order: a cart whose lines without the fee lines are the same up to
    order has the same subtotal and the same item count.  So adding,
    removing or changing a fee line changes neither. *)
Theorem subtotal_and_count_ignore_fee_lines l l' :
  exact_amounts l = true ->
  Permutation (merchandise l) (merchandise l') ->
  getSubtotalWithoutFee_binary64 {| items := l |}
  = Num.number_of_Z (getSubtotalWithoutFee {| items := l |})
  /\ getAdjustedItemCount_binary64 {| items := l |}
     = Num.number_of_Z (getAdjustedItemCount {| items := l |})
  /\ getSubtotalWithoutFee_binary64 {| items := l' |}
     = getSubtotalWithoutFee_binary64 {| items := l |}
  /\ getAdjustedItemCount_binary64 {| items := l' |}
     = getAdjustedItemCount_binary64 {| items := l |}
  /\ getSubtotalWithoutFee {| items := l' |} = getSubtotalWithoutFee {| items := l |}
  /\ getAdjustedItemCount {| items := l' |} = getAdjustedItemCount {| items := l |}.
Proof.
  intros Hex Hp.
  destruct (exact_amounts_facts l Hex) as (Fp & Fq & Bp & Bq).
  assert (Fp' : Forall (fun item => (0 <= final_line_price item)%Z) (merchandise l'))
    by (rewrite <- Hp; exact Fp).
  assert (Fq' : Forall (fun item => (0 <= quantity item)%Z) (merchandise l'))
    by (rewrite <- Hp; exact Fq).
  pose proof (total_Permutation final_line_price _ _ Hp) as Tp.
  pose proof (total_Permutation quantity _ _ Hp) as Tq.
  unfold getSubtotalWithoutFee_binary64, getAdjustedItemCount_binary64,
    getSubtotalWithoutFee, getAdjustedItemCount. cbn [items].
  rewrite !(fold_merchandise final_line_price), !(fold_merchandise quantity), !Z.add_0_l.
  rewrite (fold_binary64 final_line_price l 0), (fold_binary64 quantity l 0),
    (fold_binary64 final_line_price l' 0), (fold_binary64 quantity l' 0), !Z.add_0_l;
    try assumption; try lia.
  rewrite Tp, Tq. repeat split; reflexivity.
Qed.

Lemma subtotal_and_count_ignore_fee_lines_witness :
  exact_amounts [fee_line 35; rifle; with_quantity 2 rifle] = true
  /\ Permutation (merchandise [fee_line 35; rifle; with_quantity 2 rifle])
                 (merchandise [with_quantity 2 rifle; rifle; fee_line 70])
  /\ getSubtotalWithoutFee_binary64 {| items := [fee_line 35; rifle; with_quantity 2 rifle] |}
     = Num.number_of_Z 3000
  /\ getSubtotalWithoutFee_binary64 {| items := [with_quantity 2 rifle; rifle; fee_line 70] |}
     = Num.number_of_Z 3000
  /\ getAdjustedItemCount {| items := [with_quantity 2 rifle; rifle; fee_line 70] |} = 3%Z.
Proof.
  assert (Hp : Permutation (merchandise [fee_line 35; rifle; with_quantity 2 rifle])
                           (merchandise [with_quantity 2 rifle; rifle; fee_line 70]))
    by (vm_compute; apply perm_swap).
  split; [reflexivity|]. split; [exact Hp|].
  destruct (subtotal_and_count_ignore_fee_lines
              [fee_line 35; rifle; with_quantity 2 rifle]
              [with_quantity 2 rifle; rifle; fee_line 70])
    as (H1 & _ & H3 & _ & _ & H6); [reflexivity|exact Hp|].
  split; [exact H1|]. split; [rewrite H3; exact H1|]. exact H6.
Defined.

(** ** Alerts, reloads, listeners and the modal: what leaves them alone *)

#[local] Instance same_bookkeeping_preorder : PreOrder same_bookkeeping.
Proof.
  split.
  - intros w. repeat split.
  - intros w1 w2 w3 (A1 & B1 & C1 & D1) (A2 & B2 & C2 & D2). repeat split; congruence.
Qed.

#[local] Instance same_alerts_preorder : PreOrder same_alerts.
Proof. split; unfold same_alerts; [intros w|intros w1 w2 w3 ? ?]; congruence. Qed.

#[local] Instance listeners_grow_preorder : PreOrder listeners_grow.
Proof.
  split.
  - intros w. split; [lia|reflexivity].
  - intros w1 w2 w3 (A1 & B1) (A2 & B2). split; [lia|congruence].
Qed.

#[local] Instance same_modal_state_preorder : PreOrder same_modal_state.
Proof.
  split.
  - intros w. repeat split.
  - intros w1 w2 w3 (A1 & B1) (A2 & B2). split; congruence.
Qed.

Lemma fetch_same_bookkeeping r : preserves same_bookkeeping (fetch r).
Proof.
  intros w. unfold exec, fetch.
  destruct (hd Served (network w)); cbn;
    try (destruct (serve r (store w)); cbn); repeat split.
Qed.

Lemma same_bookkeeping_same_alerts {A} (m : M A) :
  preserves same_bookkeeping m -> preserves same_alerts m.
Proof. intros H w. apply (H w). Qed.

Lemma same_bookkeeping_listeners_grow {A} (m : M A) :
  preserves same_bookkeeping m -> preserves listeners_grow m.
Proof. intros H w. destruct (H w) as (_ & _ & E1 & E2). split; [lia|exact E2]. Qed.

Lemma fetch_same_alerts r : preserves same_alerts (fetch r).
Proof. apply same_bookkeeping_same_alerts, fetch_same_bookkeeping. Qed.

Lemma fetch_listeners_grow r : preserves listeners_grow (fetch r).
Proof. apply same_bookkeeping_listeners_grow, fetch_same_bookkeeping. Qed.

Lemma fetch_same_modal_state r : preserves same_modal_state (fetch r).
Proof. intros w. destruct (fetch_same_dom r w) as (_ & _ & E1 & E2 & _). split; assumption. Qed.

#[local] Hint Resolve fetch_same_bookkeeping fetch_same_alerts fetch_listeners_grow
  fetch_same_modal_state : pres.

Ltac modify_step ::=
  lazymatch goal with
  | |- preserves _ (modify _) =>
      let w := fresh "w" in
      intros w; unfold exec, modify; cbn [snd];
      first [apply same_session_only_deletes | apply same_session_only_sets_added
            | apply same_traffic_sends_no_add | apply same_traffic_no_more_fee_lines
            | apply same_traffic_keeps_one_fee_line | apply same_traffic_quiet_if_nonempty
            | apply same_traffic_quiet_if_no_fee | apply same_traffic_stays_healthy
            | apply same_boxes_keeps_unchecked | idtac];
      repeat split; first [reflexivity | cbn; lia]
  end.

Lemma getCart_same_bookkeeping : preserves same_bookkeeping getCart.
Proof. unfold getCart. pres. Qed.
#[local] Hint Resolve getCart_same_bookkeeping : pres.
Lemma removeFee_same_bookkeeping : preserves same_bookkeeping removeFee.
Proof. unfold removeFee. pres. Qed.
#[local] Hint Resolve removeFee_same_bookkeeping : pres.
Lemma checkEmptyCart_same_bookkeeping : preserves same_bookkeeping checkEmptyCart.
Proof. unfold checkEmptyCart. pres. Qed.
#[local] Hint Resolve checkEmptyCart_same_bookkeeping : pres.
Lemma syncCheckbox_same_bookkeeping id : preserves same_bookkeeping (syncCheckbox id).
Proof. unfold syncCheckbox. pres. Qed.
#[local] Hint Resolve syncCheckbox_same_bookkeeping : pres.

Lemma getCart_same_alerts : preserves same_alerts getCart.
Proof. unfold getCart. pres. Qed.
#[local] Hint Resolve getCart_same_alerts : pres.
Lemma removeFee_same_alerts : preserves same_alerts removeFee.
Proof. unfold removeFee. pres. Qed.
#[local] Hint Resolve removeFee_same_alerts : pres.
Lemma checkEmptyCart_same_alerts : preserves same_alerts checkEmptyCart.
Proof. unfold checkEmptyCart. pres. Qed.
#[local] Hint Resolve checkEmptyCart_same_alerts : pres.
Lemma CheckboxHandler_init_same_alerts : preserves same_alerts CheckboxHandler_init.
Proof. unfold CheckboxHandler_init. pres. Qed.
#[local] Hint Resolve CheckboxHandler_init_same_alerts : pres.
Lemma refreshCartUI_same_alerts : preserves same_alerts refreshCartUI.
Proof. unfold refreshCartUI. pres. Qed.
#[local] Hint Resolve refreshCartUI_same_alerts : pres.

Lemma getCart_listeners_grow : preserves listeners_grow getCart.
Proof. unfold getCart. pres. Qed.
#[local] Hint Resolve getCart_listeners_grow : pres.
Lemma removeFee_listeners_grow : preserves listeners_grow removeFee.
Proof. unfold removeFee. pres. Qed.
#[local] Hint Resolve removeFee_listeners_grow : pres.
Lemma checkEmptyCart_listeners_grow : preserves listeners_grow checkEmptyCart.
Proof. unfold checkEmptyCart. pres. Qed.
#[local] Hint Resolve checkEmptyCart_listeners_grow : pres.
Lemma CheckboxHandler_init_listeners_grow : preserves listeners_grow CheckboxHandler_init.
Proof. unfold CheckboxHandler_init. pres. Qed.
#[local] Hint Resolve CheckboxHandler_init_listeners_grow : pres.
Lemma refreshCartUI_listeners_grow : preserves listeners_grow refreshCartUI.
Proof. unfold refreshCartUI. pres. Qed.
#[local] Hint Resolve refreshCartUI_listeners_grow : pres.
Lemma setFeeQuantity_listeners_grow k q : preserves listeners_grow (setFeeQuantity k q).
Proof. unfold setFeeQuantity. pres. Qed.
#[local] Hint Resolve setFeeQuantity_listeners_grow : pres.
Lemma addFee_listeners_grow f : preserves listeners_grow (addFee f).
Proof. unfold addFee. pres. Qed.
#[local] Hint Resolve addFee_listeners_grow : pres.
Lemma updateFee_listeners_grow : preserves listeners_grow updateFee.
Proof. unfold updateFee. pres. Qed.
#[local] Hint Resolve updateFee_listeners_grow : pres.
Lemma recalcTask_listeners_grow : preserves listeners_grow recalcTask.
Proof. unfold recalcTask. pres. Qed.
#[local] Hint Resolve recalcTask_listeners_grow : pres.
Lemma onCartUpdated_listeners_grow : preserves listeners_grow onCartUpdated.
Proof. unfold onCartUpdated. pres. Qed.
#[local] Hint Resolve onCartUpdated_listeners_grow : pres.
Lemma alignFee_listeners_grow : preserves listeners_grow alignFee.
Proof. unfold alignFee. pres. Qed.
#[local] Hint Resolve alignFee_listeners_grow : pres.

Lemma getCart_same_modal_state : preserves same_modal_state getCart.
Proof. unfold getCart. pres. Qed.
#[local] Hint Resolve getCart_same_modal_state : pres.
Lemma removeFee_same_modal_state : preserves same_modal_state removeFee.
Proof. unfold removeFee. pres. Qed.
#[local] Hint Resolve removeFee_same_modal_state : pres.
Lemma checkEmptyCart_same_modal_state : preserves same_modal_state checkEmptyCart.
Proof. unfold checkEmptyCart. pres. Qed.
#[local] Hint Resolve checkEmptyCart_same_modal_state : pres.
Lemma CheckboxHandler_init_same_modal_state : preserves same_modal_state CheckboxHandler_init.
Proof. unfold CheckboxHandler_init. pres. Qed.
#[local] Hint Resolve CheckboxHandler_init_same_modal_state : pres.
Lemma refreshCartUI_same_modal_state : preserves same_modal_state refreshCartUI.
Proof. unfold refreshCartUI. pres. Qed.
#[local] Hint Resolve refreshCartUI_same_modal_state : pres.
Lemma setFeeQuantity_same_modal_state k q : preserves same_modal_state (setFeeQuantity k q).
Proof. unfold setFeeQuantity. pres. Qed.
#[local] Hint Resolve setFeeQuantity_same_modal_state : pres.
Lemma addFee_same_modal_state f : preserves same_modal_state (addFee f).
Proof. unfold addFee. pres. Qed.
#[local] Hint Resolve addFee_same_modal_state : pres.
Lemma updateFee_same_modal_state : preserves same_modal_state updateFee.
Proof. unfold updateFee. pres. Qed.
#[local] Hint Resolve updateFee_same_modal_state : pres.
Lemma recalcTask_same_modal_state : preserves same_modal_state recalcTask.
Proof. unfold recalcTask. pres. Qed.
#[local] Hint Resolve recalcTask_same_modal_state : pres.
Lemma onCartUpdated_same_modal_state : preserves same_modal_state onCartUpdated.
Proof. unfold onCartUpdated. pres. Qed.
#[local] Hint Resolve onCartUpdated_same_modal_state : pres.
Lemma alignFee_same_modal_state : preserves same_modal_state alignFee.
Proof. unfold alignFee. pres. Qed.
#[local] Hint Resolve alignFee_same_modal_state : pres.
Lemma init_same_modal_state : preserves same_modal_state init.
Proof. unfold init. pres. Qed.
#[local] Hint Resolve init_same_modal_state : pres.
Lemma pageScript_same_modal_state : preserves same_modal_state pageScript.
Proof. unfold pageScript. pres. Qed.
#[local] Hint Resolve pageScript_same_modal_state : pres.
Lemma handleCheckboxChange_same_modal_state t : preserves same_modal_state (handleCheckboxChange t).
Proof. unfold handleCheckboxChange. pres. Qed.
#[local] Hint Resolve handleCheckboxChange_same_modal_state : pres.
Lemma handleProductCheckboxChange_same_modal_state :
  preserves same_modal_state handleProductCheckboxChange.
Proof. unfold handleProductCheckboxChange. pres. Qed.
#[local] Hint Resolve handleProductCheckboxChange_same_modal_state : pres.
Lemma ajaxAdd_same_modal_state item : preserves same_modal_state (ajaxAdd item).
Proof. unfold ajaxAdd. pres. Qed.
#[local] Hint Resolve ajaxAdd_same_modal_state : pres.

(** ** CartAPI: what the functions return, and what they leave *)

(** X3.  When its read is served or fails (it is not answered with an
    error status), CartAPI.removeFee returns true exactly when the cart
    could be read and either held no fee line or the store served the
    removal; the cart is then left without its first fee line.  When it
    returns false the cart is as it was.  The lines that are not fee
    lines are never touched. *)
Theorem removeFee_result w :
  not_refused (network w) = true ->
  let ok := served (network w)
            && match findFeeLineItem {| items := store w |} with
               | Some _ => served (tl (network w))
               | None => true
               end in
  result removeFee w = Some ok
  /\ store (exec removeFee w) = (if ok then drop_first_fee (store w) else store w)
  /\ merchandise (store (exec removeFee w)) = merchandise (store w).
Proof.
  intros _. cbv zeta. unfold result, exec, removeFee, bind. rewrite getCart_eq.
  destruct (served (network w)) eqn:Hs; cbn [andb]; [|repeat split; reflexivity].
  unfold findFeeLineItem. cbn [items].
  destruct (find is_fee (store w)) as [fee|] eqn:Ef.
  - destruct (serve_remove_first_fee _ _ Ef) as [Hi Hc].
    assert (Hserve : serve (POST_change_line (indexOf (store w) fee + 1) 0) (store w)
                     = Some (drop_first_fee (store w))).
    { cbn. apply Z.leb_le in Hi. rewrite Hi. cbn. exact Hc. }
    unfold try_catch, bind, fetch. cbn [network sent set_traffic store]. rewrite Hserve.
    unfold served.
    destruct (hd Served (tl (network w))); cbn;
      rewrite ?merchandise_drop_first_fee; repeat split; reflexivity.
  - cbn. rewrite (drop_first_fee_none _ Ef). repeat split; reflexivity.
Qed.

Lemma removeFee_result_witness :
  not_refused (network (page [rifle; fee_line 35] true [Served; Refused "busy"])) = true
  /\ result removeFee (page [rifle; fee_line 35] true [Served; Refused "busy"]) = Some false
  /\ store (exec removeFee (page [rifle; fee_line 35] true [Served; Refused "busy"]))
     = [rifle; fee_line 35]
  /\ not_refused (network (page [rifle; fee_line 35] true [])) = true
  /\ result removeFee (page [rifle; fee_line 35] true []) = Some true
  /\ store (exec removeFee (page [rifle; fee_line 35] true [])) = [rifle].
Proof.
  split; [reflexivity|].
  destruct (removeFee_result (page [rifle; fee_line 35] true [Served; Refused "busy"]))
    as (H1 & H2 & _); [reflexivity|].
  split; [exact H1|]. split; [exact H2|]. split; [reflexivity|].
  destruct (removeFee_result (page [rifle; fee_line 35] true [])) as (H3 & H4 & _);
    [reflexivity|].
  split; [exact H3|exact H4].
Defined.

(** CartAPI.addFee, branch by branch. *)
Lemma addFee_eq f w :
  addFee f w =
    let r := POST_add PAYPAL_FEE_VARIANT_ID f in
    match hd Served (network w) with
    | Failed => (Some false, sent r w)
    | Refused d =>
        (Some false,
         if includes "out of stock" d
         then set_alerts (alerts w ++ [MSG_OUT_OF_STOCK]) (sent r w)
         else sent r w)
    | _ =>
        if (0 <? f)%Z
        then (Some true,
              exec refreshCartUI
                (set_traffic (store w ++ [fee_line f]) (requests w ++ [r]) (tl (network w)) w))
        else (Some false, sent r w)
    end.
Proof.
  unfold addFee. change (PAYPAL_FEE_VARIANT_ID =? 0)%Z with false. cbv iota zeta.
  unfold Num.Math_round, try_catch, bind, fetch.
  assert (Hserve : serve (POST_add PAYPAL_FEE_VARIANT_ID f) (store w)
                   = if (0 <? f)%Z then Some (store w ++ [fee_line f]) else None).
  { cbn [serve]. rewrite Z.eqb_refl. reflexivity. }
  rewrite Hserve.
  assert (Hrefresh : forall w2, exists u, refreshCartUI w2 = (Some u, exec refreshCartUI w2)).
  { intros w2. pose proof (refreshCartUI_returns w2) as Hr. unfold result, exec in *.
    destruct (refreshCartUI w2) as [[u|] w3]; [exists u; reflexivity|exfalso; apply Hr; reflexivity]. }
  destruct (hd Served (network w)) as [| |d|]; try reflexivity.
  - destruct (0 <? f)%Z; cbn; [|reflexivity].
    destruct (Hrefresh (set_traffic (store w ++ [fee_line f])
      (requests w ++ [POST_add PAYPAL_FEE_VARIANT_ID f]) (tl (network w)) w)) as [u ->].
    reflexivity.
  - destruct (0 <? f)%Z; cbn; [|reflexivity].
    destruct (Hrefresh (set_traffic (store w ++ [fee_line f])
      (requests w ++ [POST_add PAYPAL_FEE_VARIANT_ID f]) (tl (network w)) w)) as [u ->].
    reflexivity.
  - cbn. unfold addFee_not_ok, bind. cbn [body]. destruct (includes _ d); reflexivity.
Qed.

(** X4.  CartAPI.addFee returns true exactly when the store accepted the add
    (the request was served and the amount is positive).  Whatever
    happens it sends the add once and no second add.  When it returns
    false, the cart is as it was, its request is the only one sent, and
    there is no reload and no new listener; when it returns true, the
    cart has the new fee line at its end (unless the subtotal is 0).
    The out-of-stock alert is shown exactly when the store refuses the
    add with a description that includes 'out of stock'; no other alert
    is shown. *)
Theorem addFee_result f w :
  let ok := served (network w) && (0 <? f)%Z in
  let r := POST_add PAYPAL_FEE_VARIANT_ID f in
  let w' := exec (addFee f) w in
  result (addFee f) w = Some ok
  /\ List.filter is_add (requests w') = List.filter is_add (requests w) ++ [r]
  /\ (if ok
      then subtotal_of (store w) = 0%Z \/ store w' = store w ++ [fee_line f]
      else store w' = store w /\ requests w' = requests w ++ [r]
           /\ reloads w' = reloads w /\ recalcListeners w' = recalcListeners w)
  /\ alerts w'
     = alerts w ++ match hd Served (network w) with
                   | Refused d => if includes "out of stock" d then [MSG_OUT_OF_STOCK] else []
                   | _ => []
                   end.
Proof.
  cbv zeta. unfold result, exec. rewrite addFee_eq. cbv zeta.
  set (r := POST_add PAYPAL_FEE_VARIANT_ID f).
  assert (Hsent : List.filter is_add (requests (sent r w)) = List.filter is_add (requests w) ++ [r]).
  { cbn. rewrite List.filter_app. reflexivity. }
  assert (Hok : forall w2 : World,
            w2 = set_traffic (store w ++ [fee_line f]) (requests w ++ [r]) (tl (network w)) w ->
            List.filter is_add (requests (exec refreshCartUI w2)) = List.filter is_add (requests w) ++ [r]
            /\ (subtotal_of (store w) = 0%Z \/ store (exec refreshCartUI w2) = store w ++ [fee_line f])
            /\ alerts (exec refreshCartUI w2) = alerts w ++ []).
  { intros w2 ->. set (w2 := set_traffic _ _ _ w). split; [|split].
    - destruct (refreshCartUI_sends_no_add w2) as (l & -> & Hl).
      rewrite List.filter_app. change (requests w2) with (requests w ++ [r]).
      rewrite List.filter_app. cbn [List.filter is_add r].
      assert (Hnil : List.filter is_add l = []).
      { clear -Hl. induction l as [|x l IH]; [reflexivity|]. cbn in *.
        apply andb_prop in Hl as [Hx Hl]. apply negb_true_iff in Hx. rewrite Hx. auto. }
      rewrite Hnil, app_nil_r. reflexivity.
    - destruct (Z.eq_dec (subtotal_of (store w)) 0%Z) as [E0|E0]; [left; exact E0|right].
      assert (Hsub : subtotal_of (store w2) <> 0%Z).
      { change (store w2) with (store w ++ [fee_line f]). rewrite subtotal_app.
        change (subtotal_of [fee_line f]) with 0%Z. lia. }
      destruct (refreshCartUI_quiet_if_nonempty w2 Hsub) as [-> _]. reflexivity.
    - rewrite (refreshCartUI_same_alerts w2), app_nil_r. reflexivity. }
  unfold served.
  destruct (hd Served (network w)) as [| |d|] eqn:Hn; cbn [andb fst snd].
  - destruct (0 <? f)%Z; cbn [fst snd].
    + destruct (Hok _ eq_refl) as (H1 & H2 & H3). auto.
    + rewrite app_nil_r. repeat split. exact Hsent.
  - destruct (0 <? f)%Z; cbn [fst snd].
    + destruct (Hok _ eq_refl) as (H1 & H2 & H3). auto.
    + rewrite app_nil_r. repeat split. exact Hsent.
  - destruct (includes "out of stock" d); cbn [fst snd]; rewrite ?app_nil_r;
      repeat split; exact Hsent.
  - rewrite app_nil_r. repeat split. exact Hsent.
Qed.

(** CheckboxHandler.init registers exactly one more set of quantity
    listeners, and shows no alert and asks for no reload. *)
Lemma CheckboxHandler_init_counts w :
  recalcListeners (exec CheckboxHandler_init w) = S (recalcListeners w)
  /\ reloads (exec CheckboxHandler_init w) = reloads w
  /\ alerts (exec CheckboxHandler_init w) = alerts w
  /\ cartUpdatedListeners (exec CheckboxHandler_init w) = cartUpdatedListeners w.
Proof.
  unfold CheckboxHandler_init.
  rewrite (exec_seq (syncCheckbox ID_MAIN)) by apply syncCheckbox_returns.
  destruct (syncCheckbox_same_bookkeeping ID_MAIN w) as (A1 & B1 & C1 & D1).
  set (w1 := exec (syncCheckbox ID_MAIN) w) in *.
  rewrite (exec_seq (syncCheckbox ID_DRAWER)) by apply syncCheckbox_returns.
  destruct (syncCheckbox_same_bookkeeping ID_DRAWER w1) as (A2 & B2 & C2 & D2).
  set (w2 := exec (syncCheckbox ID_DRAWER) w1) in *.
  rewrite (exec_seq (syncCheckbox ID_PRODUCT)) by apply syncCheckbox_returns.
  destruct (syncCheckbox_same_bookkeeping ID_PRODUCT w2) as (A3 & B3 & C3 & D3).
  set (w3 := exec (syncCheckbox ID_PRODUCT) w2) in *.
  rewrite (exec_seq (modify _)) by apply returns_modify.
  set (w4 := exec (modify _) w3).
  destruct (checkEmptyCart_same_bookkeeping w4) as (A4 & B4 & C4 & D4).
  rewrite A4, B4, C4, D4. unfold w4, exec, modify. cbn.
  repeat split; congruence.
Qed.

(** CartAPI.refreshCartUI, branch by branch. *)
Lemma refreshCartUI_eq w :
  refreshCartUI w =
    (Some tt,
     if cartSection w then
       match hd Served (network w) with
       | Served => exec CheckboxHandler_init (sent GET_section w)
       | _ => set_reloads (S (reloads w)) (sent GET_section w)
       end
     else set_reloads (S (reloads w)) w).
Proof.
  assert (Hw : exec refreshCartUI w
               = if cartSection w then
                   match hd Served (network w) with
                   | Served => exec CheckboxHandler_init (sent GET_section w)
                   | _ => set_reloads (S (reloads w)) (sent GET_section w)
                   end
                 else set_reloads (S (reloads w)) w).
  { destruct (cartSection w) eqn:Hc.
    - destruct (hd Served (network w)) eqn:Hn;
        [exact (refreshCartUI_served w Hc Hn)| | |];
        unfold exec, refreshCartUI, try_catch, bind, get, fetch; cbv beta iota; rewrite Hc;
        cbn [negb]; cbv beta iota; rewrite Hn; reflexivity.
    - unfold exec, refreshCartUI, try_catch, bind, get. rewrite Hc. reflexivity. }
  pose proof (refreshCartUI_returns w) as Hr. unfold result, exec in *.
  destruct (refreshCartUI w) as [[[]|] w']; cbn [fst snd] in *;
    [rewrite Hw; reflexivity|exfalso; apply Hr; reflexivity].
Qed.

(** X6.  CartAPI.refreshCartUI never throws, and on every path it does
    exactly one of two things: when the page has the cart section and
    the section request is served with the section in it, it runs
    CheckboxHandler.init (one more set of listeners, no reload); in
    every other case (no cart section, a failed or refused request, an
    answer without the section) it asks for one reload, registers
    nothing and leaves the cart, the storage and the boxes as they
    were.  Without a cart section it sends no request.  It shows no
    alert. *)
Theorem refreshCartUI_rebinds_or_reloads w :
  let fresh := cartSection w
               && match hd Served (network w) with Served => true | _ => false end in
  let w' := exec refreshCartUI w in
  result refreshCartUI w = Some tt
  /\ (if fresh
      then reloads w' = reloads w /\ recalcListeners w' = S (recalcListeners w)
      else reloads w' = S (reloads w) /\ recalcListeners w' = recalcListeners w
           /\ store w' = store w /\ sessionStorage w' = sessionStorage w
           /\ checkboxes w' = checkboxes w)
  /\ (cartSection w = true \/ requests w' = requests w)
  /\ alerts w' = alerts w.
Proof.
  cbv zeta. unfold result, exec. rewrite refreshCartUI_eq. cbn [fst snd].
  split; [reflexivity|].
  destruct (cartSection w); cbn [andb]; [|repeat split; auto].
  destruct (hd Served (network w)); try (repeat split; auto; fail).
  destruct (CheckboxHandler_init_counts (sent GET_section w)) as (A & B & C & D).
  rewrite A, B, C. repeat split; auto.
Qed.

(** ** CartAPI.updateFee aligns the fee *)

Lemma fee_lines_find_some l fee : find is_fee l = Some fee -> (1 <= fee_lines l)%nat.
Proof.
  intros Ef. destruct (fee_lines l) eqn:E; [|lia].
  apply find_fee_none in E. congruence.
Qed.

(** The cart after the request that [updateFee] decides on: the lines
    that are not fee lines are the same, and the fee is aligned. *)
Lemma applied_reconcile_aligned l :
  wf_cart l = true ->
  merchandise (applied (reconcile l) l) = merchandise l
  /\ subtotal_of (applied (reconcile l) l) = subtotal_of l
  /\ (if (subtotal_of l =? 0)%Z
      then fee_lines (applied (reconcile l) l) = 0%nat
      else fee_lines (applied (reconcile l) l) = 1%nat
           /\ exists fee, find is_fee (applied (reconcile l) l) = Some fee
                /\ quantity fee = calculateFee (subtotal_of l)).
Proof.
  intros Hwf. destruct (wf_cart_facts _ Hwf) as (Hnd & H1 & Hlo & Hhi).
  unfold reconcile, findFeeLineItem. cbn [items]. fold (subtotal_of l).
  destruct (Z.eqb_spec (subtotal_of l) 0) as [E0|E0].
  - destruct (find is_fee l) as [fee|] eqn:Ef.
    + destruct (serve_remove_first_fee l fee Ef) as [Hi Hc].
      assert (Happ : applied (Some (POST_change_line (indexOf l fee + 1) 0)) l = drop_first_fee l).
      { unfold applied. cbn [serve]. apply Z.leb_le in Hi. rewrite Hi. cbn. rewrite Hc.
        reflexivity. }
      rewrite Happ, merchandise_drop_first_fee, subtotal_drop_first_fee, fee_lines_drop_first_fee.
      repeat split. lia.
    + cbn [applied]. apply find_fee_none in Ef. auto.
  - assert (Hd : (1 <= calculateFee (subtotal_of l))%Z)
      by (apply NumFacts.calculateFee_pos; lia).
    set (d := calculateFee (subtotal_of l)) in *.
    destruct (find is_fee l) as [fee|] eqn:Ef.
    + pose proof (fee_lines_find_some _ _ Ef) as Hge.
      destruct (Z.eqb_spec (quantity fee) d) as [Eq|Eq].
      * cbn [applied]. repeat split; [lia|]. exists fee. auto.
      * assert (Happ : applied (Some (POST_change_id (key fee) d)) l = set_first_fee d l).
        { unfold applied. cbn [serve].
          replace (0 <=? d)%Z with true by (symmetry; apply Z.leb_le; lia).
          rewrite (change_key_first_fee d l fee Hnd Ef).
          replace (d =? 0)%Z with false by (symmetry; apply Z.eqb_neq; lia). reflexivity. }
        rewrite Happ, merchandise_set_first_fee, subtotal_set_first_fee, fee_lines_set_first_fee.
        repeat split; [lia|]. exists (with_quantity d fee).
        rewrite (find_set_first_fee d l fee Ef). auto.
    + assert (Happ : applied (Some (POST_add PAYPAL_FEE_VARIANT_ID d)) l = l ++ [fee_line d]).
      { unfold applied. cbn [serve]. rewrite Z.eqb_refl.
        replace (0 <? d)%Z with true by (symmetry; apply Z.ltb_lt; lia). reflexivity. }
      rewrite Happ, merchandise_app_fee_line, subtotal_app, fee_lines_app.
      change (subtotal_of [fee_line d]) with 0%Z. apply find_fee_none in Ef as Ef0.
      rewrite Ef0. repeat split; [lia|]. exists (fee_line d).
      rewrite (find_app_fee_line d l Ef). auto.
Qed.

Lemma updateFee_store w :
  wf_cart (store w) = true -> network w = [] ->
  store (exec updateFee w) = applied (reconcile (store w)) (store w).
Proof.
  intros Hwf Hn. destruct (wf_cart_facts _ Hwf) as (Hnd & _).
  destruct (updateFee_run w) as [_ Hst];
    [rewrite Hn; reflexivity|intros _; rewrite Hn; reflexivity|exact Hnd|].
  exact (Hst Hn).
Qed.

(** X7.  On a cart as the store hands it out and a network that serves every
    request, CartAPI.updateFee leaves the lines that are not fee lines
    as they were, and leaves the fee aligned with them: no fee line when
    the subtotal is 0, and otherwise exactly one fee line, whose
    quantity is calculateFee(subtotal). *)
Theorem updateFee_aligns w :
  wf_cart (store w) = true -> network w = [] ->
  merchandise (store (exec updateFee w)) = merchandise (store w)
  /\ subtotal_of (store (exec updateFee w)) = subtotal_of (store w)
  /\ (if (subtotal_of (store w) =? 0)%Z
      then fee_lines (store (exec updateFee w)) = 0%nat
      else fee_lines (store (exec updateFee w)) = 1%nat
           /\ exists fee, findFeeLineItem {| items := store (exec updateFee w) |} = Some fee
                /\ quantity fee = calculateFee (subtotal_of (store w))).
Proof.
  intros Hwf Hn. rewrite (updateFee_store w Hwf Hn).
  exact (applied_reconcile_aligned (store w) Hwf).
Qed.

Lemma updateFee_aligns_witness :
  wf_cart (store (page [rifle; fee_line 1] true [])) = true
  /\ network (page [rifle; fee_line 1] true []) = []
  /\ merchandise (store (exec updateFee (page [rifle; fee_line 1] true []))) = [rifle]
  /\ fee_lines (store (exec updateFee (page [rifle; fee_line 1] true []))) = 1%nat
  /\ exists fee,
       findFeeLineItem {| items := store (exec updateFee (page [rifle; fee_line 1] true [])) |}
       = Some fee /\ quantity fee = 35%Z.
Proof.
  split; [vm_compute; reflexivity|]. split; [reflexivity|].
  destruct (updateFee_aligns (page [rifle; fee_line 1] true [])) as (H1 & _ & H2);
    [vm_compute; reflexivity|reflexivity|].
  split; [exact H1|]. exact H2.
Defined.

(** X8.  When its reads are served or fail (none is answered with an
    error status: the read of [updateFee], and that of [removeFee] when
    the subtotal is 0), CartAPI.updateFee returns true whenever it could
    read the cart and the subtotal is not 0: also when the store has
    refused the add or the change of the quantity, or the request has
    failed.  It returns false when the read fails and when the subtotal
    is 0. *)
Theorem updateFee_result w :
  not_refused (network w) = true ->
  (if (subtotal_of (store w) =? 0)%Z then not_refused (tl (network w)) else true) = true ->
  result updateFee w
  = Some (served (network w) && negb (subtotal_of (store w) =? 0)%Z).
Proof.
  intros _ _. unfold result, updateFee, bind. rewrite getCart_eq.
  destruct (served (network w)); [|reflexivity]. cbn [andb items].
  unfold subtotal_of.
  destruct (getSubtotalWithoutFee {| items := store w |} =? 0)%Z; cbn [negb].
  - pose proof (removeFee_returns (sent GET_cart w)) as Hr. unfold result in Hr.
    destruct (removeFee (sent GET_cart w)) as [[b|] w']; [reflexivity|].
    exfalso. apply Hr. reflexivity.
  - destruct (findFeeLineItem _) as [fee|].
    + destruct (_ =? _)%Z; [reflexivity|].
      pose proof (setFeeQuantity_returns (key fee)
        (Num.Math_round (calculateFee (getSubtotalWithoutFee {| items := store w |})))
        (sent GET_cart w)) as Hr.
      unfold result in Hr.
      destruct (setFeeQuantity _ _ (sent GET_cart w)) as [[b|] w']; [reflexivity|].
      exfalso. apply Hr. reflexivity.
    + pose proof (addFee_returns (calculateFee (getSubtotalWithoutFee {| items := store w |}))
        (sent GET_cart w)) as Hr.
      unfold result in Hr.
      destruct (addFee _ (sent GET_cart w)) as [[b|] w']; [reflexivity|].
      exfalso. apply Hr. reflexivity.
Qed.

Lemma updateFee_result_witness :
  not_refused (network (page [rifle] true [Served; Refused "out of stock"])) = true
  /\ result updateFee (page [rifle] true [Served; Refused "out of stock"]) = Some true
  /\ store (exec updateFee (page [rifle] true [Served; Refused "out of stock"])) = [rifle]
  /\ result updateFee (page [fee_line 35] true []) = Some false
  /\ result updateFee (page [rifle] true [Failed]) = Some false.
Proof.
  split; [reflexivity|].
  split; [apply (updateFee_result (page [rifle] true [Served; Refused "out of stock"]));
          reflexivity|].
  split; [reflexivity|].
  split; [apply (updateFee_result (page [fee_line 35] true [])); reflexivity|].
  apply (updateFee_result (page [rifle] true [Failed])); reflexivity.
Defined.

(** ** The checkbox handlers *)

#[local] Instance calm_if_nonempty_preorder : PreOrder calm_if_nonempty.
Proof.
  split.
  - intros w _. auto.
  - intros w1 w2 w3 H12 H23 H. destruct (H12 H) as [S12 M12].
    destruct H23 as [S23 M23]; [rewrite S12; exact H|].
    split; congruence.
Qed.

#[local] Instance reloads_grow_preorder : PreOrder reloads_grow.
Proof. split; unfold reloads_grow; [intros w|intros w1 w2 w3 ? ?]; lia. Qed.

Lemma same_store_session_calm w w' :
  store w' = store w -> sessionStorage w' = sessionStorage w -> calm_if_nonempty w w'.
Proof. intros E1 E2 _. auto. Qed.

Lemma reloads_grow_intro w w' : (reloads w <= reloads w')%nat -> reloads_grow w w'.
Proof. intros H. exact H. Qed.

Lemma fetch_calm_if_nonempty r : is_mutation r = false -> preserves calm_if_nonempty (fetch r).
Proof.
  intros Hr w. apply same_store_session_calm; [apply fetch_get_store, Hr|].
  apply (fetch_world r w).
Qed.

Lemma fetch_reloads_grow r : preserves reloads_grow (fetch r).
Proof. intros w. destruct (fetch_same_bookkeeping r w) as (_ & E & _). unfold reloads_grow. lia. Qed.

#[local] Hint Extern 1 (preserves calm_if_nonempty (fetch _)) =>
  apply fetch_calm_if_nonempty; reflexivity : pres.
#[local] Hint Resolve fetch_reloads_grow : pres.

Ltac modify_step ::=
  lazymatch goal with
  | |- preserves _ (modify _) =>
      let w := fresh "w" in
      intros w; unfold exec, modify; cbn [snd];
      first [apply same_session_only_deletes | apply same_session_only_sets_added
            | apply same_traffic_sends_no_add | apply same_traffic_no_more_fee_lines
            | apply same_traffic_keeps_one_fee_line | apply same_traffic_quiet_if_nonempty
            | apply same_traffic_quiet_if_no_fee | apply same_traffic_stays_healthy
            | apply same_boxes_keeps_unchecked | apply same_store_session_calm
            | apply reloads_grow_intro | idtac];
      repeat split; first [reflexivity | cbn; lia]
  end.

Lemma getCart_calm_if_nonempty : preserves calm_if_nonempty getCart.
Proof. unfold getCart. pres. Qed.
#[local] Hint Resolve getCart_calm_if_nonempty : pres.

Lemma checkEmptyCart_calm_if_nonempty : preserves calm_if_nonempty checkEmptyCart.
Proof.
  intros w Hw. unfold exec, checkEmptyCart, bind. rewrite getCart_eq.
  destruct (served (network w)); cbn; [|auto].
  unfold subtotal_of in Hw. apply Z.eqb_neq in Hw. rewrite Hw. cbn. auto.
Qed.
#[local] Hint Resolve checkEmptyCart_calm_if_nonempty : pres.
Lemma CheckboxHandler_init_calm_if_nonempty : preserves calm_if_nonempty CheckboxHandler_init.
Proof. unfold CheckboxHandler_init. pres. Qed.
#[local] Hint Resolve CheckboxHandler_init_calm_if_nonempty : pres.
Lemma refreshCartUI_calm_if_nonempty : preserves calm_if_nonempty refreshCartUI.
Proof. unfold refreshCartUI. pres. Qed.
#[local] Hint Resolve refreshCartUI_calm_if_nonempty : pres.

Lemma getCart_reloads_grow : preserves reloads_grow getCart.
Proof. unfold getCart. pres. Qed.
#[local] Hint Resolve getCart_reloads_grow : pres.
Lemma removeFee_reloads_grow : preserves reloads_grow removeFee.
Proof. unfold removeFee. pres. Qed.
#[local] Hint Resolve removeFee_reloads_grow : pres.
Lemma checkEmptyCart_reloads_grow : preserves reloads_grow checkEmptyCart.
Proof. unfold checkEmptyCart. pres. Qed.
#[local] Hint Resolve checkEmptyCart_reloads_grow : pres.
Lemma CheckboxHandler_init_reloads_grow : preserves reloads_grow CheckboxHandler_init.
Proof. unfold CheckboxHandler_init. pres. Qed.
#[local] Hint Resolve CheckboxHandler_init_reloads_grow : pres.
Lemma refreshCartUI_reloads_grow : preserves reloads_grow refreshCartUI.
Proof. unfold refreshCartUI. pres. Qed.
#[local] Hint Resolve refreshCartUI_reloads_grow : pres.
Lemma addFee_reloads_grow f : preserves reloads_grow (addFee f).
Proof. unfold addFee. pres. Qed.
#[local] Hint Resolve addFee_reloads_grow : pres.

#[local] Instance same_loader_preorder : PreOrder same_loader.
Proof. split; unfold same_loader; [intros w|intros w1 w2 w3 ? ?]; congruence. Qed.

Lemma fetch_same_loader r : preserves same_loader (fetch r).
Proof.
  intros w. unfold exec, fetch.
  destruct (hd Served (network w)); cbn;
    try (destruct (serve r (store w)); cbn); reflexivity.
Qed.
#[local] Hint Resolve fetch_same_loader : pres.

Lemma getCart_same_loader : preserves same_loader getCart.
Proof. unfold getCart. pres. Qed.
#[local] Hint Resolve getCart_same_loader : pres.
Lemma removeFee_same_loader : preserves same_loader removeFee.
Proof. unfold removeFee. pres. Qed.
#[local] Hint Resolve removeFee_same_loader : pres.
Lemma checkEmptyCart_same_loader : preserves same_loader checkEmptyCart.
Proof. unfold checkEmptyCart. pres. Qed.
#[local] Hint Resolve checkEmptyCart_same_loader : pres.
Lemma CheckboxHandler_init_same_loader : preserves same_loader CheckboxHandler_init.
Proof. unfold CheckboxHandler_init. pres. Qed.
#[local] Hint Resolve CheckboxHandler_init_same_loader : pres.
Lemma refreshCartUI_same_loader : preserves same_loader refreshCartUI.
Proof. unfold refreshCartUI. pres. Qed.
#[local] Hint Resolve refreshCartUI_same_loader : pres.
Lemma addFee_same_loader f : preserves same_loader (addFee f).
Proof. unfold addFee. pres. Qed.
#[local] Hint Resolve addFee_same_loader : pres.

(** What [addFee] leaves when it is called with the fee of the cart:
    its add is the one request that changes the cart, and the storage
    is as before. *)
Lemma addFee_run f w :
  (subtotal_of (store w) = 0%Z -> (f <= 0)%Z) ->
  mutations (exec (addFee f) w) = mutations w ++ [POST_add PAYPAL_FEE_VARIANT_ID f]
  /\ sessionStorage (exec (addFee f) w) = sessionStorage w
  /\ (alerts (exec (addFee f) w) = alerts w
      \/ alerts (exec (addFee f) w) = alerts w ++ [MSG_OUT_OF_STOCK]).
Proof.
  intros Hf. unfold exec. rewrite addFee_eq. cbv zeta.
  set (r := POST_add PAYPAL_FEE_VARIANT_ID f).
  assert (Hsent : mutations (sent r w) = mutations w ++ [r]).
  { unfold mutations. cbn. rewrite List.filter_app. reflexivity. }
  assert (Hok : (0 < f)%Z -> forall w2 : World,
            w2 = set_traffic (store w ++ [fee_line f]) (requests w ++ [r]) (tl (network w)) w ->
            mutations (exec refreshCartUI w2) = mutations w ++ [r]
            /\ sessionStorage (exec refreshCartUI w2) = sessionStorage w
            /\ alerts (exec refreshCartUI w2) = alerts w).
  { intros Hpos w2 ->. set (w2 := set_traffic _ _ _ w).
    assert (Hsub : subtotal_of (store w2) <> 0%Z).
    { change (store w2) with (store w ++ [fee_line f]). rewrite subtotal_app.
      change (subtotal_of [fee_line f]) with 0%Z. rewrite Z.add_0_r. intros E. specialize (Hf E). lia. }
    destruct (refreshCartUI_quiet_if_nonempty w2 Hsub) as [_ ->].
    destruct (refreshCartUI_calm_if_nonempty w2 Hsub) as [_ ->].
    rewrite (refreshCartUI_same_alerts w2). repeat split. exact Hsent. }
  destruct (hd Served (network w)) as [| |d|]; cbn [fst snd].
  - destruct (Z.ltb_spec 0 f); cbn [fst snd]; [|rewrite Hsent; auto].
    destruct (Hok H _ eq_refl) as (-> & -> & ->). auto.
  - destruct (Z.ltb_spec 0 f); cbn [fst snd]; [|rewrite Hsent; auto].
    destruct (Hok H _ eq_refl) as (-> & -> & ->). auto.
  - destruct (includes _ d); [|rewrite Hsent; auto].
    split; [exact Hsent|]. split; [reflexivity|]. right. reflexivity.
  - rewrite Hsent. auto.
Qed.

(** X10.  When the read of the cart is served, the handler of the main and
    drawer checkboxes never reaches its error block, whatever the store
    answers to the change.  For a box that has been checked it stores
    the preference, clears SESSION_KEY_DECLINED and sends one add of
    calculateFee(subtotal), also when the cart already holds a fee
    line; for a box that has been unchecked it clears the preference and
    sends the removal of the first fee line, if there is one.  In both
    cases those are the only requests that change the cart, the page is
    asked to reload, the loader stays shown, and the only alert there
    can be is the out-of-stock alert of [addFee]. *)
Theorem handleCheckboxChange_served target w :
  served (network w) = true ->
  let w' := exec (handleCheckboxChange target) w in
  (if box_checked target w
   then mutations w' = mutations w
          ++ [POST_add PAYPAL_FEE_VARIANT_ID (calculateFee (subtotal_of (store w)))]
        /\ wants_fee w' = true
        /\ sessionStorage w' !! SESSION_KEY_DECLINED = None
   else mutations w' = mutations w
          ++ match findFeeLineItem {| items := store w |} with
             | Some fee => [POST_change_line (indexOf (store w) fee + 1) 0]
             | None => []
             end
        /\ wants_fee w' = false)
  /\ (S (reloads w) <= reloads w')%nat
  /\ loader w' = true
  /\ (alerts w' = alerts w \/ alerts w' = alerts w ++ [MSG_OUT_OF_STOCK]).
Proof.
  intros Hs. cbv zeta. unfold handleCheckboxChange.
  rewrite exec_getChecked.
  rewrite (exec_seq (setDisabled target true)) by apply returns_modify.
  rewrite (exec_seq showLoader) by apply returns_modify.
  set (w2 := exec showLoader (exec (setDisabled target true) w)).
  destruct (box_checked target w) eqn:Hbox.
  - rewrite (exec_seq (_ ;; _)) by rets.
    rewrite (exec_seq (dispatchEvent _)) by apply returns_modify.
    set (w3 := exec (dispatchEvent _) _).
    assert (Hn3 : served (network w3) = true) by exact Hs.
    set (d := calculateFee (subtotal_of (store w))).
    set (w4 := exec (addFee d) (sent GET_cart w3)).
    match goal with
    | |- context [try_catch ?m _] =>
        assert (Hbody : m w3 = (Some tt, set_reloads (S (reloads w4)) w4))
    end.
    { unfold bind. rewrite getCart_eq, Hn3. cbn [deref ret].
      change (calculateFee (getSubtotalWithoutFee {| items := store w3 |})) with d.
      pose proof (addFee_returns d (sent GET_cart w3)) as Hr. unfold result in Hr.
      unfold w4, exec.
      destruct (addFee d (sent GET_cart w3)) as [[b|] w5]; [reflexivity|].
      exfalso. apply Hr. reflexivity. }
    rewrite (exec_try_catch_returned _ _ _ _ _ Hbody).
    destruct (addFee_run d (sent GET_cart w3)) as (Hm & Hss & Ha).
    { change (store (sent GET_cart w3)) with (store w). intros E. unfold d. rewrite E.
      vm_compute. discriminate. }
    fold w4 in Hm, Hss, Ha.
    assert (Hl : loader w4 = true) by apply (addFee_same_loader d (sent GET_cart w3)).
    split; [split; [|split]|split; [|split]].
    + unfold mutations at 1. cbn [requests set_reloads]. fold (mutations w4).
      rewrite Hm. rewrite exec_GET_mutations by reflexivity.
      unfold mutations. cbn. reflexivity.
    + unfold wants_fee. cbn [sessionStorage set_reloads]. rewrite Hss. cbn.
      rewrite lookup_delete_ne by (vm_compute; discriminate).
      rewrite lookup_insert_eq. reflexivity.
    + cbn [sessionStorage set_reloads]. rewrite Hss. cbn. apply lookup_delete_eq.
    + cbn [reloads set_reloads].
      pose proof (addFee_reloads_grow d (sent GET_cart w3)) as Hg. unfold reloads_grow in Hg.
      fold w4 in Hg. cbn in Hg. lia.
    + exact Hl.
    + cbn [alerts set_reloads]. exact Ha.
  - rewrite (exec_seq (removeItem _)) by apply returns_modify.
    rewrite (exec_seq (dispatchEvent _)) by apply returns_modify.
    set (w3 := exec (dispatchEvent _) _).
    assert (Hn3 : served (network w3) = true) by exact Hs.
    set (w4 := exec removeFee w3).
    match goal with
    | |- context [try_catch ?m _] =>
        assert (Hbody : m w3 = (Some tt, set_reloads (S (reloads w4)) w4))
    end.
    { pose proof (removeFee_returns w3) as Hr. unfold result in Hr.
      unfold w4, exec, bind.
      destruct (removeFee w3) as [[b|] w5]; [reflexivity|].
      exfalso. apply Hr. reflexivity. }
    rewrite (exec_try_catch_returned _ _ _ _ _ Hbody).
    destruct (removeFee_run w3 Hn3) as [Hm _]. fold w4 in Hm.
    destruct (removeFee_same_bookkeeping w3) as (Ha & Hr & _). fold w4 in Ha, Hr.
    assert (Hss : sessionStorage w4 = sessionStorage w3).
    { unfold w4. rewrite (removeFee_world w3 Hn3).
      destruct (findFeeLineItem _); [|reflexivity]. apply (fetch_world _ (sent GET_cart w3)). }
    assert (Hl : loader w4 = true) by apply (removeFee_same_loader w3).
    split; [split|split; [|split]].
    + unfold mutations at 1. cbn [requests set_reloads]. fold (mutations w4).
      rewrite Hm. reflexivity.
    + unfold wants_fee. cbn [sessionStorage set_reloads]. rewrite Hss. cbn.
      rewrite lookup_delete_eq. reflexivity.
    + cbn [reloads set_reloads]. rewrite Hr. cbn. lia.
    + exact Hl.
    + left. cbn [alerts set_reloads]. rewrite Ha. reflexivity.
Qed.

Lemma handleCheckboxChange_served_witness :
  served (network (page [rifle; fee_line 35] true [Served; Refused "busy"])) = true
  /\ mutations (exec (handleCheckboxChange ID_MAIN)
                  (page [rifle; fee_line 35] true [Served; Refused "busy"]))
     = [POST_add PAYPAL_FEE_VARIANT_ID 35]
  /\ (1 <= reloads (exec (handleCheckboxChange ID_MAIN)
                      (page [rifle; fee_line 35] true [Served; Refused "busy"])))%nat.
Proof.
  destruct (handleCheckboxChange_served ID_MAIN
              (page [rifle; fee_line 35] true [Served; Refused "busy"])) as (H1 & H2 & _);
    [reflexivity|].
  split; [reflexivity|]. split; [exact (proj1 H1)|exact H2].
Defined.

(** X11.  CheckboxHandler.handleProductCheckboxChange stores what the product
    box shows: afterwards the preference is wants-fee exactly when the
    box is checked (SESSION_KEY_ADDED is set and SESSION_KEY_DECLINED
    removed when it is, SESSION_KEY_ADDED removed when it is not), the
    main and drawer boxes that are in the document show the same, and
    the product box is as it was.  It sends no request, asks for no
    reload and leaves the cart alone. *)
Theorem handleProductCheckboxChange_mirrors w :
  let c := box_checked ID_PRODUCT w in
  let w' := exec handleProductCheckboxChange w in
  wants_fee w' = c
  /\ sessionStorage w'
     = (if c then delete SESSION_KEY_DECLINED (<[SESSION_KEY_ADDED := "true"]> (sessionStorage w))
        else delete SESSION_KEY_ADDED (sessionStorage w))
  /\ box_checked ID_MAIN w' = box_present ID_MAIN w && c
  /\ box_checked ID_DRAWER w' = box_present ID_DRAWER w && c
  /\ box_checked ID_PRODUCT w' = c
  /\ requests w' = requests w /\ store w' = store w /\ reloads w' = reloads w.
Proof.
  cbv zeta. unfold handleProductCheckboxChange. rewrite exec_getChecked.
  set (c := box_checked ID_PRODUCT w).
  assert (Hboxes : forall (w0 : World) (id : string),
    box_checked id (exec (setChecked ID_MAIN c ;; setChecked ID_DRAWER c) w0)
    = if decide (id = ID_MAIN \/ id = ID_DRAWER) then box_present id w0 && c
      else box_checked id w0).
  { intros w0 id. unfold exec, setChecked, bind, modify. cbn.
    unfold box_checked, box_present. cbn. rewrite !lookup_alter.
    destruct (decide (id = ID_MAIN)) as [->|Hm].
    - destruct (decide (ID_DRAWER = ID_MAIN)) as [e|_]; [discriminate e|].
      destruct (decide (ID_MAIN = ID_MAIN)) as [_|n]; [|contradiction].
      destruct (decide (ID_MAIN = ID_MAIN \/ ID_MAIN = ID_DRAWER)) as [_|n];
        [|exfalso; apply n; auto].
      destruct (checkboxes w0 !! ID_MAIN); reflexivity.
    - destruct (decide (ID_MAIN = id)) as [e|_]; [congruence|].
      destruct (decide (id = ID_DRAWER)) as [->|Hd].
      + destruct (decide (ID_DRAWER = ID_DRAWER)) as [_|n]; [|contradiction].
        destruct (decide (ID_DRAWER = ID_MAIN \/ ID_DRAWER = ID_DRAWER)) as [_|n];
          [|exfalso; apply n; auto].
        destruct (checkboxes w0 !! ID_DRAWER); reflexivity.
      + destruct (decide (ID_DRAWER = id)) as [e|_]; [congruence|].
        destruct (decide (id = ID_MAIN \/ id = ID_DRAWER)) as [[e|e]|_]; [congruence|congruence|].
        reflexivity. }
  assert (Hin : forall (id : string) (b1 b2 : bool), id = ID_MAIN \/ id = ID_DRAWER ->
            (if decide (id = ID_MAIN \/ id = ID_DRAWER) then b1 else b2) = b1).
  { intros id b1 b2 H. destruct (decide _); [reflexivity|contradiction]. }
  assert (Hout : forall b1 b2 : bool,
            (if decide (ID_PRODUCT = ID_MAIN \/ ID_PRODUCT = ID_DRAWER) then b1 else b2) = b2).
  { intros b1 b2. destruct (decide _) as [[e|e]|_]; [discriminate e|discriminate e|reflexivity]. }
  destruct c eqn:Hc.
  - rewrite (exec_seq (_ ;; _)) by rets.
    set (w1 := exec (setItem _ _ ;; removeItem _) w).
    rewrite !Hboxes, !Hin, Hout by auto.
    split; [|split; [|split; [|split; [|split; [|repeat split]]]]].
    + unfold wants_fee, exec, setChecked, bind, modify. cbn.
      rewrite lookup_delete_ne by (vm_compute; discriminate).
      rewrite lookup_insert_eq. reflexivity.
    + reflexivity.
    + reflexivity.
    + reflexivity.
    + exact Hc.
  - rewrite (exec_seq (removeItem _)) by apply returns_modify.
    set (w1 := exec (removeItem _) w).
    rewrite !Hboxes, !Hin, Hout by auto.
    split; [|split; [|split; [|split; [|split; [|repeat split]]]]].
    + unfold wants_fee, exec, setChecked, bind, modify. cbn.
      rewrite lookup_delete_eq. reflexivity.
    + reflexivity.
    + reflexivity.
    + reflexivity.
    + exact Hc.
Qed.

(** ** CheckboxHandler.init *)

#[local] Instance same_boxes_preorder : PreOrder same_boxes.
Proof. split; unfold same_boxes; [intros w|intros w1 w2 w3 ? ?]; congruence. Qed.

Lemma fetch_same_boxes r : preserves same_boxes (fetch r).
Proof. intros w. apply fetch_same_dom. Qed.
#[local] Hint Resolve fetch_same_boxes : pres.
Lemma getCart_same_boxes : preserves same_boxes getCart.
Proof. unfold getCart. pres. Qed.
#[local] Hint Resolve getCart_same_boxes : pres.
Lemma removeFee_same_boxes : preserves same_boxes removeFee.
Proof. unfold removeFee. pres. Qed.
#[local] Hint Resolve removeFee_same_boxes : pres.

(** The world in which CheckboxHandler.init starts [checkEmptyCart]. *)
Lemma CheckboxHandler_init_world w :
  exec CheckboxHandler_init w
  = exec checkEmptyCart
      (set_listeners (S (recalcListeners w)) (cartUpdatedListeners w)
         (set_checkboxes
            (alter (synced (wants_fee w)) ID_PRODUCT
               (alter (synced (wants_fee w)) ID_DRAWER
                  (alter (synced (wants_fee w)) ID_MAIN (checkboxes w)))) w)).
Proof.
  unfold CheckboxHandler_init.
  rewrite (exec_seq (syncCheckbox ID_MAIN)) by apply syncCheckbox_returns.
  rewrite (exec_seq (syncCheckbox ID_DRAWER)) by apply syncCheckbox_returns.
  rewrite (exec_seq (syncCheckbox ID_PRODUCT)) by apply syncCheckbox_returns.
  rewrite (exec_seq (modify _)) by apply returns_modify.
  reflexivity.
Qed.

Lemma box_checked_synced v id w :
  id = ID_MAIN \/ id = ID_DRAWER \/ id = ID_PRODUCT ->
  match alter (synced v) ID_PRODUCT
          (alter (synced v) ID_DRAWER (alter (synced v) ID_MAIN (checkboxes w))) !! id with
  | Some c => checked c
  | None => false
  end = box_present id w && v.
Proof.
  unfold box_present. intros H. rewrite !lookup_alter.
  assert (Hp : match synced v <$> checkboxes w !! id with
               | Some c => checked c | None => false end
               = bool_decide (is_Some (checkboxes w !! id)) && v).
  { destruct (checkboxes w !! id); reflexivity. }
  destruct H as [-> | [-> | ->] ].
  - destruct (decide (ID_PRODUCT = ID_MAIN)) as [e|_]; [discriminate e|].
    destruct (decide (ID_DRAWER = ID_MAIN)) as [e|_]; [discriminate e|].
    destruct (decide (ID_MAIN = ID_MAIN)) as [_|n]; [exact Hp|contradiction].
  - destruct (decide (ID_PRODUCT = ID_DRAWER)) as [e|_]; [discriminate e|].
    destruct (decide (ID_DRAWER = ID_DRAWER)) as [_|n]; [|contradiction].
    destruct (decide (ID_MAIN = ID_DRAWER)) as [e|_]; [discriminate e|].
    exact Hp.
  - destruct (decide (ID_PRODUCT = ID_PRODUCT)) as [_|n]; [|contradiction].
    destruct (decide (ID_DRAWER = ID_PRODUCT)) as [e|_]; [discriminate e|].
    destruct (decide (ID_MAIN = ID_PRODUCT)) as [e|_]; [discriminate e|].
    destruct (checkboxes w !! ID_PRODUCT); cbn in *; exact Hp.
Qed.

Lemma checkEmptyCart_nonempty w :
  served (network w) && (subtotal_of (store w) =? 0)%Z = false ->
  exec checkEmptyCart w = sent GET_cart w.
Proof.
  intros H. unfold exec, checkEmptyCart, bind. rewrite getCart_eq.
  destruct (served (network w)); [|reflexivity]. cbn in H.
  unfold subtotal_of in H. cbn [items]. rewrite H. reflexivity.
Qed.

(** X12.  CheckboxHandler.init shows the stored preference: unless the cart
    could be read and has subtotal 0, each of the main, drawer and
    product boxes that is in the document is afterwards checked exactly
    when the preference is wants-fee, and the storage and the cart are
    as before.  When the cart could be read and has subtotal 0, the
    preference is cleared and the main and drawer boxes are unchecked,
    while the product box still shows the preference that was
    stored. *)
Theorem CheckboxHandler_init_shows_preference w id :
  id = ID_MAIN \/ id = ID_DRAWER \/ id = ID_PRODUCT ->
  let w' := exec CheckboxHandler_init w in
  if served (network w) && (subtotal_of (store w) =? 0)%Z
  then wants_fee w' = false
       /\ box_checked ID_MAIN w' = false /\ box_checked ID_DRAWER w' = false
       /\ box_checked ID_PRODUCT w' = box_present ID_PRODUCT w && wants_fee w
  else box_checked id w' = box_present id w && wants_fee w
       /\ sessionStorage w' = sessionStorage w /\ store w' = store w.
Proof.
  intros Hid. cbv zeta. rewrite CheckboxHandler_init_world.
  set (w4 := set_listeners _ _ _).
  assert (Hb : forall i, i = ID_MAIN \/ i = ID_DRAWER \/ i = ID_PRODUCT ->
            box_checked i w4 = box_present i w && wants_fee w).
  { intros i Hi. apply (box_checked_synced (wants_fee w) i w Hi). }
  change (network w) with (network w4). change (store w) with (store w4).
  destruct (served (network w4) && (subtotal_of (store w4) =? 0)%Z) eqn:Hz.
  - apply andb_prop in Hz as [Hs E0]. apply Z.eqb_eq in E0.
    rewrite (checkEmptyCart_empty w4 Hs E0).
    set (w5 := exec removeFee (sent GET_cart w4)).
    assert (Hb5 : checkboxes w5 = checkboxes w4) by apply (removeFee_same_boxes (sent GET_cart w4)).
    rewrite (exec_seq (setChecked _ _)) by apply returns_modify.
    rewrite (exec_seq (setChecked _ _)) by apply returns_modify.
    split; [|split; [|split]].
    + unfold wants_fee, exec, removeItem, modify. cbn. rewrite lookup_delete_eq. reflexivity.
    + change (box_checked ID_MAIN (exec (setChecked ID_DRAWER false)
                (exec (setChecked ID_MAIN false) w5)) = false).
      rewrite !box_checked_setChecked.
      destruct (decide (ID_DRAWER = ID_MAIN)) as [e|_]; [discriminate e|].
      destruct (decide (ID_MAIN = ID_MAIN)) as [_|n]; [|contradiction].
      destruct (checkboxes w5 !! ID_MAIN); reflexivity.
    + change (box_checked ID_DRAWER (exec (setChecked ID_DRAWER false)
                (exec (setChecked ID_MAIN false) w5)) = false).
      rewrite box_checked_setChecked.
      destruct (decide (ID_DRAWER = ID_DRAWER)) as [_|n]; [|contradiction].
      destruct (checkboxes _ !! ID_DRAWER); reflexivity.
    + change (box_checked ID_PRODUCT (exec (setChecked ID_DRAWER false)
                (exec (setChecked ID_MAIN false) w5)) = box_present ID_PRODUCT w && wants_fee w).
      rewrite !box_checked_setChecked.
      destruct (decide (ID_DRAWER = ID_PRODUCT)) as [e|_]; [discriminate e|].
      destruct (decide (ID_MAIN = ID_PRODUCT)) as [e|_]; [discriminate e|].
      unfold box_checked. rewrite Hb5. apply Hb. auto.
  - rewrite (checkEmptyCart_nonempty w4 Hz). split; [|split; reflexivity].
    apply (Hb id Hid).
Qed.

Lemma CheckboxHandler_init_shows_preference_witness :
  (ID_PRODUCT = ID_MAIN \/ ID_PRODUCT = ID_DRAWER \/ ID_PRODUCT = ID_PRODUCT)
  /\ wants_fee (exec CheckboxHandler_init (page [rifle] true [])) = true
  /\ box_checked ID_MAIN (exec CheckboxHandler_init (page [rifle] true [])) = true
  /\ wants_fee (exec CheckboxHandler_init (page [] true [])) = false
  /\ box_checked ID_MAIN (exec CheckboxHandler_init (page [] true [])) = false.
Proof.
  split; [auto|].
  pose proof (CheckboxHandler_init_shows_preference (page [rifle] true []) ID_MAIN
                ltac:(auto)) as H1.
  pose proof (CheckboxHandler_init_shows_preference (page [] true []) ID_PRODUCT
                ltac:(auto)) as H2.
  cbv zeta in H1, H2.
  split; [unfold wants_fee; rewrite (proj1 (proj2 H1)); reflexivity|].
  split; [exact (proj1 H1)|].
  split; [exact (proj1 H2)|exact (proj1 (proj2 H2))].
Defined.

(** ** The modal of RemoveFeeHandler *)

#[local] Instance modal_closes_preorder : PreOrder modal_closes.
Proof.
  split.
  - intros w. left. split; reflexivity.
  - intros w1 w2 w3 [(A1 & B1)|(A1 & B1)] [(A2 & B2)|(A2 & B2)]; unfold modal_closes, same_modal_state;
      first [left; split; congruence | right; split; congruence].
Qed.

Lemma same_modal_closes {A} (m : M A) :
  preserves same_modal_state m -> preserves modal_closes m.
Proof. intros H w. left. apply H. Qed.

Lemma closeConfirmModal_modal_closes : preserves modal_closes closeConfirmModal.
Proof.
  intros w. unfold exec, closeConfirmModal, bind, get, when. cbn.
  destruct (modalElement w); cbn; [right|left]; split; reflexivity.
Qed.

Lemma confirmRemoval_modal_closes : preserves modal_closes confirmRemoval.
Proof.
  intros w. rewrite confirmRemoval_world.
  etransitivity; [apply closeConfirmModal_modal_closes|].
  set (w1 := exec closeConfirmModal w). left.
  etransitivity; [apply removeFee_same_modal_state|].
  etransitivity; [|apply refreshCartUI_same_modal_state].
  split; reflexivity.
Qed.

Lemma react_modal_closes e : opens_modal e = false -> preserves modal_closes (react e).
Proof.
  destruct e; cbn [opens_modal react]; intros H; try discriminate;
    try (apply same_modal_closes; pres; fail).
  - apply closeConfirmModal_modal_closes.
  - apply closeConfirmModal_modal_closes.
  - intros w. unfold exec, onEscape, bind, get, when. cbn.
    destruct (modalActive w); [apply closeConfirmModal_modal_closes|left; split; reflexivity].
  - intros w. change (exec (confirmRemoval ;; ret tt) w) with (exec (bind confirmRemoval (fun _ => ret tt)) w).
    rewrite exec_then_ret. apply confirmRemoval_modal_closes.
Qed.

Lemma react_scroll_lock e w :
  modalActive w = overflowHidden w ->
  modalActive (exec (react e) w) = overflowHidden (exec (react e) w).
Proof.
  intros H. destruct (opens_modal e) eqn:Ho.
  - destruct e; try discriminate. unfold exec, react, handleRemoveClick, showConfirmModal,
      bind, get, when. cbn. destruct (modalElement w); cbn; [reflexivity|exact H].
  - destruct (react_modal_closes e Ho w) as [(A & B)|(A & B)]; congruence.
Qed.

(** X16.  The scroll of the page is locked exactly while the modal is open:
    if that holds before a sequence of events of the page, it holds
    after it. *)
Theorem scroll_locked_while_modal_open es w :
  modalActive w = overflowHidden w ->
  modalActive (run es w) = overflowHidden (run es w).
Proof.
  revert w. induction es as [|e es IH]; intros w H; [exact H|].
  cbn [run fold_left]. apply (IH (exec (react e) w)), react_scroll_lock, H.
Qed.

Lemma scroll_locked_while_modal_open_witness :
  modalActive (page [rifle; fee_line 35] true []) = overflowHidden (page [rifle; fee_line 35] true [])
  /\ modalActive (run [RemoveClicked; CartUpdated] (page [rifle; fee_line 35] true [])) = true
  /\ overflowHidden (run [RemoveClicked; CartUpdated] (page [rifle; fee_line 35] true [])) = true.
Proof.
  split; [reflexivity|].
  pose proof (scroll_locked_while_modal_open [RemoveClicked; CartUpdated]
                (page [rifle; fee_line 35] true []) eq_refl) as H.
  split; [vm_compute; reflexivity|]. rewrite <- H. vm_compute. reflexivity.
Defined.

(** X17.  Only a click on a remove control opens the modal: after any
    sequence of other events of the page (page load, checkbox changes,
    cart updates, the debounced task, add-to-cart, the buttons of the
    modal, Escape), a modal that was closed is closed. *)
Theorem modal_opens_only_on_remove_click es w :
  forallb (fun e => negb (opens_modal e)) es = true ->
  modalActive w = false ->
  modalActive (run es w) = false.
Proof.
  revert w. induction es as [|e es IH]; intros w Hes H; [exact H|].
  cbn [forallb] in Hes. apply andb_prop in Hes as [He Hes]. apply negb_true_iff in He.
  cbn [run fold_left]. apply (IH (exec (react e) w) Hes).
  destruct (react_modal_closes e He w) as [(A & B)|(A & B)]; congruence.
Qed.

Lemma modal_opens_only_on_remove_click_witness :
  forallb (fun e => negb (opens_modal e))
    [PageLoaded; CheckboxToggled ID_MAIN; CartUpdated; EscapePressed; ModalConfirmClicked] = true
  /\ modalActive (page [rifle] false []) = false
  /\ modalActive (run [PageLoaded; CheckboxToggled ID_MAIN; CartUpdated; EscapePressed;
                       ModalConfirmClicked] (page [rifle] false [])) = false.
Proof.
  split; [reflexivity|]. split; [reflexivity|].
  apply (modal_opens_only_on_remove_click
           [PageLoaded; CheckboxToggled ID_MAIN; CartUpdated; EscapePressed; ModalConfirmClicked]
           (page [rifle] false [])); reflexivity.
Defined.

(** ** What the script registers when the page loads *)

Lemma alignFee_returns : returns alignFee.
Proof. unfold alignFee. rets. Qed.

Lemma init_returns : returns init.
Proof.
  unfold init. apply returns_bind; [apply CheckboxHandler_init_returns|intros _].
  apply returns_bind; [apply returns_modify|intros _]. apply alignFee_returns.
Qed.

(** [init] registers one 'cart:updated' listener and at least one set
    of quantity listeners. *)
Lemma init_counts w :
  cartUpdatedListeners (exec init w) = S (cartUpdatedListeners w)
  /\ (S (recalcListeners w) <= recalcListeners (exec init w))%nat.
Proof.
  unfold init.
  rewrite (exec_seq CheckboxHandler_init) by apply CheckboxHandler_init_returns.
  destruct (CheckboxHandler_init_counts w) as (A & _ & _ & D).
  revert A D. generalize (exec CheckboxHandler_init w). intros w1 A D.
  rewrite (exec_seq (modify _)) by apply returns_modify.
  assert (E : forall w2 : World,
            w2 = set_listeners (recalcListeners w1) (S (cartUpdatedListeners w1)) w1 ->
            cartUpdatedListeners (exec alignFee w2) = S (cartUpdatedListeners w)
            /\ (S (recalcListeners w) <= recalcListeners (exec alignFee w2))%nat).
  { intros w2 E2. destruct (alignFee_listeners_grow w2) as (G1 & G2).
    rewrite G2. rewrite E2 in G1 |- *. cbn [cartUpdatedListeners recalcListeners set_listeners] in *.
    split; [congruence|lia]. }
  apply E. reflexivity.
Qed.

(** X14.  The script runs [init] twice on a loaded page, once by itself and
    once from [initializeAll]: after the script, two more 'cart:updated'
    listeners are registered, and at least two more sets of quantity
    listeners, so that every 'cart:updated' event is handled twice and
    every quantity event calls [scheduleRecalc] at least twice. *)
Theorem pageScript_registers_twice w :
  cartUpdatedListeners (exec pageScript w) = S (S (cartUpdatedListeners w))
  /\ (S (S (recalcListeners w)) <= recalcListeners (exec pageScript w))%nat.
Proof.
  unfold pageScript.
  rewrite (exec_seq syncCheckboxFromStorage) by (unfold syncCheckboxFromStorage; rets).
  assert (H1 : cartUpdatedListeners (exec syncCheckboxFromStorage w) = cartUpdatedListeners w
               /\ recalcListeners (exec syncCheckboxFromStorage w) = recalcListeners w).
  { unfold exec, syncCheckboxFromStorage, bind. rewrite userWantsFee_eq.
    destruct (wants_fee w); cbn; auto. }
  revert H1. generalize (exec syncCheckboxFromStorage w). intros w1 (C1 & D1).
  rewrite (exec_seq init) by apply init_returns.
  destruct (init_counts w1) as (A2 & B2).
  revert A2 B2. generalize (exec init w1). intros w2 A2 B2.
  rewrite (exec_seq createModal) by apply returns_modify.
  assert (H3 : cartUpdatedListeners (exec createModal w2) = cartUpdatedListeners w2
               /\ recalcListeners (exec createModal w2) = recalcListeners w2)
    by (split; reflexivity).
  revert H3. generalize (exec createModal w2). intros w3 (C3 & D3).
  destruct (init_counts w3) as (A3 & B3).
  split; [congruence|lia].
Qed.

(** ** The debounce over pauses of any length *)

Module DebounceGroups.
Import Debounce DebounceFacts.

(** The pauses of a series of changes that are long enough for the
    delayed task to run. *)
Lemma changes_tail more : forall s id,
  (0 < recalcListeners (world s))%nat ->
  let sts := flat_map (fun '(gap, edit) => [Wait gap; Quantity edit]) more in
  exists id' s',
    steps sts (armed id s) = armed id' s'
    /\ (0 < recalcListeners (world s'))%nat
    /\ length (fired s')
       = (length (fired s) + length (List.filter (fun p => (QUIESCENCE <=? fst p)%nat) more))%nat
    /\ Forall (fun s' => (length (timers s') <= 1)%nat) (trace sts (armed id s)).
Proof.
  induction more as [|[gap edit] more IH]; intros s id Hk; cbn zeta.
  - exists id, s. cbn. repeat split; [exact Hk|lia|constructor].
  - cbn [flat_map app steps fold_left trace step List.filter fst].
    destruct (Nat.leb_spec QUIESCENCE gap) as [Hge|Hlt].
    + rewrite (elapse_after id (now s + QUIESCENCE) (armed id s) gap)
        by (cbn; first [reflexivity|lia]).
      cbn [world now _recalcTimer timers nextTimer fired armed].
      assert (Hk' : (0 < recalcListeners (exec recalcTask (world s)))%nat).
      { destruct (recalcTask_listeners_grow (world s)) as [G _]. lia. }
      rewrite quantityEvent_armed by (cbn; first [reflexivity|exact Hk']).
      cbn [world now _recalcTimer timers nextTimer fired recalcListeners set_store].
      set (s1 := {| world := set_store (edit (store (exec recalcTask (world s))))
                               (exec recalcTask (world s));
                    now := now s + gap; _recalcTimer := Some id; timers := [];
                    nextTimer := S id; fired := fired s ++ [now s + QUIESCENCE] |}).
      set (id1 := (S id + Nat.pred (recalcListeners (exec recalcTask (world s))))%nat).
      destruct (IH s1 id1) as (id' & s' & Hst & Hk2 & Hf & Htr); [exact Hk'|].
      exists id', s'. split; [exact Hst|]. split; [exact Hk2|]. split.
      * rewrite Hf. unfold s1. cbn [fired length]. rewrite length_app. cbn [length]. lia.
      * constructor; [cbn; lia|]. constructor; [cbn; lia|]. exact Htr.
    + rewrite (elapse_before id (now s + QUIESCENCE) (armed id s) gap)
        by (cbn; first [reflexivity|lia]).
      cbn [world now _recalcTimer timers nextTimer fired armed].
      rewrite quantityEvent_armed by (cbn; first [apply Nat.eqb_refl|exact Hk]).
      cbn [world now _recalcTimer timers nextTimer fired recalcListeners set_store].
      set (s1 := {| world := set_store (edit (store (world s))) (world s); now := now s + gap;
                    _recalcTimer := Some id; timers := [(id, now s + QUIESCENCE)];
                    nextTimer := S id; fired := fired s |}).
      set (id1 := (S id + Nat.pred (recalcListeners (world s)))%nat).
      destruct (IH s1 id1) as (id' & s' & Hst & Hk2 & Hf & Htr); [exact Hk|].
      exists id', s'. split; [exact Hst|]. split; [exact Hk2|]. split.
      * rewrite Hf. reflexivity.
      * constructor; [cbn; lia|]. constructor; [cbn; lia|]. exact Htr.
Qed.

End DebounceGroups.

(** X15.  The debounce, for changes at any distance: on a page with at least
    one listener set and no stray timeout, a first quantity change and
    further ones, each after a pause of any length, followed by at least
    600 ms of quiet: the delayed task runs once for the end of the
    series and once for every pause of 600 ms or more inside it, and not
    more; after every step at most one timeout is pending, and none at
    the end. *)
Theorem debounce_runs_once_per_pause s first more idle :
  Debounce.settled s = true ->
  (0 < recalcListeners (Debounce.world s))%nat ->
  (Debounce.QUIESCENCE <= idle)%nat ->
  let sts := Debounce.burst first more ++ [Debounce.Wait idle] in
  length (Debounce.fired (Debounce.steps sts s))
  = (length (Debounce.fired s) + 1
     + length (List.filter (fun p => (Debounce.QUIESCENCE <=? fst p)%nat) more))%nat
  /\ Debounce.timers (Debounce.steps sts s) = []
  /\ Forall (fun s' => (length (Debounce.timers s') <= 1)%nat) (Debounce.trace sts s).
Proof.
  intros Hs Hk Hidle sts. unfold sts, Debounce.burst.
  set (tail := flat_map (fun '(gap, edit) => [Debounce.Wait gap; Debounce.Quantity edit]) more).
  set (s0 := {| Debounce.world := set_store (first (store (Debounce.world s))) (Debounce.world s);
                Debounce.now := Debounce.now s;
                Debounce._recalcTimer := Debounce._recalcTimer s;
                Debounce.timers := Debounce.timers s;
                Debounce.nextTimer := Debounce.nextTimer s;
                Debounce.fired := Debounce.fired s |}).
  assert (H0 : Debounce.step s (Debounce.Quantity first)
               = Debounce.armed
                   (Debounce.nextTimer s + Nat.pred (recalcListeners (Debounce.world s))) s0).
  { cbn [Debounce.step]. fold s0.
    rewrite DebounceFacts.quantityEvent_armed; [reflexivity|exact Hs|exact Hk]. }
  destruct (DebounceGroups.changes_tail more s0
              (Debounce.nextTimer s + Nat.pred (recalcListeners (Debounce.world s))))
    as (id' & s' & Hst & Hk' & Hf & Htr); [exact Hk|]. fold tail in Hst, Htr.
  set (s2 := Debounce.armed id' s') in *.
  assert (Hlast : Debounce.step s2 (Debounce.Wait idle)
      = {| Debounce.world := exec recalcTask (Debounce.world s2);
           Debounce.now := Debounce.now s2 + idle;
           Debounce._recalcTimer := Debounce._recalcTimer s2;
           Debounce.timers := []; Debounce.nextTimer := Debounce.nextTimer s2;
           Debounce.fired := Debounce.fired s2 ++ [Debounce.now s2 + Debounce.QUIESCENCE] |}).
  { cbn [Debounce.step].
    apply (DebounceFacts.elapse_after id' (Debounce.now s2 + Debounce.QUIESCENCE));
      [reflexivity|lia]. }
  assert (Hsteps : Debounce.steps ((Debounce.Quantity first :: tail) ++ [Debounce.Wait idle]) s
                   = Debounce.step s2 (Debounce.Wait idle)).
  { unfold Debounce.steps. rewrite fold_left_app. cbn [fold_left]. rewrite H0.
    fold (Debounce.steps tail (Debounce.armed
            (Debounce.nextTimer s + Nat.pred (recalcListeners (Debounce.world s))) s0)).
    rewrite Hst. reflexivity. }
  assert (Htrace : forall l a x, Debounce.trace (l ++ [a]) x
                     = Debounce.trace l x ++ [Debounce.step (Debounce.steps l x) a]).
  { induction l as [|b l IHl]; intros a x; cbn; [reflexivity|]. rewrite IHl. reflexivity. }
  split; [|split].
  - rewrite Hsteps, Hlast. cbn [Debounce.fired]. rewrite length_app.
    change (Debounce.fired s2) with (Debounce.fired s'). rewrite Hf. cbn. lia.
  - rewrite Hsteps, Hlast. reflexivity.
  - rewrite Htrace. apply Forall_app. split.
    + cbn [Debounce.trace]. rewrite H0. constructor; [cbn; lia|exact Htr].
    + constructor; [|constructor].
      change (Debounce.steps (Debounce.Quantity first :: tail) s)
        with (Debounce.steps tail (Debounce.step s (Debounce.Quantity first))).
      rewrite H0, Hst, Hlast. cbn. lia.
Qed.

Lemma debounce_runs_once_per_pause_witness :
  length (Debounce.fired
    (Debounce.steps
       (Debounce.burst (map (with_quantity 2))
          [(100, map (with_quantity 3)); (700, map (with_quantity 4)); (50, map (with_quantity 5))]
        ++ [Debounce.Wait 600])
       {| Debounce.world := page [rifle] true []; Debounce.now := 1000;
          Debounce._recalcTimer := None; Debounce.timers := []; Debounce.nextTimer := 7;
          Debounce.fired := [] |}))
  = 2%nat.
Proof.
  destruct (debounce_runs_once_per_pause
    {| Debounce.world := page [rifle] true []; Debounce.now := 1000;
       Debounce._recalcTimer := None; Debounce.timers := []; Debounce.nextTimer := 7;
       Debounce.fired := [] |}
    (map (with_quantity 2))
    [(100, map (with_quantity 3)); (700, map (with_quantity 4)); (50, map (with_quantity 5))] 600)
    as (H & _).
  - reflexivity.
  - unfold page. cbn. lia.
  - unfold Debounce.QUIESCENCE. lia.
  - exact H.
Defined.

(** ** The gate of the debounced task *)

Lemma gate_eq w :
  bool_decide (is_Some (findFeeLineItem {| items := store w |})) || wants_fee w
  = wants_fee w || (0 <? fee_lines (store w))%nat.
Proof.
  unfold findFeeLineItem. cbn [items]. destruct (find is_fee (store w)) as [fee|] eqn:Ef.
  - apply fee_lines_find_some in Ef. apply Nat.ltb_lt in Ef. rewrite Ef.
    rewrite bool_decide_eq_true_2 by eauto. rewrite orb_true_r. reflexivity.
  - apply find_fee_none in Ef. rewrite Ef. cbn.
    rewrite orb_false_r. reflexivity.
Qed.

(** ** The pass after a burst of quantity changes *)

#[local] Instance requests_grow_preorder : PreOrder requests_grow.
Proof.
  split.
  - intros w. exists []. rewrite app_nil_r. reflexivity.
  - intros w1 w2 w3 [l1 E1] [l2 E2]. exists (l1 ++ l2). rewrite E2, E1, app_assoc. reflexivity.
Qed.

Lemma requests_same_grow w w' : requests w' = requests w -> requests_grow w w'.
Proof. intros E. exists []. rewrite app_nil_r. exact E. Qed.

Lemma fetch_requests_grow r : preserves requests_grow (fetch r).
Proof. intros w. exists [r]. apply (fetch_world r w). Qed.
#[local] Hint Resolve fetch_requests_grow : pres.

Ltac modify_step ::=
  lazymatch goal with
  | |- preserves _ (modify _) =>
      let w := fresh "w" in
      intros w; unfold exec, modify; cbn [snd];
      first [apply same_session_only_deletes | apply same_session_only_sets_added
            | apply same_traffic_sends_no_add | apply same_traffic_no_more_fee_lines
            | apply same_traffic_keeps_one_fee_line | apply same_traffic_quiet_if_nonempty
            | apply same_traffic_quiet_if_no_fee | apply same_traffic_stays_healthy
            | apply same_boxes_keeps_unchecked | apply same_store_session_calm
            | apply reloads_grow_intro | apply requests_same_grow | idtac];
      repeat split; first [reflexivity | cbn; lia]
  end.

Ltac unfold_prims ::=
  progress unfold setChecked, setDisabled, showLoader, hideLoader, alert, dispatchEvent,
    reload, getItem, userWantsFee, getChecked, syncCheckbox, createModal,
    showConfirmModal, closeConfirmModal, onEscape, handleRemoveClick, toggle,
    syncCheckboxFromStorage, addFee_not_ok, setItem, removeItem.

Lemma getCart_requests_grow : preserves requests_grow getCart.
Proof. unfold getCart. pres. Qed.
#[local] Hint Resolve getCart_requests_grow : pres.
Lemma removeFee_requests_grow : preserves requests_grow removeFee.
Proof. unfold removeFee. pres. Qed.
#[local] Hint Resolve removeFee_requests_grow : pres.
Lemma checkEmptyCart_requests_grow : preserves requests_grow checkEmptyCart.
Proof. unfold checkEmptyCart. pres. Qed.
#[local] Hint Resolve checkEmptyCart_requests_grow : pres.
Lemma CheckboxHandler_init_requests_grow : preserves requests_grow CheckboxHandler_init.
Proof. unfold CheckboxHandler_init. pres. Qed.
#[local] Hint Resolve CheckboxHandler_init_requests_grow : pres.
Lemma refreshCartUI_requests_grow : preserves requests_grow refreshCartUI.
Proof. unfold refreshCartUI. pres. Qed.
#[local] Hint Resolve refreshCartUI_requests_grow : pres.
Lemma setFeeQuantity_requests_grow k q : preserves requests_grow (setFeeQuantity k q).
Proof. unfold setFeeQuantity. pres. Qed.
#[local] Hint Resolve setFeeQuantity_requests_grow : pres.
Lemma addFee_requests_grow f : preserves requests_grow (addFee f).
Proof. unfold addFee. pres. Qed.
#[local] Hint Resolve addFee_requests_grow : pres.
Lemma updateFee_requests_grow : preserves requests_grow updateFee.
Proof. unfold updateFee. pres. Qed.
#[local] Hint Resolve updateFee_requests_grow : pres.

(** The world the debounced task leaves, from the branch it takes. *)
Lemma recalcTask_world w :
  exec recalcTask w
  = if served (network w) && (wants_fee w || (0 <? fee_lines (store w))%nat)
    then exec refreshCartUI (exec updateFee (sent GET_cart w))
    else sent GET_cart w.
Proof.
  unfold recalcTask, exec at 1, bind at 1. rewrite getCart_eq.
  destruct (served (network w)); [|reflexivity]. cbn [andb].
  unfold bind at 1. rewrite userWantsFee_eq.
  change (wants_fee (sent GET_cart w)) with (wants_fee w).
  rewrite gate_eq. destruct (wants_fee w || (0 <? fee_lines (store w))%nat); [|reflexivity].
  cbn [when].
  change (snd ((updateFee ;; refreshCartUI) (sent GET_cart w)))
    with (exec (updateFee ;; refreshCartUI) (sent GET_cart w)).
  apply exec_seq, updateFee_returns.
Qed.

(** The debounced task begins by reading the cart. *)
Lemma recalcTask_reads_first w :
  exists rest, requests (exec recalcTask w) = requests w ++ GET_cart :: rest.
Proof.
  rewrite recalcTask_world.
  destruct (_ && _); [|exists []; reflexivity].
  destruct (updateFee_requests_grow (sent GET_cart w)) as [l1 E1].
  destruct (refreshCartUI_requests_grow (exec updateFee (sent GET_cart w))) as [l2 E2].
  exists (l1 ++ l2). rewrite E2, E1. cbn [requests sent set_traffic].
  rewrite <- !app_assoc. reflexivity.
Qed.

(** The requests by which the debounced task changes the cart, and the
    cart it leaves, on a network that serves every request. *)
Lemma recalcTask_run w :
  wf_cart (store w) = true -> network w = [] ->
  mutations (exec recalcTask w)
  = mutations w ++ (if wants_fee w || (0 <? fee_lines (store w))%nat
                    then option_list (reconcile (store w)) else [])
  /\ store (exec recalcTask w)
     = (if wants_fee w || (0 <? fee_lines (store w))%nat
        then applied (reconcile (store w)) (store w)
        else store w).
Proof.
  intros Hwf Hn. rewrite recalcTask_world, Hn. cbn [served hd andb].
  set (w1 := sent GET_cart w).
  assert (Hm1 : mutations w1 = mutations w) by (apply exec_GET_mutations; reflexivity).
  destruct (wants_fee w || (0 <? fee_lines (store w))%nat).
  2: { rewrite app_nil_r. auto. }
  assert (Hn1 : network w1 = []) by (cbn; rewrite Hn; reflexivity).
  destruct (wf_cart_facts _ Hwf) as (Hnd & _).
  destruct (updateFee_run w1) as [Hmu _];
    [rewrite Hn1; reflexivity|intros _; cbn; rewrite Hn; reflexivity|exact Hnd|].
  pose proof (updateFee_store w1 Hwf Hn1) as Hst.
  change (store w1) with (store w) in Hst, Hmu. rewrite Hm1 in Hmu.
  destruct (applied_reconcile_aligned (store w) Hwf) as (_ & Hsub & Hal).
  rewrite <- Hst in Hsub, Hal. rewrite <- Hst, <- Hmu.
  revert Hsub Hal. generalize (exec updateFee w1). intros w2 Hsub Hal.
  destruct (Z.eqb_spec (subtotal_of (store w)) 0) as [E0|E0].
  - destruct (refreshCartUI_quiet_if_no_fee w2 Hal) as [A B]. auto.
  - destruct (refreshCartUI_quiet_if_nonempty w2) as [A B]; [rewrite Hsub; exact E0|]. auto.
Qed.

(** C7.  A burst of quantity changes, each less than 600 ms after the one
    before, on a page with at least one listener set and no stray
    timeout, followed by at least 600 ms of quiet.  After every step at
    most one timeout is pending: each change has cancelled the timeout
    of the one before.  While the burst lasts the script sends nothing;
    the delayed task runs exactly once, 600 ms after the last change,
    and what it runs is one pass of the debounced task, on the cart as
    the last change left it: its first request is the read of the
    cart, sent after the last change.  On a network that serves every
    request and a cart as the store hands it out, the pass sends the
    one request that [updateFee] decides on for that cart (when the
    user wants the fee or the cart holds a fee line, and none
    otherwise), and the cart ends as that request leaves it. *)
Theorem debounce_collapses_burst s first more idle :
  Debounce.settled s = true ->
  (0 < recalcListeners (Debounce.world s))%nat ->
  Forall (fun p => (fst p < Debounce.QUIESCENCE)%nat) more ->
  (Debounce.QUIESCENCE <= idle)%nat ->
  let sts := Debounce.burst first more ++ [Debounce.Wait idle] in
  let last := Debounce.edited first more (store (Debounce.world s)) in
  let gate := wants_fee (Debounce.world s) || (0 <? fee_lines last)%nat in
  Forall (fun s' => (length (Debounce.timers s') <= 1)%nat) (Debounce.trace sts s)
  /\ Debounce.timers (Debounce.steps sts s) = []
  /\ Debounce.fired (Debounce.steps sts s)
     = Debounce.fired s ++ [Debounce.now s + Debounce.gaps more + Debounce.QUIESCENCE]
  /\ Debounce.world (Debounce.steps (Debounce.burst first more) s)
     = set_store last (Debounce.world s)
  /\ Debounce.world (Debounce.steps sts s)
     = exec recalcTask (set_store last (Debounce.world s))
  /\ (exists rest, requests (Debounce.world (Debounce.steps sts s))
                   = requests (Debounce.world s) ++ GET_cart :: rest)
  /\ (network (Debounce.world s) = [] -> wf_cart last = true ->
      mutations (Debounce.world (Debounce.steps sts s))
      = mutations (Debounce.world s) ++ (if gate then option_list (reconcile last) else [])
      /\ store (Debounce.world (Debounce.steps sts s))
         = (if gate then applied (reconcile last) last else last)).
Proof.
  intros Hs Hk Hg Hidle sts last gate. unfold sts, Debounce.burst.
  set (tail := flat_map (fun '(gap, edit) => [Debounce.Wait gap; Debounce.Quantity edit]) more).
  set (s0 := {| Debounce.world := set_store (first (store (Debounce.world s))) (Debounce.world s);
                Debounce.now := Debounce.now s;
                Debounce._recalcTimer := Debounce._recalcTimer s;
                Debounce.timers := Debounce.timers s;
                Debounce.nextTimer := Debounce.nextTimer s;
                Debounce.fired := Debounce.fired s |}).
  assert (H0 : Debounce.step s (Debounce.Quantity first)
               = Debounce.armed
                   (Debounce.nextTimer s + Nat.pred (recalcListeners (Debounce.world s))) s0).
  { cbn [Debounce.step]. fold s0.
    rewrite DebounceFacts.quantityEvent_armed; [reflexivity|exact Hs|exact Hk]. }
  destruct (DebounceFacts.burst_tail more s0
              (Debounce.nextTimer s + Nat.pred (recalcListeners (Debounce.world s))))
    as (id' & Hst & Htr); [exact Hk|exact Hg|]. fold tail in Hst, Htr.
  cbn [s0 Debounce.world Debounce.now Debounce._recalcTimer Debounce.timers
       Debounce.nextTimer Debounce.fired store set_store] in Hst.
  set (s2 := Debounce.armed id' _) in Hst.
  assert (Hw2 : Debounce.world s2 = set_store last (Debounce.world s)) by reflexivity.
  assert (Hlast : Debounce.step s2 (Debounce.Wait idle)
      = {| Debounce.world := exec recalcTask (Debounce.world s2);
           Debounce.now := Debounce.now s2 + idle;
           Debounce._recalcTimer := Debounce._recalcTimer s2;
           Debounce.timers := []; Debounce.nextTimer := Debounce.nextTimer s2;
           Debounce.fired := Debounce.fired s2 ++ [Debounce.now s2 + Debounce.QUIESCENCE] |}).
  { cbn [Debounce.step].
    apply (DebounceFacts.elapse_after id' (Debounce.now s2 + Debounce.QUIESCENCE));
      [reflexivity|lia]. }
  assert (Hburst : Debounce.steps (Debounce.Quantity first :: tail) s = s2).
  { change (Debounce.steps (Debounce.Quantity first :: tail) s)
      with (Debounce.steps tail (Debounce.step s (Debounce.Quantity first))).
    rewrite H0. exact Hst. }
  assert (Hsteps : Debounce.steps ((Debounce.Quantity first :: tail) ++ [Debounce.Wait idle]) s
                   = Debounce.step s2 (Debounce.Wait idle)).
  { unfold Debounce.steps. rewrite fold_left_app.
    change (fold_left Debounce.step (Debounce.Quantity first :: tail) s)
      with (Debounce.steps (Debounce.Quantity first :: tail) s).
    rewrite Hburst. reflexivity. }
  assert (Htrace : forall l a x, Debounce.trace (l ++ [a]) x
                     = Debounce.trace l x ++ [Debounce.step (Debounce.steps l x) a]).
  { induction l as [|b l IHl]; intros a x; cbn; [reflexivity|]. rewrite IHl. reflexivity. }
  split.
  { rewrite Htrace. apply Forall_app. split.
    - cbn [Debounce.trace]. rewrite H0. constructor; [cbn; lia|exact Htr].
    - constructor; [|constructor].
      change (Debounce.steps (Debounce.Quantity first :: tail) s)
        with (Debounce.steps tail (Debounce.step s (Debounce.Quantity first))).
      rewrite H0, Hst, Hlast. cbn. lia. }
  rewrite Hsteps, Hlast, Hburst. cbn [Debounce.world Debounce.timers Debounce.fired].
  rewrite Hw2.
  split; [reflexivity|]. split; [reflexivity|]. split; [reflexivity|]. split; [reflexivity|].
  split.
  - apply (recalcTask_reads_first (set_store last (Debounce.world s))).
  - intros Hn Hwf.
    apply (recalcTask_run (set_store last (Debounce.world s))); [exact Hwf|exact Hn].
Qed.

Lemma debounce_collapses_burst_witness :
  Debounce.fired
    (Debounce.steps
       (Debounce.burst (map (with_quantity 2)) [(100, map (with_quantity 3)); (250, map (with_quantity 4))]
        ++ [Debounce.Wait 600])
       {| Debounce.world := page [rifle] true []; Debounce.now := 1000;
          Debounce._recalcTimer := None; Debounce.timers := []; Debounce.nextTimer := 7;
          Debounce.fired := [] |})
  = [1950]
  /\ mutations
       (Debounce.world
          (Debounce.steps
             (Debounce.burst (map (with_quantity 2))
                [(100, map (with_quantity 3)); (250, map (with_quantity 4))]
              ++ [Debounce.Wait 600])
             {| Debounce.world := page [rifle] true []; Debounce.now := 1000;
                Debounce._recalcTimer := None; Debounce.timers := []; Debounce.nextTimer := 7;
                Debounce.fired := [] |}))
     = [POST_add PAYPAL_FEE_VARIANT_ID 140]
  /\ store
       (Debounce.world
          (Debounce.steps
             (Debounce.burst (map (with_quantity 2))
                [(100, map (with_quantity 3)); (250, map (with_quantity 4))]
              ++ [Debounce.Wait 600])
             {| Debounce.world := page [rifle] true []; Debounce.now := 1000;
                Debounce._recalcTimer := None; Debounce.timers := []; Debounce.nextTimer := 7;
                Debounce.fired := [] |}))
     = [with_quantity 4 rifle; fee_line 140].
Proof.
  destruct (debounce_collapses_burst
    {| Debounce.world := page [rifle] true []; Debounce.now := 1000;
       Debounce._recalcTimer := None; Debounce.timers := []; Debounce.nextTimer := 7;
       Debounce.fired := [] |}
    (map (with_quantity 2)) [(100, map (with_quantity 3)); (250, map (with_quantity 4))] 600)
    as (_ & _ & H & _ & _ & _ & Hpass).
  - reflexivity.
  - unfold page. cbn. lia.
  - unfold Debounce.QUIESCENCE. repeat constructor; cbn; lia.
  - unfold Debounce.QUIESCENCE. lia.
  - split; [exact H|]. destruct Hpass as [Hm Hst]; [reflexivity|vm_compute; reflexivity|].
    split; [exact Hm|exact Hst].
Defined.

(** ** The cart the debounced task leaves *)

(** The cart at which the pipelines aim is aligned. *)
Lemma settled_cart_facts wants l :
  wf_cart l = true ->
  merchandise (settled_cart wants l) = merchandise l
  /\ subtotal_of (settled_cart wants l) = subtotal_of l
  /\ (if (subtotal_of l =? 0)%Z then fee_lines (settled_cart wants l) = 0%nat
      else if wants || (0 <? fee_lines l)%nat
           then fee_lines (settled_cart wants l) = 1%nat
                /\ exists fee, findFeeLineItem {| items := settled_cart wants l |} = Some fee
                     /\ quantity fee = calculateFee (subtotal_of l)
           else settled_cart wants l = l).
Proof.
  intros Hwf. unfold settled_cart.
  destruct (wf_cart_facts _ Hwf) as (_ & H1 & _).
  destruct (applied_reconcile_aligned l Hwf) as (Hm & Hs & Hal).
  destruct (subtotal_of l =? 0)%Z.
  - rewrite merchandise_drop_first_fee, subtotal_drop_first_fee, fee_lines_drop_first_fee.
    repeat split. lia.
  - destruct (wants || (0 <? fee_lines l)%nat); auto.
Qed.

(** The cart the debounced task leaves is the one at which it aims. *)
Lemma recalcTask_settled w :
  wf_cart (store w) = true -> network w = [] ->
  store (exec recalcTask w) = settled_cart (wants_fee w) (store w).
Proof.
  intros Hwf Hn. destruct (recalcTask_run w Hwf Hn) as [_ ->]. unfold settled_cart.
  destruct (wf_cart_facts _ Hwf) as (_ & H1 & _).
  destruct (Z.eqb_spec (subtotal_of (store w)) 0) as [E0|E0]; [|reflexivity].
  unfold reconcile. fold (subtotal_of (store w)). apply Z.eqb_eq in E0. rewrite E0.
  unfold findFeeLineItem. cbn [items].
  destruct (find is_fee (store w)) as [fee|] eqn:Ef.
  - apply fee_lines_find_some in Ef as Hge. apply Nat.ltb_lt in Hge. rewrite Hge, orb_true_r.
    destruct (serve_remove_first_fee _ _ Ef) as [Hi Hc].
    unfold applied. cbn [serve]. apply Z.leb_le in Hi. rewrite Hi. cbn. rewrite Hc. reflexivity.
  - rewrite (drop_first_fee_none _ Ef). cbn [applied]. destruct (_ || _); reflexivity.
Qed.

(** X9.  The debounced quantity task aligns the fee.  Run while no other
    handler is in flight, on a cart as the store hands it out and a
    network that serves every request, it leaves the lines that are not
    fee lines as they were; leaves no fee line when the subtotal is 0;
    leaves exactly one fee line of quantity calculateFee(subtotal) when
    the subtotal is not 0 and the user wants the fee or the cart holds a
    fee line; and leaves the cart as it was otherwise. *)
Theorem debounced_task_aligns_fee w :
  wf_cart (store w) = true -> network w = [] ->
  let l := store w in
  let l' := store (exec (react RecalcTimerFired) w) in
  merchandise l' = merchandise l
  /\ (if (subtotal_of l =? 0)%Z then fee_lines l' = 0%nat
      else if wants_fee w || (0 <? fee_lines l)%nat
           then fee_lines l' = 1%nat
                /\ exists fee, findFeeLineItem {| items := l' |} = Some fee
                     /\ quantity fee = calculateFee (subtotal_of l)
           else l' = l).
Proof.
  intros Hwf Hn. cbv zeta. cbn [react]. rewrite (recalcTask_settled w Hwf Hn).
  destruct (settled_cart_facts (wants_fee w) (store w) Hwf) as (Hm & _ & Hal). auto.
Qed.

Lemma debounced_task_aligns_fee_witness :
  wf_cart (store (page [with_quantity 3 rifle; fee_line 35] false [])) = true
  /\ network (page [with_quantity 3 rifle; fee_line 35] false []) = []
  /\ merchandise (store (exec (react RecalcTimerFired)
                           (page [with_quantity 3 rifle; fee_line 35] false [])))
     = [with_quantity 3 rifle]
  /\ fee_lines (store (exec (react RecalcTimerFired)
                         (page [with_quantity 3 rifle; fee_line 35] false []))) = 1%nat.
Proof.
  split; [vm_compute; reflexivity|]. split; [reflexivity|].
  destruct (debounced_task_aligns_fee (page [with_quantity 3 rifle; fee_line 35] false []))
    as (H1 & H2); [vm_compute; reflexivity|reflexivity|].
  split; [exact H1|exact (proj1 H2)].
Defined.

(** ** CartAPI.setFeeQuantity *)

Lemma change_key_some k q l :
  bool_decide (is_Some (change_key k q l)) = existsb (fun item => String.eqb (key item) k) l.
Proof.
  induction l as [|x l IH]; [reflexivity|]. cbn [change_key existsb].
  destruct (String.eqb (key x) k); [reflexivity|]. cbn [orb]. rewrite <- IH.
  destruct (change_key k q l); reflexivity.
Qed.

Lemma setFeeQuantity_eq k q w :
  setFeeQuantity k q w =
    let r := POST_change_id k q in
    match hd Served (network w) with
    | Failed | Refused _ => (Some false, sent r w)
    | _ =>
        match serve r (store w) with
        | Some s' =>
            (Some true,
             exec refreshCartUI (set_traffic s' (requests w ++ [r]) (tl (network w)) w))
        | None => (Some false, sent r w)
        end
    end.
Proof.
  unfold setFeeQuantity, try_catch, bind, fetch. cbv zeta.
  assert (Hrefresh : forall w2, exists u, refreshCartUI w2 = (Some u, exec refreshCartUI w2)).
  { intros w2. pose proof (refreshCartUI_returns w2) as Hr. unfold result, exec in *.
    destruct (refreshCartUI w2) as [[u|] w3]; [exists u; reflexivity|exfalso; apply Hr; reflexivity]. }
  destruct (hd Served (network w)) as [| |d|]; try reflexivity.
  - destruct (serve (POST_change_id k q) (store w)) as [s'|]; cbn; [|reflexivity].
    destruct (Hrefresh (set_traffic s' (requests w ++ [POST_change_id k q]) (tl (network w)) w))
      as [u ->]. reflexivity.
  - destruct (serve (POST_change_id k q) (store w)) as [s'|]; cbn; [|reflexivity].
    destruct (Hrefresh (set_traffic s' (requests w ++ [POST_change_id k q]) (tl (network w)) w))
      as [u ->]. reflexivity.
Qed.

(** X5.  CartAPI.setFeeQuantity returns true exactly when the store accepted
    the change: the request was served, the quantity is not negative
    and the cart has a line with the key.  When it returns false the
    cart is as it was, its request is the only one sent, and there is no
    reload.  It never sends an add and shows no alert. *)
Theorem setFeeQuantity_result k q w :
  let ok := served (network w) && (0 <=? q)%Z
            && existsb (fun item => String.eqb (key item) k) (store w) in
  let w' := exec (setFeeQuantity k q) w in
  result (setFeeQuantity k q) w = Some ok
  /\ (ok = true
      \/ (store w' = store w /\ requests w' = requests w ++ [POST_change_id k q]
          /\ reloads w' = reloads w))
  /\ List.filter is_add (requests w') = List.filter is_add (requests w)
  /\ alerts w' = alerts w.
Proof.
  cbv zeta. unfold result, exec. rewrite setFeeQuantity_eq. cbv zeta.
  set (r := POST_change_id k q).
  assert (Hsent : List.filter is_add (requests (sent r w)) = List.filter is_add (requests w)).
  { cbn. rewrite List.filter_app. cbn. apply app_nil_r. }
  assert (Hserve : bool_decide (is_Some (serve r (store w)))
                   = (0 <=? q)%Z && existsb (fun item => String.eqb (key item) k) (store w)).
  { cbn [serve r]. destruct (0 <=? q)%Z; [apply change_key_some|reflexivity]. }
  assert (Hok : forall s', 
            List.filter is_add (requests (exec refreshCartUI
               (set_traffic s' (requests w ++ [r]) (tl (network w)) w)))
            = List.filter is_add (requests w)
            /\ alerts (exec refreshCartUI
                 (set_traffic s' (requests w ++ [r]) (tl (network w)) w)) = alerts w).
  { intros s'. set (w2 := set_traffic _ _ _ w). split.
    - destruct (refreshCartUI_sends_no_add w2) as (l & -> & Hl).
      rewrite List.filter_app. change (requests w2) with (requests w ++ [r]).
      rewrite List.filter_app. cbn [List.filter is_add r].
      assert (Hnil : List.filter is_add l = []).
      { clear -Hl. induction l as [|x l IH]; [reflexivity|]. cbn in *.
        apply andb_prop in Hl as [Hx Hl]. apply negb_true_iff in Hx. rewrite Hx. auto. }
      rewrite Hnil, !app_nil_r. reflexivity.
    - rewrite (refreshCartUI_same_alerts w2). reflexivity. }
  rewrite <- andb_assoc, <- Hserve. unfold served.
  destruct (hd Served (network w)) as [| |d|]; cbn [andb fst snd].
  - destruct (serve r (store w)) as [s'|]; cbn [fst snd].
    + destruct (Hok s') as [H1 H2]. split; [reflexivity|].
      split; [left; reflexivity|]. split; [exact H1|exact H2].
    + split; [reflexivity|]. split; [right; repeat split|]. split; [exact Hsent|reflexivity].
  - destruct (serve r (store w)) as [s'|]; cbn [fst snd].
    + destruct (Hok s') as [H1 H2]. split; [reflexivity|].
      split; [left; reflexivity|]. split; [exact H1|exact H2].
    + split; [reflexivity|]. split; [right; repeat split|]. split; [exact Hsent|reflexivity].
  - split; [reflexivity|]. split; [right; repeat split|]. split; [exact Hsent|reflexivity].
  - split; [reflexivity|]. split; [right; repeat split|]. split; [exact Hsent|reflexivity].
Qed.

(** ** The early synchronisation *)

(** X13.  syncCheckboxFromStorage only ever checks boxes.  Without the
    preference it changes nothing at all; with it, the main and drawer
    boxes that are in the document end up checked.  A box is checked
    afterwards exactly when it was checked before or has just been
    checked this way, so that no box is unchecked (in contrast with
    CheckboxHandler.init); the storage, the cart and the request log
    are as before. *)
Theorem syncCheckboxFromStorage_only_checks w id :
  let w' := exec syncCheckboxFromStorage w in
  (if wants_fee w then True else w' = w)
  /\ box_checked id w'
     = box_checked id w
       || (wants_fee w && bool_decide (id = ID_MAIN \/ id = ID_DRAWER) && box_present id w)
  /\ sessionStorage w' = sessionStorage w /\ store w' = store w /\ requests w' = requests w.
Proof.
  cbv zeta.
  assert (E : exec syncCheckboxFromStorage w
              = if wants_fee w
                then exec (setChecked ID_DRAWER true) (exec (setChecked ID_MAIN true) w)
                else w).
  { unfold exec, syncCheckboxFromStorage, bind. rewrite userWantsFee_eq.
    destruct (wants_fee w); reflexivity. }
  rewrite E. clear E.
  destruct (wants_fee w) eqn:Hw; cbn [andb].
  - split; [exact I|]. split; [|repeat split].
    rewrite !box_checked_setChecked.
    unfold exec, setChecked, modify, box_present, box_checked. cbn. rewrite lookup_alter.
    destruct (decide (ID_DRAWER = id)) as [<-|Hd].
    + destruct (decide (ID_MAIN = ID_DRAWER)) as [e|_]; [discriminate e|].
      rewrite bool_decide_eq_true_2 by auto.
      destruct (checkboxes w !! ID_DRAWER) as [c|]; cbn; [rewrite orb_true_r|]; reflexivity.
    + destruct (decide (ID_MAIN = id)) as [<-|Hm].
      * rewrite bool_decide_eq_true_2 by auto.
        destruct (checkboxes w !! ID_MAIN) as [c|]; cbn; [rewrite orb_true_r|]; reflexivity.
      * rewrite bool_decide_eq_false_2 by (intros [e|e]; congruence).
        cbn. rewrite orb_false_r. reflexivity.
  - split; [reflexivity|]. split; [|repeat split]. rewrite orb_false_r. reflexivity.
Qed.

(** ** The alerts *)

#[local] Instance alerts_known_preorder : PreOrder alerts_known.
Proof.
  split.
  - intros w. exists []. rewrite app_nil_r. auto.
  - intros w1 w2 w3 (l1 & E1 & F1) (l2 & E2 & F2). exists (l1 ++ l2).
    rewrite E2, E1, app_assoc, forallb_app, F1, F2. auto.
Qed.

Lemma same_alerts_known {A} (m : M A) : preserves same_alerts m -> preserves alerts_known m.
Proof. intros H w. exists []. rewrite app_nil_r. split; [apply H|reflexivity]. Qed.

Lemma alerts_known_intro w w' : alerts w' = alerts w -> alerts_known w w'.
Proof. intros E. exists []. rewrite app_nil_r. auto. Qed.

Lemma alert_known msg : known_alert msg = true -> preserves alerts_known (alert msg).
Proof. intros H w. exists [msg]. cbn. rewrite H. auto. Qed.

Lemma fetch_alerts_known r : preserves alerts_known (fetch r).
Proof. apply same_alerts_known, fetch_same_alerts. Qed.

#[local] Hint Resolve fetch_alerts_known : pres.
#[local] Hint Extern 1 (preserves alerts_known (alert _)) =>
  apply alert_known; reflexivity : pres.

Ltac modify_step ::=
  lazymatch goal with
  | |- preserves _ (modify _) =>
      let w := fresh "w" in
      intros w; unfold exec, modify; cbn [snd];
      first [apply same_session_only_deletes | apply same_session_only_sets_added
            | apply same_traffic_sends_no_add | apply same_traffic_no_more_fee_lines
            | apply same_traffic_keeps_one_fee_line | apply same_traffic_quiet_if_nonempty
            | apply same_traffic_quiet_if_no_fee | apply same_traffic_stays_healthy
            | apply same_boxes_keeps_unchecked | apply same_store_session_calm
            | apply reloads_grow_intro | apply alerts_known_intro | idtac];
      repeat split; first [reflexivity | cbn; lia]
  end.

Ltac unfold_prims ::=
  progress unfold setChecked, setDisabled, showLoader, hideLoader, dispatchEvent,
    reload, getItem, userWantsFee, getChecked, syncCheckbox, createModal,
    showConfirmModal, closeConfirmModal, onEscape, handleRemoveClick, toggle,
    syncCheckboxFromStorage, addFee_not_ok, setItem, removeItem.

Lemma getCart_alerts_known : preserves alerts_known getCart.
Proof. unfold getCart. pres. Qed.
#[local] Hint Resolve getCart_alerts_known : pres.
Lemma removeFee_alerts_known : preserves alerts_known removeFee.
Proof. unfold removeFee. pres. Qed.
#[local] Hint Resolve removeFee_alerts_known : pres.
Lemma checkEmptyCart_alerts_known : preserves alerts_known checkEmptyCart.
Proof. unfold checkEmptyCart. pres. Qed.
#[local] Hint Resolve checkEmptyCart_alerts_known : pres.
Lemma CheckboxHandler_init_alerts_known : preserves alerts_known CheckboxHandler_init.
Proof. unfold CheckboxHandler_init. pres. Qed.
#[local] Hint Resolve CheckboxHandler_init_alerts_known : pres.
Lemma refreshCartUI_alerts_known : preserves alerts_known refreshCartUI.
Proof. unfold refreshCartUI. pres. Qed.
#[local] Hint Resolve refreshCartUI_alerts_known : pres.
Lemma setFeeQuantity_alerts_known k q : preserves alerts_known (setFeeQuantity k q).
Proof. unfold setFeeQuantity. pres. Qed.
#[local] Hint Resolve setFeeQuantity_alerts_known : pres.
Lemma addFee_alerts_known f : preserves alerts_known (addFee f).
Proof.
  unfold addFee. change (PAYPAL_FEE_VARIANT_ID =? 0)%Z with false. cbv iota. pres.
Qed.
#[local] Hint Resolve addFee_alerts_known : pres.
Lemma updateFee_alerts_known : preserves alerts_known updateFee.
Proof. unfold updateFee. pres. Qed.
#[local] Hint Resolve updateFee_alerts_known : pres.
Lemma recalcTask_alerts_known : preserves alerts_known recalcTask.
Proof. unfold recalcTask. pres. Qed.
#[local] Hint Resolve recalcTask_alerts_known : pres.
Lemma onCartUpdated_alerts_known : preserves alerts_known onCartUpdated.
Proof. unfold onCartUpdated. pres. Qed.
#[local] Hint Resolve onCartUpdated_alerts_known : pres.
Lemma alignFee_alerts_known : preserves alerts_known alignFee.
Proof. unfold alignFee. pres. Qed.
#[local] Hint Resolve alignFee_alerts_known : pres.
Lemma init_alerts_known : preserves alerts_known init.
Proof. unfold init. pres. Qed.
#[local] Hint Resolve init_alerts_known : pres.
Lemma pageScript_alerts_known : preserves alerts_known pageScript.
Proof. unfold pageScript. pres. Qed.
#[local] Hint Resolve pageScript_alerts_known : pres.
Lemma handleCheckboxChange_alerts_known t : preserves alerts_known (handleCheckboxChange t).
Proof. unfold handleCheckboxChange. pres. Qed.
#[local] Hint Resolve handleCheckboxChange_alerts_known : pres.
Lemma handleProductCheckboxChange_alerts_known :
  preserves alerts_known handleProductCheckboxChange.
Proof. unfold handleProductCheckboxChange. pres. Qed.
#[local] Hint Resolve handleProductCheckboxChange_alerts_known : pres.
Lemma ajaxAdd_alerts_known item : preserves alerts_known (ajaxAdd item).
Proof. unfold ajaxAdd. pres. Qed.
#[local] Hint Resolve ajaxAdd_alerts_known : pres.
Lemma confirmRemoval_alerts_known : preserves alerts_known confirmRemoval.
Proof. unfold confirmRemoval. pres. Qed.
#[local] Hint Resolve confirmRemoval_alerts_known : pres.

Lemma react_alerts_known e : preserves alerts_known (react e).
Proof. unfold react. destruct e; pres. Qed.

(** X18.  The only alerts the page ever shows are the out-of-stock alert of
    [addFee] and the error alert of the checkbox handler: after any
    sequence of events, the alerts are those there were before, followed
    by alerts of these two kinds.  The alert for a fee variant that is
    not configured is never shown, the variant being a constant of the
    script. *)
Theorem only_known_alerts es w :
  exists l, alerts (run es w) = alerts w ++ l
    /\ Forall (fun msg => (msg = MSG_OUT_OF_STOCK \/ msg = MSG_CHECKBOX_ERROR)
                          /\ msg <> MSG_NO_VARIANT) l.
Proof.
  assert (H : alerts_known w (run es w)).
  { revert w. induction es as [|e es IH]; intros w; [reflexivity|].
    cbn [run fold_left]. etransitivity; [apply react_alerts_known|apply IH]. }
  destruct H as (l & E & F). exists l. split; [exact E|].
  clear E. induction l as [|x l IH]; constructor.
  - cbn in F. apply andb_prop in F as [Fx _]. unfold known_alert in Fx.
    apply orb_prop in Fx as [Fx|Fx]; apply String.eqb_eq in Fx; subst x;
      (split; [auto|vm_compute; discriminate]).
  - apply IH. cbn in F. apply andb_prop in F as [_ F]. exact F.
Qed.
